(** * garmin_mcp.nutrition: meal resolution, response curation, tool handlers

    A shallow embedding of [src/garmin_mcp/nutrition.py].

    - A Python [str] is its UTF-8 text ([String.string]): equality,
      concatenation, cutting at a comma and [in] are then what they are in
      Python.  The Unicode-aware methods [str.strip], [str.upper] and [repr]
      belong to the interpreter; they are a component of the world
      ([builtins]), known to act on ASCII text as the functions of [PyStr]
      do.
    - Python values that reach [json.dumps] are terms of [value]; a [dict] is
      an association list in insertion order.
    - The garth collaborator is a record of oracles; every call is logged in a
      trace, so that "never invoked" and "invoked once" are statements about
      the trace.
    - [try]/[except] is an outcome monad over that trace. *)

From Stdlib Require Import String Ascii List ZArith Bool Arith Lia.
From Stdlib Require Import Numbers.DecimalString.
Import ListNotations.
Open Scope string_scope.
Open Scope list_scope.

(* ================================================================== *)
(** ** Python string builtins: what they do on ASCII text *)
(* ================================================================== *)

Module PyStr.

(** [c.isspace()] for code points below 128: TAB, LF, VT, FF, CR,
    FS, GS, RS, US and SPACE.  (Python knows more whitespace above 128.) *)
Definition is_space (c : ascii) : bool :=
  let n := nat_of_ascii c in
  (((9 <=? n) && (n <=? 13)) || ((28 <=? n) && (n <=? 32)))%nat.

Fixpoint lstrip (s : string) : string :=
  match s with
  | EmptyString => EmptyString
  | String c r => if is_space c then lstrip r else s
  end.

Fixpoint rstrip (s : string) : string :=
  match s with
  | EmptyString => EmptyString
  | String c r =>
      match rstrip r with
      | EmptyString => if is_space c then EmptyString else String c EmptyString
      | r' => String c r'
      end
  end.

(** [s.strip()] of an ASCII text. *)
Definition strip (s : string) : string := rstrip (lstrip s).

Definition is_lower (c : ascii) : bool :=
  let n := nat_of_ascii c in ((97 <=? n) && (n <=? 122))%nat.

Definition upper_char (c : ascii) : ascii :=
  if is_lower c then ascii_of_nat (nat_of_ascii c - 32) else c.

(** [s.upper()] of an ASCII text. *)
Fixpoint upper (s : string) : string :=
  match s with
  | EmptyString => EmptyString
  | String c r => String (upper_char c) (upper r)
  end.

(** [s.split(sep)] for a one-character separator: never the empty list,
    [n] separators give [n + 1] pieces. *)
Fixpoint split (sep : ascii) (s : string) : list string :=
  match s with
  | EmptyString => [EmptyString]
  | String c r =>
      if Ascii.eqb c sep then EmptyString :: split sep r
      else match split sep r with
           | p :: ps => String c p :: ps
           | [] => [String c EmptyString]
           end
  end.

(** [sep.join(l)] *)
Fixpoint join (sep : string) (l : list string) : string :=
  match l with
  | [] => EmptyString
  | [p] => p
  | p :: ps => p ++ sep ++ join sep ps
  end.

Fixpoint mem_char (c : ascii) (s : string) : bool :=
  match s with
  | EmptyString => false
  | String d r => Ascii.eqb c d || mem_char c r
  end.

Fixpoint starts_with (p s : string) : bool :=
  match p, s with
  | EmptyString, _ => true
  | String a p', String b s' => Ascii.eqb a b && starts_with p' s'
  | String _ _, EmptyString => false
  end.

(** [sub in s] *)
Fixpoint contains (sub s : string) : bool :=
  starts_with sub s ||
  match s with
  | EmptyString => false
  | String _ r => contains sub r
  end.

Definition hex_digit (n : nat) : ascii :=
  if (n <? 10)%nat then ascii_of_nat (48 + n) else ascii_of_nat (87 + n).

(** One character of [repr(s)] inside the quote [q], for a code point
    below 128 (above, the interpreter keeps what its Unicode database calls
    printable). *)
Definition repr_char (q c : ascii) : string :=
  let n := nat_of_ascii c in
  if Ascii.eqb c q || Ascii.eqb c "\"%char then String "\"%char (String c EmptyString)
  else if (n =? 9)%nat then "\t"
  else if (n =? 10)%nat then "\n"
  else if (n =? 13)%nat then "\r"
  else if ((n <? 32) || (127 <=? n))%nat then
    String "\"%char (String "x"%char
      (String (hex_digit (n / 16)) (String (hex_digit (n mod 16)) EmptyString)))
  else String c EmptyString.

Fixpoint repr_body (q : ascii) (s : string) : string :=
  match s with
  | EmptyString => EmptyString
  | String c r => repr_char q c ++ repr_body q r
  end.

Definition squote : ascii := "'"%char.
Definition dquote : ascii := ascii_of_nat 34.

(** [repr(s)] of an ASCII text: single quotes, unless the text has a single
    quote and no double quote. *)
Definition repr (s : string) : string :=
  let q := if mem_char squote s && negb (mem_char dquote s) then dquote else squote in
  String q (repr_body q s ++ String q EmptyString).

(** [repr(l)] for a list of strings, which is also [str(l)] and what an
    f-string interpolates. *)
Definition repr_list (l : list string) : string :=
  "[" ++ join ", " (map repr l) ++ "]".

(** The decimal text of an [int]. *)
Definition str_of_int (n : Z) : string :=
  NilEmpty.string_of_int (Z.to_int n).

(** [sys.get_int_max_str_digits()]: [str(n)] raises a [ValueError] for an
    [int] with more digits, and so does the conversion the other way. *)
Definition int_max_str_digits : nat := 4300.

Definition int_fits (n : Z) : bool :=
  (String.length (str_of_int (Z.abs n)) <=? int_max_str_digits)%nat.

(** The text holds code points below 128 only. *)
Definition is_ascii_char (c : ascii) : bool := (nat_of_ascii c <? 128)%nat.

Fixpoint is_ascii (s : string) : bool :=
  match s with
  | EmptyString => true
  | String c r => is_ascii_char c && is_ascii r
  end.

End PyStr.

(* ================================================================== *)
(** ** Python values and dictionaries *)
(* ================================================================== *)

(** The values the curators move around and [json.dumps] accepts.
    [VFloat m e] is the double [m * 2^e]; the module never computes with a
    number, it only tests it against [None]. *)
#[warnings="-register-all"]
Inductive value : Type :=
| VNone
| VBool (b : bool)
| VInt (n : Z)
| VFloat (m e : Z)
| VStr (s : string)
| VList (l : list value)
| VDict (d : list (string * value)).

(** A [dict] with [str] keys, in insertion order. *)
Definition dict : Type := list (string * value).

(** [v is None] *)
Definition is_none (v : value) : bool :=
  match v with VNone => true | _ => false end.

(** [bool(v)], the test of [if v:]. *)
Definition truthy (v : value) : bool :=
  match v with
  | VNone => false
  | VBool b => b
  | VInt n => negb (Z.eqb n 0)
  | VFloat m _ => negb (Z.eqb m 0)
  | VStr s => negb (String.eqb s "")
  | VList l => match l with [] => false | _ => true end
  | VDict d => match d with [] => false | _ => true end
  end.

(** [d.get(k)] *)
Fixpoint dict_get (k : string) (d : dict) : option value :=
  match d with
  | [] => None
  | (k', v) :: r => if String.eqb k k' then Some v else dict_get k r
  end.

(** [k in d] *)
Definition dict_has (k : string) (d : dict) : bool :=
  match dict_get k d with Some _ => true | None => false end.

(** [d[k] = v]: overwrite in place, or append a new key. *)
Fixpoint dict_set (k : string) (v : value) (d : dict) : dict :=
  match d with
  | [] => [(k, v)]
  | (k', v') :: r =>
      if String.eqb k k' then (k, v) :: r else (k', v') :: dict_set k v r
  end.

(** [d.update(other)] *)
Definition dict_update (d other : dict) : dict :=
  fold_left (fun acc kv => dict_set (fst kv) (snd kv) acc) other d.

(** [{k: v for k, v in d.items() if v is not None}] *)
Definition prune_none (d : dict) : dict :=
  filter (fun kv => negb (is_none (snd kv))) d.

Definition keys (d : dict) : list string := map fst d.

(* ================================================================== *)
(** ** The collaborator's response objects *)
(* ================================================================== *)

(** Modelled from the spec: the garth response classes ([garth.nutrition]
    is not part of this repository's sources).  Section 3 of the
    specification lists their fields; the curators read exactly these
    attributes.  A scalar attribute is a [value] ([VNone] when absent), a
    nested object is an [option], a sequence is a [list]. *)

Module Meal.
Record t := mk { meal_id : Z; meal_name : string }.
End Meal.

Module NutritionContent.
Record t := mk {
  serving_id : value;
  serving_unit : value;
  number_of_units : value;
  calories : value;
  protein : value;
  fat : value;
  carbs : value;
  fiber : value;
  sugar : value }.
End NutritionContent.

Module MacroGoals.
Record t := mk {
  calories : value;
  protein : value;
  fat : value;
  carbs : value }.
End MacroGoals.

Module FoodMetaData.
Record t := mk {
  food_id : value;
  food_name : value;
  brand_name : value;
  source : value }.
End FoodMetaData.

Module SearchResult.
Record t := mk {
  food_meta_data : option FoodMetaData.t;
  nutrition_contents : option (list NutritionContent.t);
  is_favorite : value }.
End SearchResult.

Module LoggedFood.
Record t := mk {
  log_id : value;
  food_meta_data : option FoodMetaData.t;
  serving_qty : value;
  selected_nutrition_content : option NutritionContent.t }.
End LoggedFood.

Module MealDetail.
Record t := mk {
  meal : Meal.t;
  meal_nutrition_content : option NutritionContent.t;
  logged_foods : option (list LoggedFood.t) }.
End MealDetail.

Module DailyNutritionLog.
Record t := mk {
  meal_date : value;
  daily_nutrition_goals : option MacroGoals.t;
  daily_nutrition_content : option NutritionContent.t;
  meal_details : list MealDetail.t }.
End DailyNutritionLog.

Module NutritionSettings.
Record t := mk {
  calorie_goal : value;
  weight_change_type : value;
  auto_calorie_adjustment : value;
  region_code : value;
  language_code : value;
  starting_weight : value;
  target_weight_goal : value;
  target_date : value;
  macro_goals : option MacroGoals.t }.
End NutritionSettings.

(** [FoodSearch.search] *)
Module SearchResults.
Record t := mk {
  results : list SearchResult.t;
  more_data_available : value }.
End SearchResults.

(** [FoodSearch.recent] *)
Module RecentFoods.
Record t := mk {
  frequent_foods : list SearchResult.t;
  recent_foods : list SearchResult.t }.
End RecentFoods.

(** [FavoriteFoods.list] *)
Module FavoriteFoodList.
Record t := mk {
  items : list SearchResult.t;
  has_more : value }.
End FavoriteFoodList.

(** [CustomFood.list] *)
Module CustomFoodList.
Record t := mk {
  items : list SearchResult.t;
  more_data_available : value }.
End CustomFoodList.

(** [CustomMeal.list] *)
Module CustomMealList.
Record t := mk {
  items : list SearchResult.t;
  has_more : value }.
End CustomMealList.

(** [CustomMeal.create] *)
Module CustomMealDetail.
Record t := mk {
  custom_meal_id : value;
  name : value;
  foods : list value;
  content_summary : option NutritionContent.t }.
End CustomMealDetail.

(* ================================================================== *)
(** ** Exceptions, collaborator calls and the handler monad *)
(* ================================================================== *)

(** The classes the module tells apart: [except json.JSONDecodeError] comes
    before [except Exception] in [create_custom_meal]; every other instance of
    [Exception] is caught by the latter alone. *)
Inductive exn_class : Type :=
| JSONDecodeError
| ValueError
| AttributeError
| OtherException.

(** An instance of [Exception]: its class and [str(e)]. *)
Record exn : Type := mk_exn { exn_cls : exn_class; exn_str : string }.

Inductive outcome (A : Type) : Type :=
| Return (a : A)
| Raise (e : exn).
Arguments Return {A} a.
Arguments Raise {A} e.

(** The operations of [garth.nutrition] the handlers call, with the keyword
    arguments they pass and the type of what comes back. *)
Inductive request : Type -> Type :=
| MealDefinitions_get (day : option string) : request (list Meal.t)
| DailyNutritionLog_get (day : string) : request DailyNutritionLog.t
| NutritionSettings_get (day : option string) : request NutritionSettings.t
| FoodSearch_search (query : string) (start limit : Z) : request SearchResults.t
| FoodSearch_recent (meal_id : Z) (day : option string) : request RecentFoods.t
| FavoriteFoods_list (query : string) (start limit : Z) : request FavoriteFoodList.t
| CustomFood_list (query : string) (start limit : Z) : request CustomFoodList.t
| FoodLog_add (day : string) (meal_id : Z) (food_id serving_id source : string)
    (serving_qty : value) : request DailyNutritionLog.t
| QuickAdd_add (day : string) (meal_id : Z) (name : string)
    (calories protein fat carbs : value) : request DailyNutritionLog.t
| FoodLog_update (day log_id : string) (meal_id : Z)
    (food_id serving_id source : string) (serving_qty : value)
    : request DailyNutritionLog.t
| FoodLog_remove (day : string) (log_ids : list string) : request unit
| FavoriteFoods_add (food_id serving_id source : string) (serving_qty : value)
    : request unit
| FavoriteFoods_remove (food_id : string) : request unit
| CustomFood_create (food_name serving_unit : string)
    (number_of_units calories protein fat carbs fiber sugar : value)
    : request SearchResult.t
| CustomFood_delete (food_id : string) : request unit
| CustomMeal_list (query : string) (start limit : Z) : request CustomMealList.t
| CustomMeal_create (name : string) (foods : list value) : request CustomMealDetail.t.

(** The garth client: what each operation answers, or raises. *)
Definition garth_client : Type := forall A, request A -> outcome A.

(** What a handler does to the outside, in order. *)
Inductive event : Type :=
| Called {A : Type} (r : request A)
| JsonLoads (text : string).

Definition trace : Type := list event.

Definition M (A : Type) : Type := trace -> outcome A * trace.

Definition ret {A} (a : A) : M A := fun t => (Return a, t).
Definition raise {A} (e : exn) : M A := fun t => (Raise e, t).
Definition bind {A B} (m : M A) (k : A -> M B) : M B :=
  fun t => match m t with
           | (Return a, t') => k a t'
           | (Raise e, t') => (Raise e, t')
           end.

(** [try: body  except Exception as e: handler e] *)
Definition try_except {A} (body : M A) (handler : exn -> M A) : M A :=
  fun t => match body t with
           | (Return a, t') => (Return a, t')
           | (Raise e, t') => handler e t'
           end.

Declare Scope py_scope.
Delimit Scope py_scope with py.
Notation "x <- m ;; k" := (bind m (fun x => k))
  (at level 61, m at next level, right associativity) : py_scope.
Notation "m ;;; k" := (bind m (fun _ => k))
  (at level 61, right associativity) : py_scope.

(** The text a tool returns: [json.dumps(v, indent=2)] of a value, or a
    message. *)
Inductive text : Type :=
| json_dumps (v : value)
| message (s : string).

(** An identifier argument typed [str | int].  An [int] is one the
    interpreter converts to text: it has at most [int_max_str_digits]
    digits.  (Beyond that [str] raises a [ValueError] before anything is
    called, and [json.loads] refuses to produce the number; such
    identifiers are left out.) *)
Inductive id_arg : Type :=
| IdStr (s : string)
| IdInt (n : Z) (fits : PyStr.int_fits n = true).

(** [str(x)] *)
Definition str (x : id_arg) : string :=
  match x with
  | IdStr s => s
  | IdInt n _ => PyStr.str_of_int n
  end.

(** The argument [foods_json : str | list]. *)
Inductive foods_arg : Type :=
| FoodsList (l : list value)
| FoodsText (s : string).

(* ================================================================== *)
(** ** The response curators *)
(* ================================================================== *)

Definition _curate_nutrition_content (nc : option NutritionContent.t) : dict :=
  match nc with
  | None => []
  | Some nc =>
      let curated :=
        [ ("serving_id", NutritionContent.serving_id nc);
          ("serving_unit", NutritionContent.serving_unit nc);
          ("number_of_units", NutritionContent.number_of_units nc);
          ("calories", NutritionContent.calories nc);
          ("protein", NutritionContent.protein nc);
          ("fat", NutritionContent.fat nc);
          ("carbs", NutritionContent.carbs nc);
          ("fiber", NutritionContent.fiber nc);
          ("sugar", NutritionContent.sugar nc) ] in
      prune_none curated
  end.

Definition _curate_food_meta (fm : option FoodMetaData.t) : dict :=
  match fm with
  | None => []
  | Some fm =>
      let curated :=
        [ ("food_id", FoodMetaData.food_id fm);
          ("food_name", FoodMetaData.food_name fm);
          ("brand_name", FoodMetaData.brand_name fm);
          ("source", FoodMetaData.source fm) ] in
      prune_none curated
  end.

(** [bool(x)] for an attribute that is [None] or a list. *)
Definition truthy_list {A} (l : option (list A)) : bool :=
  match l with
  | Some (_ :: _) => true
  | _ => false
  end.

(** [bool(x)] for an attribute that is [None] or an object. *)
Definition truthy_obj {A} (o : option A) : bool :=
  match o with Some _ => true | None => false end.

(** The elements a [for] runs over once the attribute passed [if x:]. *)
Definition elements {A} (l : option (list A)) : list A :=
  match l with Some l => l | None => [] end.

Definition _curate_search_result (sr : SearchResult.t) : dict :=
  let result := _curate_food_meta (SearchResult.food_meta_data sr) in
  let result :=
    if truthy_list (SearchResult.nutrition_contents sr) then
      dict_set "servings"
        (VList (map (fun nc => VDict (_curate_nutrition_content (Some nc)))
                    (elements (SearchResult.nutrition_contents sr))))
        result
    else result in
  let result :=
    if negb (is_none (SearchResult.is_favorite sr)) then
      dict_set "is_favorite" (SearchResult.is_favorite sr) result
    else result in
  result.

Definition _curate_logged_food (lf : LoggedFood.t) : dict :=
  let curated : dict := [] in
  let curated :=
    if truthy (LoggedFood.log_id lf) then
      dict_set "log_id" (LoggedFood.log_id lf) curated
    else curated in
  let curated := dict_update curated (_curate_food_meta (LoggedFood.food_meta_data lf)) in
  let curated :=
    if negb (is_none (LoggedFood.serving_qty lf)) then
      dict_set "serving_qty" (LoggedFood.serving_qty lf) curated
    else curated in
  let curated :=
    if truthy_obj (LoggedFood.selected_nutrition_content lf) then
      dict_set "nutrition"
        (VDict (_curate_nutrition_content (LoggedFood.selected_nutrition_content lf)))
        curated
    else curated in
  curated.

(** The [goals] block shared by [_curate_daily_log] and
    [get_nutrition_summary]. *)
Definition curate_goals (log : DailyNutritionLog.t) : dict :=
  match DailyNutritionLog.daily_nutrition_goals log with
  | Some g =>
      prune_none
        [ ("calories", MacroGoals.calories g);
          ("protein", MacroGoals.protein g);
          ("fat", MacroGoals.fat g);
          ("carbs", MacroGoals.carbs g) ]
  | None => []
  end.

(** The [totals] block shared by [_curate_daily_log] and
    [get_nutrition_summary]. *)
Definition curate_totals (log : DailyNutritionLog.t) : dict :=
  match DailyNutritionLog.daily_nutrition_content log with
  | Some t =>
      prune_none
        [ ("calories", NutritionContent.calories t);
          ("protein", NutritionContent.protein t);
          ("fat", NutritionContent.fat t);
          ("carbs", NutritionContent.carbs t) ]
  | None => []
  end.

(** The body of the [for md in log.meal_details] loop. *)
Definition curate_meal_detail (md : MealDetail.t) : dict :=
  let meal_data : dict :=
    [ ("meal_name", VStr (Meal.meal_name (MealDetail.meal md)));
      ("meal_id", VInt (Meal.meal_id (MealDetail.meal md))) ] in
  let meal_data :=
    if truthy_obj (MealDetail.meal_nutrition_content md) then
      dict_set "totals"
        (VDict (_curate_nutrition_content (MealDetail.meal_nutrition_content md)))
        meal_data
    else meal_data in
  let meal_data :=
    if truthy_list (MealDetail.logged_foods md) then
      dict_set "foods"
        (VList (map (fun f => VDict (_curate_logged_food f))
                    (elements (MealDetail.logged_foods md))))
        meal_data
    else meal_data in
  meal_data.

Definition _curate_daily_log (log : DailyNutritionLog.t) : dict :=
  let goals := curate_goals log in
  let totals := curate_totals log in
  let meals := map (fun md => VDict (curate_meal_detail md))
                   (DailyNutritionLog.meal_details log) in
  let curated :=
    [ ("date", DailyNutritionLog.meal_date log);
      ("daily_goals", VDict goals);
      ("daily_totals", VDict totals);
      ("meals", VList meals) ] in
  prune_none curated.

(* ================================================================== *)
(** ** The module state and the tool handlers *)
(* ================================================================== *)

(** The interpreter's [str] methods.  They follow the Unicode database,
    which is not written out here; what is known of them is what they do on
    ASCII text, that [strip] returns a part of its argument, and that
    stripping twice is stripping once. *)
Record builtins : Type := mk_builtins {
  py_upper : string -> string;
  py_strip : string -> string;
  py_repr : string -> string;
  upper_ascii : forall s, PyStr.is_ascii s = true -> py_upper s = PyStr.upper s;
  strip_ascii : forall s, PyStr.is_ascii s = true -> py_strip s = PyStr.strip s;
  repr_ascii : forall s, PyStr.is_ascii s = true -> py_repr s = PyStr.repr s;
  strip_inside : forall s, exists pre post, s = (pre ++ py_strip s ++ post)%string;
  strip_idem : forall s, py_strip (py_strip s) = py_strip s }.

(** What the module runs against: the global [garmin_client] ([None] until
    [configure] is called; its [garth] attribute is the collaborator), the
    standard library's [json.loads], and the interpreter's [str] methods. *)
Record world : Type := mk_world {
  garmin_client : option garth_client;
  json_loads : string -> outcome value;
  python : builtins }.

Definition configure (client : garth_client) (w : world) : world :=
  mk_world (Some client) (json_loads w) (python w).

Local Open Scope py_scope.

Section Handlers.

Variable w : world.

(** [garmin_client.garth] *)
Definition _garth : M garth_client :=
  match garmin_client w with
  | Some c => ret c
  | None =>
      raise (mk_exn AttributeError "'NoneType' object has no attribute 'garth'")
  end.

(** [Op(..., client=_garth())]: the client is looked up first, then the
    operation runs and is recorded. *)
Definition call {A} (r : request A) : M A :=
  c <- _garth ;;
  (fun t => (c A r, t ++ [Called r])).

(** [json.loads(s)] *)
Definition loads (s : string) : M value :=
  fun t => (json_loads w s, t ++ [JsonLoads s]).

(** [s.upper()], [s.strip()] and [repr(s)] *)
Definition upper (s : string) : string := py_upper (python w) s.
Definition strip (s : string) : string := py_strip (python w) s.
Definition repr (s : string) : string := py_repr (python w) s.

(** [str(l)] of a list of strings, as an f-string interpolates it. *)
Definition repr_names (l : list string) : string :=
  "[" ++ PyStr.join ", " (map repr l) ++ "]".

(** The [for m in meals] loop of [_resolve_meal_id]. *)
Fixpoint scan_meals (wanted : string) (meals : list Meal.t) : option Z :=
  match meals with
  | [] => None
  | m :: rest =>
      if String.eqb (upper (Meal.meal_name m)) wanted
      then Some (Meal.meal_id m)
      else scan_meals wanted rest
  end.

Definition unknown_meal (meal : string) (meals : list Meal.t) : exn :=
  let available := map Meal.meal_name meals in
  mk_exn ValueError
    ("Unknown meal '" ++ meal ++ "'. Available: " ++ repr_names available).

Definition _resolve_meal_id (meal : string) (day : option string) : M Z :=
  meals <- call (MealDefinitions_get day) ;;
  let wanted := upper (strip meal) in
  match scan_meals wanted meals with
  | Some id => ret id
  | None => raise (unknown_meal meal meals)
  end.

(** [except Exception as e: return f"<prefix>: {e}"] *)
Definition report (prefix : string) (e : exn) : M text :=
  ret (message (prefix ++ ": " ++ exn_str e)).

Definition curated_dump (d : dict) : M text := ret (json_dumps (VDict d)).

(* -- read tools -- *)

Definition get_nutrition_log (date : string) : M text :=
  try_except
    (log <- call (DailyNutritionLog_get date) ;;
     curated_dump (_curate_daily_log log))
    (report "Error getting nutrition log").

Definition get_nutrition_summary (date : string) : M text :=
  try_except
    (log <- call (DailyNutritionLog_get date) ;;
     let goals := curate_goals log in
     let totals := curate_totals log in
     let curated :=
       [ ("date", DailyNutritionLog.meal_date log);
         ("totals", VDict totals);
         ("goals", VDict goals) ] in
     curated_dump curated)
    (report "Error getting nutrition summary").

Definition get_nutrition_settings (date : option string) : M text :=
  try_except
    (s <- call (NutritionSettings_get date) ;;
     let curated :=
       [ ("calorie_goal", NutritionSettings.calorie_goal s);
         ("weight_change_type", NutritionSettings.weight_change_type s);
         ("auto_calorie_adjustment", NutritionSettings.auto_calorie_adjustment s);
         ("region_code", NutritionSettings.region_code s);
         ("language_code", NutritionSettings.language_code s);
         ("starting_weight_grams", NutritionSettings.starting_weight s);
         ("target_weight_goal_grams", NutritionSettings.target_weight_goal s);
         ("target_date", NutritionSettings.target_date s) ] in
     let curated :=
       match NutritionSettings.macro_goals s with
       | Some mg =>
           dict_set "macro_goals"
             (VDict [ ("calories", MacroGoals.calories mg);
                      ("protein", MacroGoals.protein mg);
                      ("fat", MacroGoals.fat mg);
                      ("carbs", MacroGoals.carbs mg) ])
             curated
       | None => curated
       end in
     curated_dump (prune_none curated))
    (report "Error getting nutrition settings").

Definition curate_all (l : list SearchResult.t) : value :=
  VList (map (fun r => VDict (_curate_search_result r)) l).

Definition search_foods (query : string) (start limit : Z) : M text :=
  try_except
    (results <- call (FoodSearch_search query start limit) ;;
     curated_dump
       [ ("query", VStr query);
         ("results", curate_all (SearchResults.results results));
         ("has_more", SearchResults.more_data_available results) ])
    (report "Error searching foods").

Definition get_recent_foods (meal : string) (date : option string) : M text :=
  try_except
    (meal_id <- _resolve_meal_id meal date ;;
     recent <- call (FoodSearch_recent meal_id date) ;;
     curated_dump
       [ ("meal", VStr (upper meal));
         ("frequent_foods", curate_all (RecentFoods.frequent_foods recent));
         ("recent_foods", curate_all (RecentFoods.recent_foods recent)) ])
    (report "Error getting recent foods").

Definition list_favorite_foods (query : string) (start limit : Z) : M text :=
  try_except
    (favs <- call (FavoriteFoods_list query start limit) ;;
     curated_dump
       [ ("favorites", curate_all (FavoriteFoodList.items favs));
         ("has_more", FavoriteFoodList.has_more favs) ])
    (report "Error listing favorites").

Definition list_custom_foods (query : string) (start limit : Z) : M text :=
  try_except
    (foods <- call (CustomFood_list query start limit) ;;
     curated_dump
       [ ("custom_foods", curate_all (CustomFoodList.items foods));
         ("has_more", CustomFoodList.more_data_available foods) ])
    (report "Error listing custom foods").

(* -- write tools -- *)

Definition log_food (date meal : string) (food_id serving_id : id_arg)
    (source : string) (serving_qty : value) : M text :=
  try_except
    (let food_id := str food_id in
     let serving_id := str serving_id in
     meal_id <- _resolve_meal_id meal (Some date) ;;
     log <- call (FoodLog_add date meal_id food_id serving_id source serving_qty) ;;
     curated_dump (_curate_daily_log log))
    (report "Error logging food").

Definition quick_add_nutrition (date meal name : string)
    (calories protein fat carbs : value) : M text :=
  try_except
    (meal_id <- _resolve_meal_id meal (Some date) ;;
     log <- call (QuickAdd_add date meal_id name calories protein fat carbs) ;;
     curated_dump (_curate_daily_log log))
    (report "Error quick-adding nutrition").

Definition update_food_log (date : string) (log_id : id_arg) (meal : string)
    (food_id serving_id : id_arg) (source : string) (serving_qty : value)
    : M text :=
  try_except
    (let log_id := str log_id in
     let food_id := str food_id in
     let serving_id := str serving_id in
     meal_id <- _resolve_meal_id meal (Some date) ;;
     log <- call (FoodLog_update date log_id meal_id food_id serving_id
                    source serving_qty) ;;
     curated_dump (_curate_daily_log log))
    (report "Error updating food log").

(** [[lid.strip() for lid in log_ids.split(",") if lid.strip()]] *)
Definition parse_log_ids (log_ids : string) : list string :=
  map strip
    (filter (fun lid => negb (String.eqb (strip lid) ""))
            (PyStr.split ","%char log_ids)).

Definition remove_food_log (date log_ids : string) : M text :=
  try_except
    (let ids := parse_log_ids log_ids in
     match ids with
     | [] => ret (message "Error: no log_ids provided")
     | _ =>
         call (FoodLog_remove date ids) ;;;
         curated_dump
           [ ("status", VStr "success");
             ("date", VStr date);
             ("removed_count", VInt (Z.of_nat (length ids))) ]
     end)
    (report "Error removing food log entries").

Definition add_favorite_food (food_id serving_id : id_arg) (source : string)
    (serving_qty : value) : M text :=
  try_except
    (let food_id := str food_id in
     let serving_id := str serving_id in
     call (FavoriteFoods_add food_id serving_id source serving_qty) ;;;
     curated_dump [ ("status", VStr "success"); ("food_id", VStr food_id) ])
    (report "Error adding favorite").

Definition remove_favorite_food (food_id : id_arg) : M text :=
  try_except
    (let food_id := str food_id in
     call (FavoriteFoods_remove food_id) ;;;
     curated_dump [ ("status", VStr "success"); ("food_id", VStr food_id) ])
    (report "Error removing favorite").

Definition create_custom_food (food_name serving_unit : string)
    (number_of_units calories protein fat carbs fiber sugar : value) : M text :=
  try_except
    (result <- call (CustomFood_create food_name serving_unit number_of_units
                       calories protein fat carbs fiber sugar) ;;
     curated_dump (_curate_search_result result))
    (report "Error creating custom food").

Definition delete_custom_food (food_id : id_arg) : M text :=
  try_except
    (let food_id := str food_id in
     call (CustomFood_delete food_id) ;;;
     curated_dump [ ("status", VStr "success"); ("food_id", VStr food_id) ])
    (report "Error deleting custom food").

(* -- custom meal tools -- *)

Definition list_custom_meals (query : string) (start limit : Z) : M text :=
  try_except
    (meals <- call (CustomMeal_list query start limit) ;;
     curated_dump
       [ ("custom_meals", curate_all (CustomMealList.items meals));
         ("has_more", CustomMealList.has_more meals) ])
    (report "Error listing custom meals").

(** The statements of [create_custom_meal] after [foods] is bound. *)
Definition create_meal_from (name : string) (foods : list value) : M text :=
  result <- call (CustomMeal_create name foods) ;;
  let curated :=
    [ ("custom_meal_id", CustomMealDetail.custom_meal_id result);
      ("name", CustomMealDetail.name result);
      ("food_count", VInt (Z.of_nat (length (CustomMealDetail.foods result)))) ] in
  let curated :=
    if truthy_obj (CustomMealDetail.content_summary result) then
      dict_set "totals"
        (VDict (_curate_nutrition_content (CustomMealDetail.content_summary result)))
        curated
    else curated in
  curated_dump curated.

Definition create_custom_meal (name : string) (foods_json : foods_arg) : M text :=
  try_except
    (match foods_json with
     | FoodsList foods => create_meal_from name foods
     | FoodsText s =>
         foods <- loads s ;;
         match foods with
         | VList foods => create_meal_from name foods
         | _ => ret (message "Error: foods_json must be a JSON array")
         end
     end)
    (fun e =>
       match exn_cls e with
       | JSONDecodeError => ret (message "Error: foods_json is not valid JSON")
       | _ => report "Error creating custom meal" e
       end).

End Handlers.

(** A tool call starts from an empty trace. *)
Definition run {A} (m : M A) : outcome A * trace := m [].

(* ================================================================== *)
(** ** Test doubles: the fixtures of [tests/fixtures/garmin_responses.py] *)
(* ================================================================== *)

Module Mock.

Definition fl (n : Z) : value := VFloat n 0.

(** [MOCK_MEAL_DEFINITIONS] *)
Definition meals : list Meal.t :=
  [ Meal.mk 645041 "Breakfast"; Meal.mk 645042 "Lunch";
    Meal.mk 645043 "Dinner"; Meal.mk 645044 "Snacks" ].

Definition nc (sid unit units cal pro fat carb fib : value) : NutritionContent.t :=
  NutritionContent.mk sid unit units cal pro fat carb fib VNone.

Definition oatmeal_meta : FoodMetaData.t :=
  FoodMetaData.mk (VStr "5367") (VStr "Oatmeal") VNone (VStr "FATSECRET").

Definition oatmeal_logged : LoggedFood.t :=
  LoggedFood.mk (VStr "abc123") (Some oatmeal_meta) (fl 1)
    (Some (nc (VStr "54047") (VStr "cup") VNone (fl 150) (fl 5) (fl 3) (fl 27) VNone)).

Definition breakfast : MealDetail.t :=
  MealDetail.mk (Meal.mk 645041 "Breakfast")
    (Some (nc VNone VNone VNone (fl 450) (fl 25) (fl 15) (fl 55) VNone))
    (Some [oatmeal_logged]).

Definition lunch : MealDetail.t :=
  MealDetail.mk (Meal.mk 645042 "Lunch")
    (Some (nc VNone VNone VNone (fl 700) (fl 40) (fl 25) (fl 80) VNone))
    (Some []).

(** [MOCK_DAILY_NUTRITION_LOG] *)
Definition daily_log : DailyNutritionLog.t :=
  DailyNutritionLog.mk (VStr "2024-01-15")
    (Some (MacroGoals.mk (fl 2200) (fl 120) (fl 73) (fl 275)))
    (Some (nc VNone VNone VNone (fl 1850) (fl 95) (fl 62) (fl 220) VNone))
    [breakfast; lunch].

(** A day on which nothing was set up or logged. *)
Definition blank_log : DailyNutritionLog.t :=
  DailyNutritionLog.mk (VStr "2024-01-16") None None [].

(** [MOCK_NUTRITION_SETTINGS] *)
Definition settings : NutritionSettings.t :=
  NutritionSettings.mk (VInt 2200) (VStr "MAINTAIN") (VBool true) (VStr "DE")
    (VStr "en") (VInt 72000) (VInt 70000) VNone
    (Some (MacroGoals.mk (fl 2200) (fl 120) (fl 73) (fl 275))).

(** [MOCK_FOOD_SEARCH_RESULTS]; 0.5, 0.3 and 4.4 as the doubles they are. *)
Definition apple : SearchResult.t :=
  SearchResult.mk
    (Some (FoodMetaData.mk (VStr "5367") (VStr "Apple") VNone (VStr "FATSECRET")))
    (Some [nc (VStr "54047") (VStr "medium") (fl 1) (fl 95) (VFloat 1 (-1))
             (VFloat 5404319552844595 (-54)) (fl 25)
             (VFloat 4953959590107546 (-50))])
    (VBool false).

Definition search_results : SearchResults.t :=
  SearchResults.mk [apple] (VBool true).

Definition simple_food (id name src sid unit : string) (cal : Z) (fav : value)
    : SearchResult.t :=
  SearchResult.mk
    (Some (FoodMetaData.mk (VStr id) (VStr name) VNone (VStr src)))
    (Some [nc (VStr sid) (VStr unit) VNone (fl cal) VNone VNone VNone VNone])
    fav.

(** [MOCK_RECENT_FOODS] *)
Definition recent_foods : RecentFoods.t :=
  RecentFoods.mk
    [simple_food "5367" "Oatmeal" "FATSECRET" "54047" "cup" 150 VNone]
    [simple_food "9999" "Banana" "FATSECRET" "99001" "medium" 105 VNone].

(** [MOCK_FAVORITE_FOODS] *)
Definition favorites : FavoriteFoodList.t :=
  FavoriteFoodList.mk
    [simple_food "5367" "Oatmeal" "FATSECRET" "54047" "cup" 150 (VBool true)]
    (VBool false).

(** [MOCK_CUSTOM_FOODS] *)
Definition custom_foods : CustomFoodList.t :=
  CustomFoodList.mk
    [SearchResult.mk
       (Some (FoodMetaData.mk (VStr "custom1") (VStr "My Protein Shake") VNone
                (VStr "GARMIN")))
       (Some [nc (VStr "cs1") (VStr "SERVING") VNone (fl 200) (fl 30) VNone VNone VNone])
       VNone]
    (VBool false).

(** [MOCK_CUSTOM_FOOD_CREATED] *)
Definition custom_food_created : SearchResult.t :=
  SearchResult.mk
    (Some (FoodMetaData.mk (VStr "custom2") (VStr "Test Food") VNone (VStr "GARMIN")))
    (Some [nc (VStr "cs2") (VStr "G") (fl 100) (fl 250) VNone VNone VNone VNone])
    VNone.

(** [MOCK_CUSTOM_MEALS] *)
Definition custom_meals : CustomMealList.t :=
  CustomMealList.mk
    [SearchResult.mk
       (Some (FoodMetaData.mk (VStr "meal1") (VStr "Morning Bowl") VNone
                (VStr "GARMIN")))
       (Some [nc VNone VNone VNone (fl 450) (fl 25) VNone VNone VNone])
       VNone]
    (VBool false).

(** [MOCK_CUSTOM_MEAL_CREATED] *)
Definition custom_meal_created : CustomMealDetail.t :=
  CustomMealDetail.mk (VInt 12345) (VStr "Test Meal")
    [VDict [("foodId", VStr "5367")]]
    (Some (nc VNone VNone VNone (fl 150) (fl 5) VNone VNone VNone)).

(** The patched collaborator: every operation returns its fixture. *)
Definition client : garth_client :=
  fun A r =>
    match r in request T return outcome T with
    | MealDefinitions_get _ => Return meals
    | DailyNutritionLog_get _ => Return daily_log
    | NutritionSettings_get _ => Return settings
    | FoodSearch_search _ _ _ => Return search_results
    | FoodSearch_recent _ _ => Return recent_foods
    | FavoriteFoods_list _ _ _ => Return favorites
    | CustomFood_list _ _ _ => Return custom_foods
    | FoodLog_add _ _ _ _ _ _ => Return daily_log
    | QuickAdd_add _ _ _ _ _ _ _ => Return daily_log
    | FoodLog_update _ _ _ _ _ _ _ => Return daily_log
    | FoodLog_remove _ _ => Return tt
    | FavoriteFoods_add _ _ _ _ => Return tt
    | FavoriteFoods_remove _ => Return tt
    | CustomFood_create _ _ _ _ _ _ _ _ _ => Return custom_food_created
    | CustomFood_delete _ => Return tt
    | CustomMeal_list _ _ _ => Return custom_meals
    | CustomMeal_create _ _ => Return custom_meal_created
    end.

(** [side_effect=e] on every operation. *)
Definition failing_client (e : exn) : garth_client :=
  fun A _ => Raise e.

(** A stand-in for [json.loads] that knows three documents and rejects
    everything else the way the decoder does. *)
Definition loads (s : string) : outcome value :=
  if String.eqb s "[]" then Return (VList [])
  else if String.eqb s "[1, 2]" then Return (VList [VInt 1; VInt 2])
  else if String.eqb s "{}" then Return (VDict [])
  else Raise (mk_exn JSONDecodeError "Expecting value: line 1 column 1 (char 0)").

(** The interpreter on ASCII text: the functions of [PyStr] themselves,
    which is all a run on the fixtures can see of [str.upper], [str.strip]
    and [repr]. *)
Definition ascii_python : builtins.
Proof.
  refine (mk_builtins PyStr.upper PyStr.strip PyStr.repr
            (fun _ _ => eq_refl) (fun _ _ => eq_refl) (fun _ _ => eq_refl) _ _).
  - intros s. unfold PyStr.strip.
    assert (L : exists pre, s = (pre ++ PyStr.lstrip s)%string).
    { induction s as [|c r [pre E]]; simpl; [now exists EmptyString|].
      destruct (PyStr.is_space c); [|now exists EmptyString].
      exists (String c pre). simpl. now rewrite <- E. }
    assert (R : forall t, exists post, t = (PyStr.rstrip t ++ post)%string).
    { induction t as [|c r [post E]]; simpl; [now exists EmptyString|].
      destruct (PyStr.rstrip r) as [|d r'].
      - simpl in E. subst r. destruct (PyStr.is_space c).
        + now exists (String c post).
        + now exists post.
      - exists post. rewrite E at 1. reflexivity. }
    destruct L as [pre E1]. destruct (R (PyStr.lstrip s)) as [post E2].
    exists pre, post. now rewrite <- E2.
  - intros s. unfold PyStr.strip.
    assert (R : forall t, PyStr.rstrip (PyStr.rstrip t) = PyStr.rstrip t).
    { induction t as [|c r IH]; simpl; [reflexivity|].
      destruct (PyStr.rstrip r) as [|d r'] eqn:E.
      - destruct (PyStr.is_space c) eqn:Hc; simpl; [reflexivity | now rewrite Hc].
      - change (PyStr.rstrip (String c (String d r')))
          with (match PyStr.rstrip (String d r') with
                | EmptyString =>
                    if PyStr.is_space c then EmptyString else String c EmptyString
                | String x y => String c (String x y)
                end).
        now rewrite IH. }
    assert (L : PyStr.lstrip (PyStr.rstrip (PyStr.lstrip s)) =
                PyStr.rstrip (PyStr.lstrip s)).
    { induction s as [|c r IH]; simpl; [reflexivity|].
      destruct (PyStr.is_space c) eqn:Hc; [exact IH|]. simpl.
      destruct (PyStr.rstrip r); simpl; rewrite ?Hc; simpl; rewrite ?Hc; reflexivity. }
    now rewrite L, R.
Defined.

Definition env : world := mk_world (Some client) loads ascii_python.

(** The same collaborator on a day with an empty log. *)
Definition blank_client : garth_client :=
  fun A r =>
    match r in request T return outcome T with
    | DailyNutritionLog_get _ => Return blank_log
    | r' => client _ r'
    end.

Definition blank_env : world := mk_world (Some blank_client) loads ascii_python.

Definition failing_env (e : exn) : world :=
  mk_world (Some (failing_client e)) loads ascii_python.

End Mock.

(* ================================================================== *)
(** ** The specification's vocabulary *)
(* ================================================================== *)

(** "Case-insensitive exact match", letter by letter: two characters agree
    when they are equal or one is the capital of the other. *)
Definition same_letter (a b : ascii) : bool :=
  Ascii.eqb a b
  || (PyStr.is_lower a && Ascii.eqb (PyStr.upper_char a) b)
  || (PyStr.is_lower b && Ascii.eqb a (PyStr.upper_char b)).

Fixpoint eq_ignore_case (a b : string) : bool :=
  match a, b with
  | EmptyString, EmptyString => true
  | String x a', String y b' => same_letter x y && eq_ignore_case a' b'
  | _, _ => false
  end.

(** "The first definition whose meal name matches", case-insensitively in
    Python's sense: the two texts have the same [upper()]. *)
Definition first_match (w : world) (name : string) (meals : list Meal.t)
    : option Meal.t :=
  find (fun m => String.eqb (upper w (Meal.meal_name m)) (upper w name)) meals.

(** The same with the letter-by-letter comparison of ASCII texts. *)
Definition first_ascii_match (name : string) (meals : list Meal.t) : option Meal.t :=
  find (fun m => eq_ignore_case (Meal.meal_name m) name) meals.

(** "Trims each entry and discards empty ones." *)
Definition trimmed_nonempty (w : world) (pieces : list string) : list string :=
  filter (fun p => negb (String.eqb p "")) (map (strip w) pieces).

(** Every definition has an ASCII name. *)
Definition ascii_names (meals : list Meal.t) : bool :=
  forallb (fun m => PyStr.is_ascii (Meal.meal_name m)) meals.

Fixpoint all_space (s : string) : bool :=
  match s with
  | EmptyString => true
  | String c r => PyStr.is_space c && all_space r
  end.

Definition first_char (s : string) : option ascii :=
  match s with EmptyString => None | String c _ => Some c end.

Fixpoint last_char (s : string) : option ascii :=
  match s with
  | EmptyString => None
  | String c EmptyString => Some c
  | String _ r => last_char r
  end.

Definition is_space_opt (c : option ascii) : bool :=
  match c with Some c => PyStr.is_space c | None => false end.

(** Null-pruning of one field: the key carries the value, or is missing. *)
Definition kept (v : value) : option value :=
  if is_none v then None else Some v.

(** "No output key maps to null." *)
Definition no_null (d : dict) : Prop :=
  forall k, dict_get k d <> Some VNone.


Fixpoint distinct (l : list string) : bool :=
  match l with
  | [] => true
  | k :: r => negb (existsb (String.eqb k) r) && distinct r
  end.

(** The collaborator calls of a trace, in order. *)
Definition is_call (ev : event) : bool :=
  match ev with Called _ => true | JsonLoads _ => false end.

Definition is_parse (ev : event) : bool :=
  match ev with JsonLoads _ => true | Called _ => false end.

Definition is_create_meal (ev : event) : bool :=
  match ev with
  | Called (CustomMeal_create _ _) => true
  | _ => false
  end.

Definition all_ascii : list ascii := map ascii_of_nat (seq 0 256).

(** The exhaustive check behind [same_letter]. *)
Definition letters_agree (a : ascii) : bool :=
  forallb (fun b =>
    Bool.eqb (same_letter a b)
             (Ascii.eqb (PyStr.upper_char a) (PyStr.upper_char b))) all_ascii.

(** The part of [_curate_logged_food] before [serving_qty]. *)
Definition logged_food_head (lf : LoggedFood.t) : dict :=
  dict_update
    (if truthy (LoggedFood.log_id lf)
     then dict_set "log_id" (LoggedFood.log_id lf) []
     else [])
    (_curate_food_meta (LoggedFood.food_meta_data lf)).

(** Printable characters other than the quotes and the backslash: [repr]
    leaves them as they are. *)
Definition plain_char (c : ascii) : bool :=
  let n := nat_of_ascii c in
  ((32 <=? n) && (n <? 127))%nat
  && negb (Ascii.eqb c PyStr.squote) && negb (Ascii.eqb c PyStr.dquote)
  && negb (Ascii.eqb c "\"%char).

Fixpoint plain (s : string) : bool :=
  match s with
  | EmptyString => true
  | String c r => plain_char c && plain r
  end.

(** "Returns a text instead of raising." *)
Definition returns_text (m : M text) : Prop :=
  exists x t, run m = (Return x, t).

(* ================================================================== *)
(** ** Vocabulary for the remaining code paths *)
(* ================================================================== *)

(** The keys each curator may write, in the order it writes them. *)
Definition nutrition_content_keys : list string :=
  ["serving_id"; "serving_unit"; "number_of_units"; "calories"; "protein";
   "fat"; "carbs"; "fiber"; "sugar"].

Definition food_meta_keys : list string :=
  ["food_id"; "food_name"; "brand_name"; "source"].

Definition search_result_keys : list string :=
  food_meta_keys ++ ["servings"; "is_favorite"].

Definition logged_food_keys : list string :=
  "log_id" :: food_meta_keys ++ ["serving_qty"; "nutrition"].

Definition meal_entry_keys : list string :=
  ["meal_name"; "meal_id"; "totals"; "foods"].

Definition daily_log_keys : list string :=
  ["date"; "daily_goals"; "daily_totals"; "meals"].

Definition settings_keys : list string :=
  ["calorie_goal"; "weight_change_type"; "auto_calorie_adjustment";
   "region_code"; "language_code"; "starting_weight_grams";
   "target_weight_goal_grams"; "target_date"; "macro_goals"].

(** The keys of [d] that are in [allowed], in the order of [allowed]. *)
Definition present_keys (allowed : list string) (d : dict) : list string :=
  filter (fun k => dict_has k d) allowed.

(** How many collaborator operations a trace holds. *)
Definition calls (t : trace) : nat := length (filter is_call t).

(** What [_garth] raises while [garmin_client] is still [None]. *)
Definition no_client : exn :=
  mk_exn AttributeError "'NoneType' object has no attribute 'garth'".

(** The module before [configure] was called. *)
Definition unconfigured : world := mk_world None Mock.loads Mock.ascii_python.

(** A collaborator that serves the meal definitions and fails on every
    other operation. *)
Definition flaky_client (e : exn) : garth_client :=
  fun A r =>
    match r in request T return outcome T with
    | MealDefinitions_get _ => Return Mock.meals
    | _ => Raise e
    end.

Definition flaky_env (e : exn) : world :=
  mk_world (Some (flaky_client e)) Mock.loads Mock.ascii_python.

(** Settings whose macro goals have no protein target. *)
Definition partial_settings : NutritionSettings.t :=
  NutritionSettings.mk (VInt 2200) VNone VNone (VStr "DE") VNone VNone VNone VNone
    (Some (MacroGoals.mk (Mock.fl 2200) VNone (Mock.fl 73) (Mock.fl 275))).

Definition partial_settings_client : garth_client :=
  fun A r =>
    match r in request T return outcome T with
    | NutritionSettings_get _ => Return partial_settings
    | r' => Mock.client _ r'
    end.

Definition partial_settings_env : world :=
  mk_world (Some partial_settings_client) Mock.loads Mock.ascii_python.

(** A daily log without a date. *)
Definition undated_log : DailyNutritionLog.t :=
  DailyNutritionLog.mk VNone None None [].

Definition undated_client : garth_client :=
  fun A r =>
    match r in request T return outcome T with
    | DailyNutritionLog_get _ => Return undated_log
    | r' => Mock.client _ r'
    end.

Definition undated_env : world :=
  mk_world (Some undated_client) Mock.loads Mock.ascii_python.

(** A parser that gives up on deep nesting. *)
Definition recursion_error : exn :=
  mk_exn OtherException "maximum recursion depth exceeded".

Definition deep_env : world :=
  mk_world (Some Mock.client) (fun _ => Raise recursion_error) Mock.ascii_python.

(* ================================================================== *)
(** ** Facts about dictionaries *)
(* ================================================================== *)

Section DictFacts.

Implicit Types (d o : dict) (k : string) (v : value).

Lemma distinct_NoDup (l : list string) : distinct l = true -> NoDup l.
Proof.
  induction l as [|k r IH]; simpl; intros H; constructor.
  - apply andb_true_iff in H as [H _]. intros Hin.
    apply negb_true_iff in H.
    assert (existsb (String.eqb k) r = true) as E.
    { apply existsb_exists. exists k. split; [exact Hin | apply String.eqb_refl]. }
    congruence.
  - apply IH. apply andb_true_iff in H as [_ H]. exact H.
Qed.

Lemma dict_get_notin k d : ~ In k (keys d) -> dict_get k d = None.
Proof.
  induction d as [|[k' v'] r IH]; simpl; intros H; [reflexivity|].
  destruct (String.eqb_spec k k') as [->|Hne].
  - exfalso. apply H. now left.
  - apply IH. intros Hin. apply H. now right.
Qed.

Lemma dict_get_In k v d : dict_get k d = Some v -> In (k, v) d.
Proof.
  induction d as [|[k' v'] r IH]; simpl; [discriminate|].
  destruct (String.eqb_spec k k') as [->|Hne].
  - intros [= ->]. now left.
  - intros H. right. now apply IH.
Qed.

Lemma dict_get_set k k' v d :
  dict_get k (dict_set k' v d) = if String.eqb k k' then Some v else dict_get k d.
Proof.
  induction d as [|[k0 v0] r IH]; simpl.
  - destruct (String.eqb k k'); reflexivity.
  - destruct (String.eqb_spec k' k0) as [->|Hne]; simpl.
    + destruct (String.eqb k k0); reflexivity.
    + rewrite IH. destruct (String.eqb_spec k k0) as [->|Hne'].
      * destruct (String.eqb_spec k0 k') as [E|_]; [congruence | reflexivity].
      * reflexivity.
Qed.

Lemma keys_prune_incl d : incl (keys (prune_none d)) (keys d).
Proof.
  intros k Hin. unfold keys, prune_none in *.
  apply in_map_iff in Hin as [[k' v'] [<- Hin]].
  apply filter_In in Hin as [Hin _].
  apply in_map_iff. now exists (k', v').
Qed.

Lemma NoDup_keys_prune d : NoDup (keys d) -> NoDup (keys (prune_none d)).
Proof.
  induction d as [|[k v] r IH]; simpl; intros H; [constructor|].
  inversion H as [|? ? Hnin Hr]; subst.
  destruct (is_none v); simpl; [now apply IH|].
  constructor; [|now apply IH].
  intros Hin. apply Hnin. now apply keys_prune_incl.
Qed.

(** Looking a key up after the [is not None] comprehension. *)
Lemma dict_get_prune_none k d :
  NoDup (keys d) ->
  dict_get k (prune_none d) =
  match dict_get k d with Some v => kept v | None => None end.
Proof.
  induction d as [|[k' v'] r IH]; simpl; intros H; [reflexivity|].
  inversion H as [|? ? Hnin Hr]; subst.
  destruct (String.eqb_spec k k') as [->|Hne].
  - unfold kept. destruct (is_none v') eqn:E; simpl.
    + apply dict_get_notin. intros Hin. apply Hnin. now apply keys_prune_incl.
    + now rewrite String.eqb_refl.
  - destruct (is_none v'); simpl.
    + now apply IH.
    + destruct (String.eqb_spec k k'); [congruence | now apply IH].
Qed.

Lemma dict_get_update k d o :
  NoDup (keys o) ->
  dict_get k (dict_update d o) =
  match dict_get k o with Some v => Some v | None => dict_get k d end.
Proof.
  unfold dict_update. revert d.
  induction o as [|[k' v'] r IH]; simpl; intros d H; [reflexivity|].
  inversion H as [|? ? Hnin Hr]; subst.
  rewrite (IH _ Hr), dict_get_set.
  destruct (String.eqb_spec k k') as [->|Hne]; [|reflexivity].
  now rewrite (dict_get_notin _ _ Hnin).
Qed.

Lemma no_null_nil : no_null [].
Proof. intros k. discriminate. Qed.

Lemma no_null_prune d : no_null (prune_none d).
Proof.
  intros k H. apply dict_get_In in H.
  apply filter_In in H as [_ H]. discriminate.
Qed.

Lemma no_null_set k v d : v <> VNone -> no_null d -> no_null (dict_set k v d).
Proof.
  intros Hv Hd k'. rewrite dict_get_set.
  destruct (String.eqb k' k); [congruence | apply Hd].
Qed.

Lemma values_prune d : Forall (fun kv => snd kv <> VNone) (prune_none d).
Proof.
  apply Forall_forall. intros [k v] H.
  apply filter_In in H as [_ H]. simpl in *. now destruct v.
Qed.

Lemma no_null_update d o :
  no_null d -> Forall (fun kv => snd kv <> VNone) o -> no_null (dict_update d o).
Proof.
  unfold dict_update. revert d.
  induction o as [|[k v] r IH]; simpl; intros d Hd Ho; [exact Hd|].
  inversion Ho as [|? ? Hv Hr]; subst.
  apply IH; [|exact Hr]. now apply no_null_set.
Qed.

End DictFacts.

(* ================================================================== *)
(** ** Facts about the string builtins *)
(* ================================================================== *)

Section StringFacts.

(** A boolean property checked on the 256 characters holds of each. *)
Lemma ascii_all (P : ascii -> bool) :
  forallb P all_ascii = true -> forall c, P c = true.
Proof.
  intros H c. rewrite forallb_forall in H. apply H.
  rewrite <- (ascii_nat_embedding c). apply in_map, in_seq.
  pose proof (nat_ascii_bounded c). lia.
Qed.

Lemma letters_agree_all : forallb letters_agree all_ascii = true.
Proof. vm_compute. reflexivity. Qed.

(** Two characters agree up to case exactly when [upper] sends them to
    the same character. *)
Lemma same_letter_upper a b :
  same_letter a b = Ascii.eqb (PyStr.upper_char a) (PyStr.upper_char b).
Proof.
  apply Bool.eqb_prop.
  pose proof (ascii_all _ letters_agree_all a) as H.
  exact (ascii_all _ H b).
Qed.

Lemma eq_ignore_case_upper a b :
  eq_ignore_case a b = String.eqb (PyStr.upper a) (PyStr.upper b).
Proof.
  revert b. induction a as [|x a IH]; intros [|y b]; simpl; try reflexivity.
  rewrite same_letter_upper, IH.
  destruct (Ascii.eqb (PyStr.upper_char x) (PyStr.upper_char y)); reflexivity.
Qed.

Lemma upper_char_idem c : PyStr.upper_char (PyStr.upper_char c) = PyStr.upper_char c.
Proof.
  apply Ascii.eqb_eq.
  exact (ascii_all (fun c => Ascii.eqb (PyStr.upper_char (PyStr.upper_char c))
                                       (PyStr.upper_char c)) eq_refl c).
Qed.

Lemma upper_idem s : PyStr.upper (PyStr.upper s) = PyStr.upper s.
Proof. induction s as [|c s IH]; simpl; [reflexivity|]. now rewrite upper_char_idem, IH. Qed.

(** The loop of the source is [find] with the comparison of upper-cased
    texts. *)
Lemma scan_meals_first_match w name meals :
  scan_meals w (upper w name) meals = option_map Meal.meal_id (first_match w name meals).
Proof.
  unfold first_match. induction meals as [|m r IH]; simpl; [reflexivity|].
  destruct (String.eqb (upper w (Meal.meal_name m)) (upper w name));
    [reflexivity | exact IH].
Qed.

(* -- the interpreter on ASCII text -- *)

Lemma upper_on_ascii w s : PyStr.is_ascii s = true -> upper w s = PyStr.upper s.
Proof. apply upper_ascii. Qed.

Lemma strip_on_ascii w s : PyStr.is_ascii s = true -> strip w s = PyStr.strip s.
Proof. apply strip_ascii. Qed.

Lemma repr_on_ascii w s : PyStr.is_ascii s = true -> repr w s = PyStr.repr s.
Proof. apply repr_ascii. Qed.

Lemma is_ascii_app a b :
  PyStr.is_ascii (a ++ b)%string = PyStr.is_ascii a && PyStr.is_ascii b.
Proof.
  induction a as [|c r IH]; simpl; [reflexivity|]. now rewrite IH, andb_assoc.
Qed.

Lemma is_ascii_lstrip s : PyStr.is_ascii s = true -> PyStr.is_ascii (PyStr.lstrip s) = true.
Proof.
  induction s as [|c r IH]; simpl; [reflexivity|]. intros H.
  apply andb_true_iff in H as [Hc Hr].
  destruct (PyStr.is_space c); [now apply IH|]. simpl. now rewrite Hc, Hr.
Qed.

Lemma is_ascii_rstrip s : PyStr.is_ascii s = true -> PyStr.is_ascii (PyStr.rstrip s) = true.
Proof.
  induction s as [|c r IH]; simpl; [reflexivity|]. intros H.
  apply andb_true_iff in H as [Hc Hr]. specialize (IH Hr).
  destruct (PyStr.rstrip r) as [|d r'].
  - destruct (PyStr.is_space c); [reflexivity|]. simpl. now rewrite Hc.
  - change (PyStr.is_ascii (String c (String d r')) = true).
    cbn [PyStr.is_ascii] in *. now rewrite Hc, IH.
Qed.

Lemma is_ascii_strip s : PyStr.is_ascii s = true -> PyStr.is_ascii (PyStr.strip s) = true.
Proof. intros H. unfold PyStr.strip. now apply is_ascii_rstrip, is_ascii_lstrip. Qed.

(** On ASCII names and an ASCII input, matching by [upper()] is matching
    letter by letter up to case. *)
Lemma first_match_ascii w name meals :
  ascii_names meals = true -> PyStr.is_ascii name = true ->
  first_match w name meals = first_ascii_match name meals.
Proof.
  intros Hm Hn. unfold first_match, first_ascii_match.
  induction meals as [|m r IH]; simpl; [reflexivity|].
  simpl in Hm. apply andb_true_iff in Hm as [Hmn Hr].
  assert (E : String.eqb (upper w (Meal.meal_name m)) (upper w name) =
              eq_ignore_case (Meal.meal_name m) name).
  { now rewrite (upper_on_ascii w _ Hmn), (upper_on_ascii w _ Hn), eq_ignore_case_upper. }
  rewrite E.
  destruct (eq_ignore_case (Meal.meal_name m) name); [reflexivity | now apply IH].
Qed.

(* -- split and join -- *)

Lemma split_not_nil sep s : PyStr.split sep s <> [].
Proof.
  destruct s as [|c r]; simpl; [discriminate|].
  destruct (Ascii.eqb c sep); [discriminate|].
  destruct (PyStr.split sep r); discriminate.
Qed.

Lemma join_cons sep p ps :
  ps <> [] -> PyStr.join sep (p :: ps) = (p ++ sep ++ PyStr.join sep ps)%string.
Proof. destruct ps; [congruence | reflexivity]. Qed.

(** Gluing the pieces back with the separator gives the text back. *)
Lemma join_split sep s :
  PyStr.join (String sep EmptyString) (PyStr.split sep s) = s.
Proof.
  induction s as [|c r IH]; [reflexivity|]. simpl PyStr.split.
  destruct (Ascii.eqb_spec c sep) as [->|Hne].
  - rewrite join_cons by apply split_not_nil. simpl. now rewrite IH.
  - pose proof (split_not_nil sep r) as Hnn.
    destruct (PyStr.split sep r) as [|p ps]; [congruence|].
    destruct ps as [|q qs].
    + simpl in *. now rewrite IH.
    + rewrite join_cons by discriminate. rewrite join_cons in IH by discriminate.
      rewrite <- IH at 1. reflexivity.
Qed.

(** No piece holds the separator. *)
Lemma split_no_sep sep s p :
  In p (PyStr.split sep s) -> PyStr.mem_char sep p = false.
Proof.
  revert p. induction s as [|c r IH]; simpl; intros p H.
  - destruct H as [<-|[]]. reflexivity.
  - destruct (Ascii.eqb_spec c sep) as [->|Hne].
    + destruct H as [<-|H]; [reflexivity | now apply IH].
    + pose proof (split_not_nil sep r) as Hnn.
      destruct (PyStr.split sep r) as [|q qs]; [congruence|].
      destruct H as [<-|H].
      * simpl. destruct (Ascii.eqb_spec sep c) as [->|_]; [congruence|].
        apply IH. now left.
      * apply IH. now right.
Qed.

(** Filtering on the trimmed piece and then trimming is trimming and
    then dropping the empty ones. *)
Lemma parse_log_ids_spec w log_ids :
  parse_log_ids w log_ids = trimmed_nonempty w (PyStr.split ","%char log_ids).
Proof.
  unfold parse_log_ids, trimmed_nonempty.
  induction (PyStr.split ","%char log_ids) as [|p ps IH]; simpl; [reflexivity|].
  destruct (String.eqb (strip w p) ""); simpl; now rewrite IH.
Qed.

(* -- strip -- *)

Lemma lstrip_decompose s :
  exists pre, s = (pre ++ PyStr.lstrip s)%string /\ all_space pre = true.
Proof.
  induction s as [|c r [pre [E Hp]]]; simpl.
  - now exists "".
  - destruct (PyStr.is_space c) eqn:Hc.
    + exists (String c pre). simpl. rewrite Hc. split; [now rewrite <- E | exact Hp].
    + now exists "".
Qed.

Lemma lstrip_first s : is_space_opt (first_char (PyStr.lstrip s)) = false.
Proof.
  induction s as [|c r IH]; simpl; [reflexivity|].
  destruct (PyStr.is_space c) eqn:Hc; [exact IH | simpl; exact Hc].
Qed.

Lemma rstrip_decompose s :
  exists post, s = (PyStr.rstrip s ++ post)%string /\ all_space post = true.
Proof.
  induction s as [|c r [post [E Hp]]]; simpl.
  - now exists "".
  - destruct (PyStr.rstrip r) as [|d r'] eqn:Er.
    + simpl in E. subst r. destruct (PyStr.is_space c) eqn:Hc.
      * exists (String c post). simpl. rewrite Hc. now split.
      * exists post. now split.
    + exists post. split; [rewrite E at 1; reflexivity | exact Hp].
Qed.

Lemma rstrip_last s : is_space_opt (last_char (PyStr.rstrip s)) = false.
Proof.
  induction s as [|c r IH]; simpl; [reflexivity|].
  destruct (PyStr.rstrip r) as [|d r'] eqn:Er.
  - destruct (PyStr.is_space c) eqn:Hc; simpl; [reflexivity | exact Hc].
  - exact IH.
Qed.

Lemma rstrip_first s :
  is_space_opt (first_char s) = false ->
  is_space_opt (first_char (PyStr.rstrip s)) = false.
Proof.
  destruct s as [|c r]; simpl; [reflexivity|]. intros Hc.
  destruct (PyStr.rstrip r); [rewrite Hc|]; simpl; exact Hc.
Qed.

(** [strip] removes a run of whitespace at each end and nothing else, and
    what is left neither starts nor ends with whitespace. *)
Lemma strip_spec s :
  (exists pre post,
      s = (pre ++ PyStr.strip s ++ post)%string /\
      all_space pre = true /\ all_space post = true) /\
  is_space_opt (first_char (PyStr.strip s)) = false /\
  is_space_opt (last_char (PyStr.strip s)) = false.
Proof.
  unfold PyStr.strip. split; [|split].
  - destruct (lstrip_decompose s) as [pre [E1 H1]].
    destruct (rstrip_decompose (PyStr.lstrip s)) as [post [E2 H2]].
    exists pre, post. split; [|split; assumption].
    now rewrite <- E2.
  - apply rstrip_first, lstrip_first.
  - apply rstrip_last.
Qed.

(* -- substring test -- *)

Lemma starts_with_app p s : PyStr.starts_with p (p ++ s)%string = true.
Proof. induction p as [|c p IH]; simpl; [reflexivity|]. now rewrite Ascii.eqb_refl. Qed.

Lemma contains_of_prefix sub s :
  PyStr.starts_with sub s = true -> PyStr.contains sub s = true.
Proof. destruct s; simpl; intros ->; reflexivity. Qed.

Lemma contains_app_r sub p s :
  PyStr.contains sub s = true -> PyStr.contains sub (p ++ s)%string = true.
Proof.
  induction p as [|c p IH]; simpl; intros H; [exact H|].
  rewrite (IH H). apply orb_true_r.
Qed.

Lemma starts_with_app_l sub s t :
  PyStr.starts_with sub s = true -> PyStr.starts_with sub (s ++ t)%string = true.
Proof.
  revert s. induction sub as [|c sub IH]; intros [|d s]; simpl; try easy.
  intros H. apply andb_true_iff in H as [-> H]. simpl. now apply IH.
Qed.

Lemma contains_app_l sub s t :
  PyStr.contains sub s = true -> PyStr.contains sub (s ++ t)%string = true.
Proof.
  induction s as [|c s IH]; simpl.
  - rewrite orb_false_r. intros H. destruct sub; [|discriminate].
    destruct t; reflexivity.
  - intros H. apply orb_true_iff in H as [H|H].
    + change (String c (s ++ t)%string) with (String c s ++ t)%string.
      now rewrite (starts_with_app_l _ (String c s) t H).
    + rewrite (IH H). apply orb_true_r.
Qed.

End StringFacts.

(** The builtins on the inputs of the test suite. *)
Example strip_upper_example :
  PyStr.upper (PyStr.strip "  Breakfast ") = "BREAKFAST".
Proof. reflexivity. Qed.

Example split_example :
  PyStr.split ","%char "abc123,def456" = ["abc123"; "def456"] /\
  PyStr.split ","%char "" = [""] /\
  PyStr.split ","%char "a,,b," = ["a"; ""; "b"; ""].
Proof. repeat split. Qed.

Example repr_example :
  PyStr.repr_list ["Breakfast"; "Lunch"] = "['Breakfast', 'Lunch']" /\
  PyStr.repr "it's" = String PyStr.dquote ("it's" ++ String PyStr.dquote "") /\
  PyStr.repr_list [] = "[]".
Proof. repeat split. Qed.

Example str_example :
  str (IdInt 5367 eq_refl) = "5367" /\ str (IdInt (-3) eq_refl) = "-3" /\
  str (IdInt 0 eq_refl) = "0" /\ str (IdStr "custom1") = "custom1".
Proof. repeat split. Qed.

Example curate_logged_food_example :
  _curate_logged_food Mock.oatmeal_logged =
    [ ("log_id", VStr "abc123");
      ("food_id", VStr "5367");
      ("food_name", VStr "Oatmeal");
      ("source", VStr "FATSECRET");
      ("serving_qty", Mock.fl 1);
      ("nutrition", VDict [ ("serving_id", VStr "54047"); ("serving_unit", VStr "cup");
                            ("calories", Mock.fl 150); ("protein", Mock.fl 5);
                            ("fat", Mock.fl 3); ("carbs", Mock.fl 27) ]) ].
Proof. reflexivity. Qed.

(* ================================================================== *)
(** ** Facts about the curators *)
(* ================================================================== *)

Section CuratorFacts.

Ltac literal_keys := apply distinct_NoDup; reflexivity.

Lemma NoDup_nutrition_content nc : NoDup (keys (_curate_nutrition_content nc)).
Proof.
  destruct nc as [nc|]; [|constructor].
  apply NoDup_keys_prune. literal_keys.
Qed.

Lemma NoDup_food_meta fm : NoDup (keys (_curate_food_meta fm)).
Proof.
  destruct fm as [fm|]; [|constructor].
  apply NoDup_keys_prune. literal_keys.
Qed.

Lemma values_food_meta fm :
  Forall (fun kv => snd kv <> VNone) (_curate_food_meta fm).
Proof. destruct fm as [fm|]; [apply values_prune | constructor]. Qed.

Lemma food_meta_get k fm :
  dict_get k (_curate_food_meta (Some fm)) =
  match dict_get k [ ("food_id", FoodMetaData.food_id fm);
                     ("food_name", FoodMetaData.food_name fm);
                     ("brand_name", FoodMetaData.brand_name fm);
                     ("source", FoodMetaData.source fm) ] with
  | Some v => kept v
  | None => None
  end.
Proof. unfold _curate_food_meta. apply dict_get_prune_none. literal_keys. Qed.

Lemma nutrition_content_get k nc :
  dict_get k (_curate_nutrition_content (Some nc)) =
  match dict_get k [ ("serving_id", NutritionContent.serving_id nc);
                     ("serving_unit", NutritionContent.serving_unit nc);
                     ("number_of_units", NutritionContent.number_of_units nc);
                     ("calories", NutritionContent.calories nc);
                     ("protein", NutritionContent.protein nc);
                     ("fat", NutritionContent.fat nc);
                     ("carbs", NutritionContent.carbs nc);
                     ("fiber", NutritionContent.fiber nc);
                     ("sugar", NutritionContent.sugar nc) ] with
  | Some v => kept v
  | None => None
  end.
Proof. unfold _curate_nutrition_content. apply dict_get_prune_none. literal_keys. Qed.

Lemma food_meta_other k fm :
  existsb (String.eqb k) ["food_id"; "food_name"; "brand_name"; "source"] = false ->
  dict_get k (_curate_food_meta fm) = None.
Proof.
  intros H. destruct fm as [fm|]; [|reflexivity].
  rewrite food_meta_get. simpl in *.
  repeat (apply orb_false_iff in H as [-> H]). reflexivity.
Qed.

Lemma truthy_not_none v : truthy v = true -> v <> VNone.
Proof. intros H ->. discriminate. Qed.

Lemma not_none_iff v : is_none v = false <-> v <> VNone.
Proof. destruct v; simpl; split; congruence. Qed.

Lemma kept_spec k v d :
  dict_get k d = kept v -> (dict_has k d = true <-> v <> VNone).
Proof.
  unfold dict_has, kept. intros ->. rewrite <- not_none_iff.
  destruct (is_none v); split; congruence.
Qed.

Lemma logged_food_unfold lf :
  _curate_logged_food lf =
  let d1 := logged_food_head lf in
  let d2 := if negb (is_none (LoggedFood.serving_qty lf))
            then dict_set "serving_qty" (LoggedFood.serving_qty lf) d1 else d1 in
  if truthy_obj (LoggedFood.selected_nutrition_content lf)
  then dict_set "nutrition"
         (VDict (_curate_nutrition_content (LoggedFood.selected_nutrition_content lf)))
         d2
  else d2.
Proof. reflexivity. Qed.

Lemma logged_food_get k lf :
  dict_get k (_curate_logged_food lf) =
  if String.eqb k "nutrition" then
    option_map (fun nc => VDict (_curate_nutrition_content (Some nc)))
               (LoggedFood.selected_nutrition_content lf)
  else if String.eqb k "serving_qty" then kept (LoggedFood.serving_qty lf)
  else match dict_get k (_curate_food_meta (LoggedFood.food_meta_data lf)) with
       | Some v => Some v
       | None =>
           if String.eqb k "log_id" && truthy (LoggedFood.log_id lf)
           then Some (LoggedFood.log_id lf) else None
       end.
Proof.
  rewrite logged_food_unfold. cbv zeta.
  assert (Hhead : forall k,
    dict_get k (logged_food_head lf) =
    match dict_get k (_curate_food_meta (LoggedFood.food_meta_data lf)) with
    | Some v => Some v
    | None => if String.eqb k "log_id" && truthy (LoggedFood.log_id lf)
              then Some (LoggedFood.log_id lf) else None
    end).
  { intros k0. unfold logged_food_head.
    rewrite dict_get_update by apply NoDup_food_meta.
    destruct (dict_get k0 _); [reflexivity|].
    destruct (truthy (LoggedFood.log_id lf)); simpl.
    - destruct (String.eqb k0 "log_id"); reflexivity.
    - now rewrite andb_false_r. }
  assert (Hqty : forall k d,
    dict_get k (if negb (is_none (LoggedFood.serving_qty lf))
                then dict_set "serving_qty" (LoggedFood.serving_qty lf) d else d) =
    if String.eqb k "serving_qty" then
      (if is_none (LoggedFood.serving_qty lf) then dict_get k d
       else Some (LoggedFood.serving_qty lf))
    else dict_get k d).
  { intros k0 d. destruct (is_none (LoggedFood.serving_qty lf)); simpl.
    - destruct (String.eqb k0 "serving_qty"); reflexivity.
    - apply dict_get_set. }
  destruct (LoggedFood.selected_nutrition_content lf) as [nc|]; simpl truthy_obj; cbv iota.
  - rewrite dict_get_set.
    destruct (String.eqb_spec k "nutrition") as [->|Hn]; [reflexivity|].
    rewrite Hqty, Hhead.
    destruct (String.eqb_spec k "serving_qty") as [->|Hq]; [|reflexivity].
    unfold kept. destruct (is_none (LoggedFood.serving_qty lf)); [|reflexivity].
    now rewrite food_meta_other.
  - rewrite Hqty, Hhead.
    destruct (String.eqb_spec k "nutrition") as [->|Hn].
    + simpl. now rewrite food_meta_other.
    + destruct (String.eqb_spec k "serving_qty") as [->|Hq]; [|reflexivity].
      unfold kept. destruct (is_none (LoggedFood.serving_qty lf)); [|reflexivity].
      now rewrite food_meta_other.
Qed.

Lemma no_null_logged_food lf : no_null (_curate_logged_food lf).
Proof.
  rewrite logged_food_unfold. cbv zeta.
  assert (H1 : no_null (logged_food_head lf)).
  { apply no_null_update; [|apply values_food_meta].
    destruct (truthy (LoggedFood.log_id lf)) eqn:E; [|apply no_null_nil].
    apply no_null_set; [now apply truthy_not_none | apply no_null_nil]. }
  assert (H2 : no_null
    (if negb (is_none (LoggedFood.serving_qty lf))
     then dict_set "serving_qty" (LoggedFood.serving_qty lf) (logged_food_head lf)
     else logged_food_head lf)).
  { destruct (is_none (LoggedFood.serving_qty lf)) eqn:E; simpl; [exact H1|].
    apply no_null_set; [now apply not_none_iff | exact H1]. }
  destruct (truthy_obj _); [|exact H2].
  apply no_null_set; [discriminate | exact H2].
Qed.

(** One entry of [meals]. *)
Lemma meal_detail_get k md :
  dict_get k (curate_meal_detail md) =
  if String.eqb k "foods" then
    match MealDetail.logged_foods md with
    | Some (f :: fs) =>
        Some (VList (map (fun f => VDict (_curate_logged_food f)) (f :: fs)))
    | _ => None
    end
  else if String.eqb k "totals" then
    option_map (fun nc => VDict (_curate_nutrition_content (Some nc)))
               (MealDetail.meal_nutrition_content md)
  else if String.eqb k "meal_name" then Some (VStr (Meal.meal_name (MealDetail.meal md)))
  else if String.eqb k "meal_id" then Some (VInt (Meal.meal_id (MealDetail.meal md)))
  else None.
Proof.
  unfold curate_meal_detail. cbv zeta.
  destruct (MealDetail.logged_foods md) as [[|f fs]|];
    destruct (MealDetail.meal_nutrition_content md) as [nc|];
    simpl truthy_list; simpl truthy_obj; cbv iota;
    repeat rewrite dict_get_set; simpl;
    repeat (match goal with |- context [String.eqb k ?s] =>
              destruct (String.eqb_spec k s) as [->|?]; try reflexivity end).
Qed.

Lemma no_null_meal_detail md : no_null (curate_meal_detail md).
Proof.
  intros k. rewrite meal_detail_get.
  repeat (match goal with |- context [if ?b then _ else _] => destruct b end);
    try discriminate.
  - destruct (MealDetail.logged_foods md) as [[|]|]; discriminate.
  - destruct (MealDetail.meal_nutrition_content md); discriminate.
Qed.

Lemma daily_log_get k log :
  dict_get k (_curate_daily_log log) =
  if String.eqb k "date" then kept (DailyNutritionLog.meal_date log)
  else if String.eqb k "daily_goals" then Some (VDict (curate_goals log))
  else if String.eqb k "daily_totals" then Some (VDict (curate_totals log))
  else if String.eqb k "meals" then
    Some (VList (map (fun md => VDict (curate_meal_detail md))
                     (DailyNutritionLog.meal_details log)))
  else None.
Proof.
  unfold _curate_daily_log. cbv zeta.
  rewrite dict_get_prune_none by literal_keys. simpl.
  repeat (match goal with |- context [String.eqb k ?s] =>
            destruct (String.eqb k s); try reflexivity end).
Qed.

End CuratorFacts.

(* ================================================================== *)
(** ** Facts about the handler monad *)
(* ================================================================== *)

Section HandlerFacts.

Variable w : world.
Variable c : garth_client.
Hypothesis configured : garmin_client w = Some c.

Lemma call_run {A} (r : request A) (t : trace) :
  call w r t = (c A r, t ++ [Called r]).
Proof.
  unfold call, bind, _garth. rewrite configured. reflexivity.
Qed.

Lemma bind_call_return {A B} (r : request A) (a : A) (k : A -> M B) (t : trace) :
  c A r = Return a ->
  bind (call w r) k t = k a (t ++ [Called r]).
Proof. intros H. unfold bind at 1. now rewrite call_run, H. Qed.

Lemma bind_call_raise {A B} (r : request A) (e : exn) (k : A -> M B) (t : trace) :
  c A r = Raise e ->
  bind (call w r) k t = (Raise e, t ++ [Called r]).
Proof. intros H. unfold bind at 1. now rewrite call_run, H. Qed.

Lemma resolve_run meal day meals (t : trace) :
  c _ (MealDefinitions_get day) = Return meals ->
  _resolve_meal_id w meal day t =
  (match first_match w (strip w meal) meals with
   | Some m => Return (Meal.meal_id m)
   | None => Raise (unknown_meal w meal meals)
   end, t ++ [Called (MealDefinitions_get day)]).
Proof.
  intros H. unfold _resolve_meal_id. rewrite (bind_call_return _ _ _ _ H).
  cbv zeta. rewrite scan_meals_first_match.
  destruct (first_match w (strip w meal) meals); reflexivity.
Qed.

(** A handler whose resolution fails stops there: the guarded operation is
    never reached and the [ValueError] is what gets reported. *)
Lemma resolve_fails {B} meal day meals (k : Z -> M B) (t : trace) :
  c _ (MealDefinitions_get day) = Return meals ->
  first_match w (strip w meal) meals = None ->
  bind (_resolve_meal_id w meal day) k t =
  (Raise (unknown_meal w meal meals), t ++ [Called (MealDefinitions_get day)]).
Proof.
  intros H Hn. unfold bind at 1. now rewrite (resolve_run _ _ _ _ H), Hn.
Qed.

Lemma resolve_succeeds {B} meal day meals m (k : Z -> M B) (t : trace) :
  c _ (MealDefinitions_get day) = Return meals ->
  first_match w (strip w meal) meals = Some m ->
  bind (_resolve_meal_id w meal day) k t =
  k (Meal.meal_id m) (t ++ [Called (MealDefinitions_get day)]).
Proof.
  intros H Hn. unfold bind at 1. now rewrite (resolve_run _ _ _ _ H), Hn.
Qed.

End HandlerFacts.

(** [except Exception] with a formatted message always produces a text. *)
Lemma try_report_total (body : M text) (prefix : string) (t : trace) :
  exists x t', try_except body (report prefix) t = (Return x, t').
Proof.
  unfold try_except. destruct (body t) as [[x|e] t'].
  - now exists x, t'.
  - now eexists _, t'.
Qed.

Lemma try_report_raise (body : M text) (prefix : string) (e : exn) (t t' : trace) :
  body t = (Raise e, t') ->
  try_except body (report prefix) t =
  (Return (message (prefix ++ ": " ++ exn_str e)), t').
Proof. intros H. unfold try_except. now rewrite H. Qed.

Lemma try_report_return (body : M text) (prefix : string) (x : text) (t t' : trace) :
  body t = (Return x, t') ->
  try_except body (report prefix) t = (Return x, t').
Proof. intros H. unfold try_except. now rewrite H. Qed.

(** A plain name is rendered between single quotes, unchanged. *)
Lemma repr_char_plain c :
  plain_char c = true -> PyStr.repr_char PyStr.squote c = String c EmptyString.
Proof.
  intros H. apply String.eqb_eq.
  pose proof (ascii_all (fun c => implb (plain_char c)
    (String.eqb (PyStr.repr_char PyStr.squote c) (String c EmptyString))) eq_refl c) as A.
  simpl in A. now rewrite H in A.
Qed.

Lemma plain_no_quote s : plain s = true -> PyStr.mem_char PyStr.squote s = false.
Proof.
  induction s as [|c r IH]; [reflexivity|]. cbn [plain PyStr.mem_char]. intros H.
  apply andb_true_iff in H as [Hc Hr]. rewrite (IH Hr), orb_false_r.
  unfold plain_char in Hc.
  repeat (apply andb_true_iff in Hc as [Hc ?]).
  rewrite Ascii.eqb_sym. now apply negb_true_iff.
Qed.

Lemma repr_body_plain s : plain s = true -> PyStr.repr_body PyStr.squote s = s.
Proof.
  induction s as [|c r IH]; simpl; [reflexivity|]. intros H.
  apply andb_true_iff in H as [Hc Hr].
  now rewrite (repr_char_plain _ Hc), (IH Hr).
Qed.

Lemma repr_plain s :
  plain s = true -> PyStr.repr s = ("'" ++ s ++ "'")%string.
Proof.
  intros H. unfold PyStr.repr. rewrite (plain_no_quote _ H). simpl.
  now rewrite (repr_body_plain _ H).
Qed.

(* ================================================================== *)
(** ** C1: null-pruning in the curators *)
(* ================================================================== *)

(** C1, as stated, fails.  Three observed (non-null) source values that
    produce no key, and one null source that produces a key:
    - a logged food whose [log_id] is the empty string has no [log_id] key;
    - the fixture's Lunch meal has [logged_foods = []], a list that is not
      [None], and its entry has no [foods] key;
    - a search result whose [nutrition_contents] is [[]] has no [servings] key;
    - a daily log whose [daily_nutrition_goals] is [None] still has the key
      [daily_goals]. *)
Lemma C1_counterexample :
  let lf := LoggedFood.mk (VStr "") None VNone None in
  let sr := SearchResult.mk None (Some []) VNone in
  (LoggedFood.log_id lf <> VNone /\
   dict_has "log_id" (_curate_logged_food lf) = false) /\
  (MealDetail.logged_foods Mock.lunch = Some [] /\
   dict_has "foods" (curate_meal_detail Mock.lunch) = false) /\
  (SearchResult.nutrition_contents sr = Some [] /\
   dict_has "servings" (_curate_search_result sr) = false) /\
  (DailyNutritionLog.daily_nutrition_goals Mock.blank_log = None /\
   dict_has "daily_goals" (_curate_daily_log Mock.blank_log) = true).
Proof.
  cbv zeta. repeat split; try reflexivity. discriminate.
Qed.

(** C1, amended.  No curated key maps to null.  [_curate_nutrition_content]
    and [_curate_food_meta] emit a key exactly when the source field is not
    null, with the source value (a zero is kept).  [_curate_logged_food]
    emits the food-meta keys and [serving_qty] exactly when the field is not
    null, [log_id] exactly when it is truthy (neither null nor empty), and
    [nutrition] exactly when a selected content is present.
    [_curate_daily_log] emits [date] exactly when it is not null and always
    emits [daily_goals], [daily_totals] and [meals]; the entries of goals and
    totals are null-pruned; a meal entry always has [meal_name] and [meal_id],
    has [totals] exactly when the meal has a nutrition content, and has
    [foods] exactly when its logged foods are a non-empty list. *)
Theorem C1_null_pruning :
  (_curate_nutrition_content None = [] /\
   forall nc, let out := _curate_nutrition_content (Some nc) in
     no_null out /\
     dict_get "serving_id" out = kept (NutritionContent.serving_id nc) /\
     dict_get "serving_unit" out = kept (NutritionContent.serving_unit nc) /\
     dict_get "number_of_units" out = kept (NutritionContent.number_of_units nc) /\
     dict_get "calories" out = kept (NutritionContent.calories nc) /\
     dict_get "protein" out = kept (NutritionContent.protein nc) /\
     dict_get "fat" out = kept (NutritionContent.fat nc) /\
     dict_get "carbs" out = kept (NutritionContent.carbs nc) /\
     dict_get "fiber" out = kept (NutritionContent.fiber nc) /\
     dict_get "sugar" out = kept (NutritionContent.sugar nc)) /\
  (_curate_food_meta None = [] /\
   forall fm, let out := _curate_food_meta (Some fm) in
     no_null out /\
     dict_get "food_id" out = kept (FoodMetaData.food_id fm) /\
     dict_get "food_name" out = kept (FoodMetaData.food_name fm) /\
     dict_get "brand_name" out = kept (FoodMetaData.brand_name fm) /\
     dict_get "source" out = kept (FoodMetaData.source fm)) /\
  (forall lf, let out := _curate_logged_food lf in
     no_null out /\
     dict_get "log_id" out =
       (if truthy (LoggedFood.log_id lf) then Some (LoggedFood.log_id lf) else None) /\
     (forall k, In k ["food_id"; "food_name"; "brand_name"; "source"] ->
        dict_get k out = dict_get k (_curate_food_meta (LoggedFood.food_meta_data lf))) /\
     dict_get "serving_qty" out = kept (LoggedFood.serving_qty lf) /\
     dict_get "nutrition" out =
       option_map (fun nc => VDict (_curate_nutrition_content (Some nc)))
                  (LoggedFood.selected_nutrition_content lf)) /\
  (forall log, let out := _curate_daily_log log in
     no_null out /\
     dict_get "date" out = kept (DailyNutritionLog.meal_date log) /\
     dict_has "daily_goals" out = true /\
     dict_has "daily_totals" out = true /\
     dict_has "meals" out = true /\
     no_null (curate_goals log) /\
     no_null (curate_totals log) /\
     (forall g, DailyNutritionLog.daily_nutrition_goals log = Some g ->
        dict_get "calories" (curate_goals log) = kept (MacroGoals.calories g) /\
        dict_get "protein" (curate_goals log) = kept (MacroGoals.protein g) /\
        dict_get "fat" (curate_goals log) = kept (MacroGoals.fat g) /\
        dict_get "carbs" (curate_goals log) = kept (MacroGoals.carbs g)) /\
     (forall t, DailyNutritionLog.daily_nutrition_content log = Some t ->
        dict_get "calories" (curate_totals log) = kept (NutritionContent.calories t) /\
        dict_get "protein" (curate_totals log) = kept (NutritionContent.protein t) /\
        dict_get "fat" (curate_totals log) = kept (NutritionContent.fat t) /\
        dict_get "carbs" (curate_totals log) = kept (NutritionContent.carbs t)) /\
     (forall md, In md (DailyNutritionLog.meal_details log) ->
        let entry := curate_meal_detail md in
        no_null entry /\
        dict_has "meal_name" entry = true /\
        dict_has "meal_id" entry = true /\
        (dict_has "totals" entry = true <-> MealDetail.meal_nutrition_content md <> None) /\
        (dict_has "foods" entry = true <->
           exists f fs, MealDetail.logged_foods md = Some (f :: fs)))).
Proof.
  split; [|split; [|split]].
  - split; [reflexivity|]. intros nc out. subst out.
    split; [apply no_null_prune|].
    repeat split; rewrite nutrition_content_get; reflexivity.
  - split; [reflexivity|]. intros fm out. subst out.
    split; [apply no_null_prune|].
    repeat split; rewrite food_meta_get; reflexivity.
  - intros lf out. subst out.
    split; [apply no_null_logged_food|].
    split; [|split; [|split]].
    + rewrite logged_food_get. simpl.
      now rewrite food_meta_other.
    + intros k Hk. rewrite logged_food_get.
      simpl in Hk. decompose [or] Hk; subst; try contradiction; simpl;
        destruct (dict_get _ _); reflexivity.
    + rewrite logged_food_get. reflexivity.
    + rewrite logged_food_get. reflexivity.
  - intros log out. subst out.
    split; [apply no_null_prune|].
    split; [rewrite daily_log_get; reflexivity|].
    unfold dict_has. rewrite !daily_log_get. simpl.
    split; [reflexivity|]. split; [reflexivity|]. split; [reflexivity|].
    split; [unfold curate_goals; destruct (DailyNutritionLog.daily_nutrition_goals log);
            [apply no_null_prune | apply no_null_nil]|].
    split; [unfold curate_totals; destruct (DailyNutritionLog.daily_nutrition_content log);
            [apply no_null_prune | apply no_null_nil]|].
    split; [|split].
    + intros g Hg. unfold curate_goals. rewrite Hg.
      repeat split; (rewrite dict_get_prune_none by (apply distinct_NoDup; reflexivity));
        reflexivity.
    + intros t Ht. unfold curate_totals. rewrite Ht.
      repeat split; (rewrite dict_get_prune_none by (apply distinct_NoDup; reflexivity));
        reflexivity.
    + intros md _. cbv zeta.
      split; [apply no_null_meal_detail|].
      unfold dict_has. rewrite !meal_detail_get. simpl.
      split; [reflexivity|]. split; [reflexivity|]. split.
      * destruct (MealDetail.meal_nutrition_content md); simpl; split; congruence.
      * destruct (MealDetail.logged_foods md) as [[|f fs]|]; split;
          try discriminate; try (intros [? [? ?]]; discriminate).
        -- intros _. now exists f, fs.
        -- reflexivity.
Qed.

(* ================================================================== *)
(** ** C2: meal-name resolution *)
(* ================================================================== *)

Lemma plain_is_ascii s : plain s = true -> PyStr.is_ascii s = true.
Proof.
  induction s as [|c r IH]; simpl; [reflexivity|]. intros H.
  apply andb_true_iff in H as [Hc Hr]. rewrite (IH Hr), andb_true_r.
  pose proof (ascii_all (fun c => implb (plain_char c) (PyStr.is_ascii_char c))
                eq_refl c) as A.
  simpl in A. now rewrite Hc in A.
Qed.

(** C2.  [_resolve_meal_id] fetches the day's definitions once, trims the
    input and upper-cases it, and returns the [meal_id] of the first
    definition whose upper-cased name is that text, that is, which matches
    case-insensitively; it raises the unknown-meal error when there is
    none.  Trimming returns a part of the input; on an ASCII input it
    removes a run of whitespace at each end and nothing else, and against
    ASCII names the match is the letter-by-letter comparison up to case.
    Against a first definition named "Breakfast", the inputs "breakfast",
    "BREAKFAST" and "Breakfast" all give its id. *)
Theorem C2_resolve_meal_id (w : world) (c : garth_client) (meal : string)
    (day : option string) (meals : list Meal.t) :
  garmin_client w = Some c ->
  c _ (MealDefinitions_get day) = Return meals ->
  run (_resolve_meal_id w meal day) =
    (match first_match w (strip w meal) meals with
     | Some m => Return (Meal.meal_id m)
     | None => Raise (unknown_meal w meal meals)
     end, [Called (MealDefinitions_get day)]) /\
  (exists pre post, meal = (pre ++ strip w meal ++ post)%string) /\
  (PyStr.is_ascii meal = true ->
     (exists pre post,
        meal = (pre ++ strip w meal ++ post)%string /\
        all_space pre = true /\ all_space post = true) /\
     is_space_opt (first_char (strip w meal)) = false /\
     is_space_opt (last_char (strip w meal)) = false /\
     (ascii_names meals = true ->
        first_match w (strip w meal) meals = first_ascii_match (strip w meal) meals)) /\
  (forall id rest, meals = Meal.mk id "Breakfast" :: rest ->
     fst (run (_resolve_meal_id w "breakfast" day)) = Return id /\
     fst (run (_resolve_meal_id w "BREAKFAST" day)) = Return id /\
     fst (run (_resolve_meal_id w "Breakfast" day)) = Return id).
Proof.
  intros Hc Hm. split; [|split; [|split]].
  - unfold run. now rewrite (resolve_run w c Hc meal day meals [] Hm).
  - apply (strip_inside (python w)).
  - intros Ha. rewrite (strip_on_ascii w meal Ha).
    destruct (strip_spec meal) as [H1 [H2 H3]].
    split; [exact H1|]. split; [exact H2|]. split; [exact H3|].
    intros Hn. apply first_match_ascii; [exact Hn | now apply is_ascii_strip].
  - intros id rest ->. unfold run.
    rewrite !(resolve_run w c Hc _ day _ [] Hm). unfold first_match.
    cbn [find Meal.meal_name Meal.meal_id fst].
    rewrite (strip_on_ascii w "breakfast" eq_refl), (strip_on_ascii w "BREAKFAST" eq_refl),
      (strip_on_ascii w "Breakfast" eq_refl).
    rewrite (upper_on_ascii w "Breakfast" eq_refl),
      (upper_on_ascii w (PyStr.strip "breakfast") eq_refl),
      (upper_on_ascii w (PyStr.strip "BREAKFAST") eq_refl),
      (upper_on_ascii w (PyStr.strip "Breakfast") eq_refl).
    repeat split.
Qed.

Lemma C2_resolve_meal_id_witness :
  garmin_client Mock.env = Some Mock.client /\
  Mock.client _ (MealDefinitions_get None) = Return Mock.meals /\
  run (_resolve_meal_id Mock.env "  lunch " None) =
    (Return 645042%Z, [Called (MealDefinitions_get None)]).
Proof.
  split; [reflexivity|]. split; [reflexivity|].
  destruct (C2_resolve_meal_id Mock.env Mock.client "  lunch " None Mock.meals
              eq_refl eq_refl) as [H _].
  rewrite H. reflexivity.
Defined.

(* ================================================================== *)
(** ** C3: the unknown-meal error *)
(* ================================================================== *)

(** C3, as stated, fails on the text: the handler puts its own
    "Error getting recent foods: " in front of the resolver's message, so
    the result is not the string that starts with "Error: Unknown meal". *)
Lemma C3_counterexample :
  first_match Mock.env (strip Mock.env "BRUNCH") Mock.meals = None /\
  run (get_recent_foods Mock.env "BRUNCH" None) =
    (Return (message
       "Error getting recent foods: Unknown meal 'BRUNCH'. Available: ['Breakfast', 'Lunch', 'Dinner', 'Snacks']"),
     [Called (MealDefinitions_get None)]) /\
  fst (run (get_recent_foods Mock.env "BRUNCH" None)) <>
    Return (message
       "Error: Unknown meal 'BRUNCH'. Available: ['Breakfast', 'Lunch', 'Dinner', 'Snacks']").
Proof.
  split; [reflexivity|]. split; [reflexivity|]. discriminate.
Qed.

(** C3, amended.  When the meal name matches none of that day's
    definitions, each handler that resolves a meal returns
    [Error <doing-X>: Unknown meal '<name>'. Available: <list>], where
    <name> is the argument as given and <list> is the interpreter's
    rendering of the list of exactly the definitions' names, in their order
    (each between single quotes and unchanged when the names are plain
    ASCII); the only collaborator call made is the fetch of the
    definitions, so the guarded operation is never invoked. *)
Theorem C3_unknown_meal (w : world) (c : garth_client) (meal : string)
    (day : option string) (meals : list Meal.t) :
  garmin_client w = Some c ->
  c _ (MealDefinitions_get day) = Return meals ->
  first_match w (strip w meal) meals = None ->
  let names := map Meal.meal_name meals in
  let detail := ("Unknown meal '" ++ meal ++ "'. Available: "
                 ++ "[" ++ PyStr.join ", " (map (repr w) names) ++ "]")%string in
  let only_fetch := [Called (MealDefinitions_get day)] in
  run (get_recent_foods w meal day) =
    (Return (message ("Error getting recent foods: " ++ detail)), only_fetch) /\
  (forall date food_id serving_id source serving_qty, day = Some date ->
     run (log_food w date meal food_id serving_id source serving_qty) =
       (Return (message ("Error logging food: " ++ detail)), only_fetch)) /\
  (forall date name calories protein fat carbs, day = Some date ->
     run (quick_add_nutrition w date meal name calories protein fat carbs) =
       (Return (message ("Error quick-adding nutrition: " ++ detail)), only_fetch)) /\
  (forall date log_id food_id serving_id source serving_qty, day = Some date ->
     run (update_food_log w date log_id meal food_id serving_id source serving_qty) =
       (Return (message ("Error updating food log: " ++ detail)), only_fetch)) /\
  (forallb plain names = true ->
     map (repr w) names = map (fun n => ("'" ++ n ++ "'")%string) names).
Proof.
  intros Hc Hm Hn names detail only_fetch.
  assert (R : forall B (k : Z -> M B),
             bind (_resolve_meal_id w meal day) k [] =
             (Raise (unknown_meal w meal meals), only_fetch)).
  { intros B k. exact (resolve_fails w c Hc meal day meals k [] Hm Hn). }
  split; [|split; [|split; [|split]]].
  - unfold run, get_recent_foods. now rewrite (try_report_raise _ _ _ _ _ (R _ _)).
  - intros date food_id serving_id source serving_qty ->.
    unfold run, log_food. cbv zeta. now rewrite (try_report_raise _ _ _ _ _ (R _ _)).
  - intros date name calories protein fat carbs ->.
    unfold run, quick_add_nutrition. now rewrite (try_report_raise _ _ _ _ _ (R _ _)).
  - intros date log_id food_id serving_id source serving_qty ->.
    unfold run, update_food_log. cbv zeta. now rewrite (try_report_raise _ _ _ _ _ (R _ _)).
  - intros Hp. apply map_ext_in. intros n Hin.
    rewrite forallb_forall in Hp. specialize (Hp n Hin).
    rewrite (repr_on_ascii w n (plain_is_ascii n Hp)). now apply repr_plain.
Qed.

Lemma C3_unknown_meal_witness :
  garmin_client Mock.env = Some Mock.client /\
  Mock.client _ (MealDefinitions_get (Some "2024-01-15")) = Return Mock.meals /\
  first_match Mock.env (strip Mock.env "BRUNCH") Mock.meals = None /\
  run (log_food Mock.env "2024-01-15" "BRUNCH" (IdStr "5367") (IdInt 54047 eq_refl)
         "FATSECRET" (VInt 1)) =
    (Return (message
       "Error logging food: Unknown meal 'BRUNCH'. Available: ['Breakfast', 'Lunch', 'Dinner', 'Snacks']"),
     [Called (MealDefinitions_get (Some "2024-01-15"))]).
Proof.
  split; [reflexivity|]. split; [reflexivity|]. split; [reflexivity|].
  destruct (C3_unknown_meal Mock.env Mock.client "BRUNCH" (Some "2024-01-15")
              Mock.meals eq_refl eq_refl eq_refl) as [_ [H _]].
  rewrite (H "2024-01-15" (IdStr "5367") (IdInt 54047 eq_refl) "FATSECRET" (VInt 1) eq_refl).
  reflexivity.
Defined.

(* ================================================================== *)
(** ** C4: errors at the tool boundary *)
(* ================================================================== *)

Lemma create_custom_meal_total (w : world) name foods_json :
  returns_text (create_custom_meal w name foods_json).
Proof.
  unfold returns_text, run, create_custom_meal, try_except.
  match goal with |- context [match ?b [] with _ => _ end] => destruct (b []) as [[x|e] t] end.
  - now exists x, t.
  - destruct (exn_cls e); now eexists _, t.
Qed.

(** No handler raises, whatever the collaborator and the parser do, and
    whether or not the module was configured. *)
Lemma handlers_never_raise (w : world) :
  (forall date, returns_text (get_nutrition_log w date)) /\
  (forall date, returns_text (get_nutrition_summary w date)) /\
  (forall date, returns_text (get_nutrition_settings w date)) /\
  (forall q s l, returns_text (search_foods w q s l)) /\
  (forall meal date, returns_text (get_recent_foods w meal date)) /\
  (forall q s l, returns_text (list_favorite_foods w q s l)) /\
  (forall q s l, returns_text (list_custom_foods w q s l)) /\
  (forall date meal fid sid src qty, returns_text (log_food w date meal fid sid src qty)) /\
  (forall date meal name cal pro fat carb,
     returns_text (quick_add_nutrition w date meal name cal pro fat carb)) /\
  (forall date lid meal fid sid src qty,
     returns_text (update_food_log w date lid meal fid sid src qty)) /\
  (forall date ids, returns_text (remove_food_log w date ids)) /\
  (forall fid sid src qty, returns_text (add_favorite_food w fid sid src qty)) /\
  (forall fid, returns_text (remove_favorite_food w fid)) /\
  (forall name unit n cal pro fat carb fib sug,
     returns_text (create_custom_food w name unit n cal pro fat carb fib sug)) /\
  (forall fid, returns_text (delete_custom_food w fid)) /\
  (forall q s l, returns_text (list_custom_meals w q s l)) /\
  (forall name foods_json, returns_text (create_custom_meal w name foods_json)).
Proof.
  repeat split; intros;
    first [ apply create_custom_meal_total | apply try_report_total ].
Qed.

Lemma report_mentions (sub prefix : string) (e : exn) :
  PyStr.contains sub (exn_str e) = true ->
  PyStr.contains sub (prefix ++ ": " ++ exn_str e)%string = true.
Proof.
  intros H. apply contains_app_r. now apply (contains_app_r sub ": ").
Qed.

Lemma report_says_error (prefix : string) (e : exn) :
  PyStr.starts_with "Error" prefix = true ->
  PyStr.contains "Error" (prefix ++ ": " ++ exn_str e)%string = true.
Proof.
  intros H. apply contains_of_prefix. now apply starts_with_app_l.
Qed.

(** The sibling path: [get_nutrition_log] reports what the collaborator
    raised, whatever its class. *)
Lemma get_nutrition_log_reports (w : world) (c : garth_client) (date : string) (e : exn) :
  garmin_client w = Some c ->
  c _ (DailyNutritionLog_get date) = Raise e ->
  run (get_nutrition_log w date) =
    (Return (message ("Error getting nutrition log: " ++ exn_str e)),
     [Called (DailyNutritionLog_get date)]) /\
  PyStr.contains "Error" ("Error getting nutrition log: " ++ exn_str e)%string = true /\
  (PyStr.contains "API down" (exn_str e) = true ->
   PyStr.contains "API down" ("Error getting nutrition log: " ++ exn_str e)%string = true).
Proof.
  intros Hc He. split; [|split].
  - unfold run, get_nutrition_log.
    now rewrite (try_report_raise _ _ e [] _ (bind_call_raise w c Hc _ e _ [] He)).
  - now apply (report_says_error "Error getting nutrition log" e).
  - apply (report_mentions "API down" "Error getting nutrition log" e).
Qed.

(** [create_custom_meal] does the same for every class but one. *)
Lemma create_custom_meal_reports (w : world) (c : garth_client) name foods (e : exn) :
  garmin_client w = Some c ->
  c _ (CustomMeal_create name foods) = Raise e ->
  exn_cls e <> JSONDecodeError ->
  run (create_custom_meal w name (FoodsList foods)) =
    (Return (message ("Error creating custom meal: " ++ exn_str e)),
     [Called (CustomMeal_create name foods)]).
Proof.
  intros Hc He Hcls. unfold run, create_custom_meal, try_except, create_meal_from.
  rewrite (bind_call_raise w c Hc _ e _ [] He).
  destruct (exn_cls e); try reflexivity. congruence.
Qed.

(** C4: the code at the failing input.  The food list is given as a list,
    so nothing is parsed; the collaborator's create operation raises a
    [JSONDecodeError] whose message mentions "API down"; the first [except]
    clause of [create_custom_meal] catches it and the handler answers that
    [foods_json] is not valid JSON, a text without "API down". *)
Theorem C4_create_custom_meal_masks_collaborator_error :
  let e := mk_exn JSONDecodeError "API down: line 1 column 1 (char 0)" in
  let foods := [VDict [("foodId", VStr "5367")]] in
  run (create_custom_meal (Mock.failing_env e) "Test Meal" (FoodsList foods)) =
    (Return (message "Error: foods_json is not valid JSON"),
     [Called (CustomMeal_create "Test Meal" foods)]) /\
  PyStr.contains "API down" (exn_str e) = true /\
  PyStr.contains "API down" "Error: foods_json is not valid JSON" = false.
Proof. cbv zeta. repeat split. Qed.

(* ================================================================== *)
(** ** C5: batch removal *)
(* ================================================================== *)

(** C5.  [remove_food_log] cuts [log_ids] at the commas (the pieces glued
    with commas are the argument, and no piece holds a comma), trims each
    piece and drops the empty ones.  With no id left it answers
    "Error: no log_ids provided" and calls nothing.  Otherwise it calls the
    removal exactly once, with those ids, and when the removal returns it
    reports [removed_count] equal to their number (2 for "abc123,def456");
    when the removal raises it reports the error. *)
Theorem C5_remove_food_log (w : world) (c : garth_client) (date log_ids : string) :
  garmin_client w = Some c ->
  let ids := parse_log_ids w log_ids in
  let pieces := PyStr.split ","%char log_ids in
  (ids = trimmed_nonempty w pieces /\
   PyStr.join "," pieces = log_ids /\
   forall p, In p pieces -> PyStr.mem_char ","%char p = false) /\
  (ids = [] ->
     run (remove_food_log w date log_ids) =
       (Return (message "Error: no log_ids provided"), [])) /\
  (ids <> [] ->
     snd (run (remove_food_log w date log_ids)) = [Called (FoodLog_remove date ids)] /\
     (c unit (FoodLog_remove date ids) = Return tt ->
        fst (run (remove_food_log w date log_ids)) =
          Return (json_dumps (VDict
            [ ("status", VStr "success");
              ("date", VStr date);
              ("removed_count", VInt (Z.of_nat (length ids))) ]))) /\
     (forall e, c unit (FoodLog_remove date ids) = Raise e ->
        fst (run (remove_food_log w date log_ids)) =
          Return (message ("Error removing food log entries: " ++ exn_str e)))) /\
  PyStr.contains "no log_ids" "Error: no log_ids provided" = true /\
  parse_log_ids w "" = [] /\
  parse_log_ids w "abc123,def456" = ["abc123"; "def456"].
Proof.
  intros Hc ids pieces.
  split; [|split; [|split; [|split; [|split]]]].
  - split; [apply parse_log_ids_spec|]. split; [apply join_split | apply split_no_sep].
  - intros E. unfold run, remove_food_log. cbv zeta. fold ids. now rewrite E.
  - intros Hne. unfold run, remove_food_log. cbv zeta. fold ids.
    destruct ids as [|i r] eqn:E; [congruence|].
    unfold try_except.
    destruct (c unit (FoodLog_remove date (i :: r))) as [[]|e] eqn:Er.
    + rewrite (bind_call_return w c Hc _ tt _ [] Er). simpl.
      split; [reflexivity|]. split; [reflexivity|]. discriminate.
    + rewrite (bind_call_raise w c Hc _ e _ [] Er). simpl.
      split; [reflexivity|]. split; [discriminate|]. now intros e' [= <-].
  - reflexivity.
  - unfold parse_log_ids. cbn [PyStr.split filter].
    rewrite (strip_on_ascii w "" eq_refl). reflexivity.
  - unfold parse_log_ids.
    change (PyStr.split ","%char "abc123,def456") with ["abc123"; "def456"].
    assert (E1 : strip w "abc123" = "abc123")
      by (rewrite strip_on_ascii by reflexivity; reflexivity).
    assert (E2 : strip w "def456" = "def456")
      by (rewrite strip_on_ascii by reflexivity; reflexivity).
    cbn [filter]. rewrite E1, E2.
    cbn [negb String.eqb Ascii.eqb Bool.eqb map]. now rewrite E1, E2.
Qed.

Lemma C5_remove_food_log_witness :
  garmin_client Mock.env = Some Mock.client /\
  run (remove_food_log Mock.env "2024-01-15" " abc123, ,def456,") =
    (Return (json_dumps (VDict
       [ ("status", VStr "success");
         ("date", VStr "2024-01-15");
         ("removed_count", VInt 2) ])),
     [Called (FoodLog_remove "2024-01-15" ["abc123"; "def456"])]).
Proof.
  split; [reflexivity|].
  destruct (C5_remove_food_log Mock.env Mock.client "2024-01-15" " abc123, ,def456,"
              eq_refl) as [_ [_ [H _]]].
  destruct (H ltac:(discriminate)) as [Ht [Hr _]].
  rewrite (surjective_pairing (run _)), Ht, (Hr eq_refl). reflexivity.
Defined.

(* ================================================================== *)
(** ** C6: custom meal creation *)
(* ================================================================== *)

Lemma bind_loads {B} (w : world) (s : string) (k : value -> M B) (t : trace) :
  bind (loads w s) k t =
  match json_loads w s with
  | Return v => k v (t ++ [JsonLoads s])
  | Raise e => (Raise e, t ++ [JsonLoads s])
  end.
Proof. reflexivity. Qed.

(** C6.  A text that [json.loads] rejects gives
    "Error: foods_json is not valid JSON", a text that parses to something
    other than an array gives "Error: foods_json must be a JSON array", and
    in both cases the parse is the only thing that happened: the create
    operation is not invoked.  A list is handed to the create operation as
    it is: nothing is parsed, and the parser has no influence on the run.
    A text that parses to an array continues like that array. *)
Theorem C6_create_custom_meal (w : world) (c : garth_client) (name : string) :
  garmin_client w = Some c ->
  (forall s msg, json_loads w s = Raise (mk_exn JSONDecodeError msg) ->
     run (create_custom_meal w name (FoodsText s)) =
       (Return (message "Error: foods_json is not valid JSON"), [JsonLoads s])) /\
  (forall s v, json_loads w s = Return v -> (forall l, v <> VList l) ->
     run (create_custom_meal w name (FoodsText s)) =
       (Return (message "Error: foods_json must be a JSON array"), [JsonLoads s])) /\
  (forall l,
     snd (run (create_custom_meal w name (FoodsList l))) =
       [Called (CustomMeal_create name l)] /\
     forall loads',
       run (create_custom_meal (mk_world (garmin_client w) loads' (python w)) name
              (FoodsList l)) =
       run (create_custom_meal w name (FoodsList l))) /\
  (forall s l, json_loads w s = Return (VList l) ->
     fst (run (create_custom_meal w name (FoodsText s))) =
       fst (run (create_custom_meal w name (FoodsList l))) /\
     snd (run (create_custom_meal w name (FoodsText s))) =
       [JsonLoads s; Called (CustomMeal_create name l)]) /\
  PyStr.contains "not valid JSON" "Error: foods_json is not valid JSON" = true /\
  "Error: foods_json is not valid JSON" <> "Error: foods_json must be a JSON array".
Proof.
  intros Hc. split; [|split; [|split; [|split; [|split]]]].
  - intros s msg H. unfold run, create_custom_meal, try_except, bind, loads.
    rewrite H. reflexivity.
  - intros s v H Hv. unfold run, create_custom_meal, try_except, bind, loads.
    rewrite H. destruct v; try reflexivity. now destruct (Hv l).
  - intros l. split.
    + unfold run, create_custom_meal, try_except, create_meal_from.
      destruct (c _ (CustomMeal_create name l)) as [r|e] eqn:E.
      * now rewrite (bind_call_return w c Hc _ r _ [] E).
      * rewrite (bind_call_raise w c Hc _ e _ [] E). now destruct (exn_cls e).
    + intros loads'. reflexivity.
  - intros s l H. unfold run, create_custom_meal, try_except, create_meal_from.
    rewrite bind_loads, H.
    destruct (c _ (CustomMeal_create name l)) as [r|e] eqn:E.
    + rewrite !(bind_call_return w c Hc _ r _ _ E). split; reflexivity.
    + rewrite !(bind_call_raise w c Hc _ e _ _ E). destruct (exn_cls e); split; reflexivity.
  - reflexivity.
  - discriminate.
Qed.

Lemma C6_create_custom_meal_witness :
  garmin_client Mock.env = Some Mock.client /\
  json_loads Mock.env "not json" =
    Raise (mk_exn JSONDecodeError "Expecting value: line 1 column 1 (char 0)") /\
  run (create_custom_meal Mock.env "Bad" (FoodsText "not json")) =
    (Return (message "Error: foods_json is not valid JSON"), [JsonLoads "not json"]) /\
  json_loads Mock.env "{}" = Return (VDict []) /\
  run (create_custom_meal Mock.env "Bad" (FoodsText "{}")) =
    (Return (message "Error: foods_json must be a JSON array"), [JsonLoads "{}"]).
Proof.
  destruct (C6_create_custom_meal Mock.env Mock.client "Bad" eq_refl) as [H1 [H2 _]].
  split; [reflexivity|]. split; [reflexivity|].
  split; [exact (H1 "not json" _ eq_refl)|]. split; [reflexivity|].
  apply (H2 "{}" (VDict []) eq_refl). discriminate.
Defined.

(* ================================================================== *)
(** ** C7: summary and full log *)
(* ================================================================== *)

(** C7.  On the log the collaborator returns, [get_nutrition_summary]
    answers a mapping whose keys are exactly [date], [totals], [goals]:
    [date] is the log's date, [totals] and [goals] are the null-pruned
    calories, protein, fat and carbs of the source, and there is no [meals]
    key.  [get_nutrition_log] on the same log answers a mapping whose
    [meals] is a list with one entry per meal detail, in order; each entry
    has the meal's name and id, has [totals] exactly when the meal has a
    nutrition content, and has [foods] exactly when it has logged foods. *)
Theorem C7_summary_and_log (w : world) (c : garth_client) (date : string)
    (log : DailyNutritionLog.t) :
  garmin_client w = Some c ->
  c _ (DailyNutritionLog_get date) = Return log ->
  (exists summary,
     run (get_nutrition_summary w date) =
       (Return (json_dumps (VDict summary)), [Called (DailyNutritionLog_get date)]) /\
     keys summary = ["date"; "totals"; "goals"] /\
     dict_has "meals" summary = false /\
     dict_get "date" summary = Some (DailyNutritionLog.meal_date log) /\
     dict_get "totals" summary = Some (VDict (curate_totals log)) /\
     dict_get "goals" summary = Some (VDict (curate_goals log)) /\
     incl (keys (curate_totals log)) ["calories"; "protein"; "fat"; "carbs"] /\
     incl (keys (curate_goals log)) ["calories"; "protein"; "fat"; "carbs"] /\
     (forall t, DailyNutritionLog.daily_nutrition_content log = Some t ->
        dict_get "calories" (curate_totals log) = kept (NutritionContent.calories t) /\
        dict_get "protein" (curate_totals log) = kept (NutritionContent.protein t) /\
        dict_get "fat" (curate_totals log) = kept (NutritionContent.fat t) /\
        dict_get "carbs" (curate_totals log) = kept (NutritionContent.carbs t)) /\
     (forall g, DailyNutritionLog.daily_nutrition_goals log = Some g ->
        dict_get "calories" (curate_goals log) = kept (MacroGoals.calories g) /\
        dict_get "protein" (curate_goals log) = kept (MacroGoals.protein g) /\
        dict_get "fat" (curate_goals log) = kept (MacroGoals.fat g) /\
        dict_get "carbs" (curate_goals log) = kept (MacroGoals.carbs g))) /\
  (exists full meals,
     run (get_nutrition_log w date) =
       (Return (json_dumps (VDict full)), [Called (DailyNutritionLog_get date)]) /\
     dict_get "meals" full = Some (VList meals) /\
     length meals = length (DailyNutritionLog.meal_details log) /\
     forall i md, nth_error (DailyNutritionLog.meal_details log) i = Some md ->
       exists entry,
         nth_error meals i = Some (VDict entry) /\
         dict_get "meal_name" entry = Some (VStr (Meal.meal_name (MealDetail.meal md))) /\
         dict_get "meal_id" entry = Some (VInt (Meal.meal_id (MealDetail.meal md))) /\
         (dict_has "totals" entry = true <->
            MealDetail.meal_nutrition_content md <> None) /\
         (dict_has "foods" entry = true <->
            exists f fs, MealDetail.logged_foods md = Some (f :: fs))).
Proof.
  intros Hc Hl. split.
  - eexists. split.
    { unfold run, get_nutrition_summary.
      apply try_report_return. rewrite (bind_call_return w c Hc _ log _ [] Hl).
      reflexivity. }
    split; [reflexivity|]. split; [reflexivity|]. split; [reflexivity|].
    split; [reflexivity|]. split; [reflexivity|].
    split; [|split; [|split]].
    + unfold curate_totals. destruct (DailyNutritionLog.daily_nutrition_content log);
        [apply keys_prune_incl | apply incl_nil_l].
    + unfold curate_goals. destruct (DailyNutritionLog.daily_nutrition_goals log);
        [apply keys_prune_incl | apply incl_nil_l].
    + intros t Ht. unfold curate_totals. rewrite Ht.
      repeat split; (rewrite dict_get_prune_none by (apply distinct_NoDup; reflexivity));
        reflexivity.
    + intros g Hg. unfold curate_goals. rewrite Hg.
      repeat split; (rewrite dict_get_prune_none by (apply distinct_NoDup; reflexivity));
        reflexivity.
  - eexists. eexists. split.
    { unfold run, get_nutrition_log.
      apply try_report_return. rewrite (bind_call_return w c Hc _ log _ [] Hl).
      reflexivity. }
    split; [rewrite daily_log_get; reflexivity|].
    split; [apply length_map|].
    intros i md Hi. exists (curate_meal_detail md).
    split; [rewrite nth_error_map, Hi; reflexivity|].
    unfold dict_has. rewrite !meal_detail_get. simpl.
    split; [reflexivity|]. split; [reflexivity|]. split.
    + destruct (MealDetail.meal_nutrition_content md); simpl; split; congruence.
    + destruct (MealDetail.logged_foods md) as [[|f fs]|]; split;
        try discriminate; try (intros [? [? ?]]; discriminate).
      * intros _. now exists f, fs.
      * reflexivity.
Qed.

Lemma C7_summary_and_log_witness :
  garmin_client Mock.env = Some Mock.client /\
  Mock.client _ (DailyNutritionLog_get "2024-01-15") = Return Mock.daily_log /\
  fst (run (get_nutrition_summary Mock.env "2024-01-15")) =
    Return (json_dumps (VDict
      [ ("date", VStr "2024-01-15");
        ("totals", VDict [ ("calories", Mock.fl 1850); ("protein", Mock.fl 95);
                           ("fat", Mock.fl 62); ("carbs", Mock.fl 220) ]);
        ("goals", VDict [ ("calories", Mock.fl 2200); ("protein", Mock.fl 120);
                          ("fat", Mock.fl 73); ("carbs", Mock.fl 275) ]) ])) /\
  (exists full breakfast lunch,
     fst (run (get_nutrition_log Mock.env "2024-01-15")) = Return (json_dumps (VDict full)) /\
     dict_get "meals" full = Some (VList [VDict breakfast; VDict lunch]) /\
     dict_get "meal_name" breakfast = Some (VStr "Breakfast")).
Proof.
  split; [reflexivity|]. split; [reflexivity|].
  destruct (C7_summary_and_log Mock.env Mock.client "2024-01-15" Mock.daily_log
              eq_refl eq_refl) as [[summary [Hs _]] [full [meals [Hf _]]]].
  split.
  - rewrite Hs. simpl. injection Hs as <-. reflexivity.
  - injection Hf as <-.
    eexists _, _, _. repeat split.
Defined.

(* ================================================================== *)
(** ** C8: order and count of curated collections *)
(* ================================================================== *)





(* ================================================================== *)
(** ** C9: the "more data" flag of the listing envelopes *)
(* ================================================================== *)

(** C9, as stated, fails: the envelopes do not carry two differently named
    flags.  The search and the custom-food listing, whose source attribute
    is [more_data_available], answer with the key [has_more] and without a
    key [more_data_available], like the favorites and custom-meal listings. *)
Lemma C9_counterexample :
  exists search custom favs meals,
    fst (run (search_foods Mock.env "apple" 0 20)) = Return (json_dumps (VDict search)) /\
    fst (run (list_custom_foods Mock.env "" 0 20)) = Return (json_dumps (VDict custom)) /\
    fst (run (list_favorite_foods Mock.env "" 0 20)) = Return (json_dumps (VDict favs)) /\
    fst (run (list_custom_meals Mock.env "" 0 20)) = Return (json_dumps (VDict meals)) /\
    dict_has "more_data_available" search = false /\
    dict_has "more_data_available" custom = false /\
    dict_has "has_more" search = true /\
    dict_has "has_more" custom = true /\
    dict_has "has_more" favs = true /\
    dict_has "has_more" meals = true.
Proof. eexists _, _, _, _. repeat split. Qed.

(** C9, amended.  The four listing operations answer with one and the same
    flag name, [has_more]; its value is the collaborator's
    [more_data_available] for the search and the custom-food listing, and
    the collaborator's [has_more] for the favorites and the custom-meal
    listing, passed through unchanged. *)
Theorem C9_has_more_envelopes (w : world) (c : garth_client) (q : string) (s l : Z) :
  garmin_client w = Some c ->
  (forall rs, c _ (FoodSearch_search q s l) = Return rs ->
     exists d,
       fst (run (search_foods w q s l)) = Return (json_dumps (VDict d)) /\
       keys d = ["query"; "results"; "has_more"] /\
       dict_get "has_more" d = Some (SearchResults.more_data_available rs)) /\
  (forall favs, c _ (FavoriteFoods_list q s l) = Return favs ->
     exists d,
       fst (run (list_favorite_foods w q s l)) = Return (json_dumps (VDict d)) /\
       keys d = ["favorites"; "has_more"] /\
       dict_get "has_more" d = Some (FavoriteFoodList.has_more favs)) /\
  (forall foods, c _ (CustomFood_list q s l) = Return foods ->
     exists d,
       fst (run (list_custom_foods w q s l)) = Return (json_dumps (VDict d)) /\
       keys d = ["custom_foods"; "has_more"] /\
       dict_get "has_more" d = Some (CustomFoodList.more_data_available foods)) /\
  (forall meals, c _ (CustomMeal_list q s l) = Return meals ->
     exists d,
       fst (run (list_custom_meals w q s l)) = Return (json_dumps (VDict d)) /\
       keys d = ["custom_meals"; "has_more"] /\
       dict_get "has_more" d = Some (CustomMealList.has_more meals)).
Proof.
  intros Hc. split; [|split; [|split]]; intros r H; eexists; split.
  1: { unfold run, search_foods.
       rewrite (try_report_return _ _ _ [] _ (bind_call_return w c Hc _ r _ [] H)).
       reflexivity. }
  2: { unfold run, list_favorite_foods.
       rewrite (try_report_return _ _ _ [] _ (bind_call_return w c Hc _ r _ [] H)).
       reflexivity. }
  3: { unfold run, list_custom_foods.
       rewrite (try_report_return _ _ _ [] _ (bind_call_return w c Hc _ r _ [] H)).
       reflexivity. }
  4: { unfold run, list_custom_meals.
       rewrite (try_report_return _ _ _ [] _ (bind_call_return w c Hc _ r _ [] H)).
       reflexivity. }
  all: split; reflexivity.
Qed.

Lemma C9_has_more_envelopes_witness :
  garmin_client Mock.env = Some Mock.client /\
  Mock.client _ (CustomFood_list "" 0 20) = Return Mock.custom_foods /\
  exists d,
    fst (run (list_custom_foods Mock.env "" 0 20)) = Return (json_dumps (VDict d)) /\
    keys d = ["custom_foods"; "has_more"] /\
    dict_get "has_more" d = Some (VBool false).
Proof.
  split; [reflexivity|]. split; [reflexivity|].
  destruct (C9_has_more_envelopes Mock.env Mock.client "" 0 20 eq_refl)
    as [_ [_ [H _]]].
  exact (H Mock.custom_foods eq_refl).
Defined.

(* ================================================================== *)
(** ** C10: empty containers at the top level *)
(* ================================================================== *)

(** C10.  The curated full log always has the keys [daily_goals],
    [daily_totals] and [meals], and the summary always has [totals] and
    [goals]; with no goals, no content and no meals in the source their
    values are the empty mapping and the empty list.  The last comprehension
    of [_curate_daily_log] drops [date] when it is null and nothing else:
    the three containers are never null. *)
Theorem C10_containers_always_present (w : world) (c : garth_client) (date : string)
    (log : DailyNutritionLog.t) :
  garmin_client w = Some c ->
  c _ (DailyNutritionLog_get date) = Return log ->
  let full := _curate_daily_log log in
  (keys full =
     (if is_none (DailyNutritionLog.meal_date log) then [] else ["date"])
     ++ ["daily_goals"; "daily_totals"; "meals"] /\
   dict_get "daily_goals" full = Some (VDict (curate_goals log)) /\
   dict_get "daily_totals" full = Some (VDict (curate_totals log)) /\
   dict_get "meals" full =
     Some (VList (map (fun md => VDict (curate_meal_detail md))
                      (DailyNutritionLog.meal_details log))) /\
   (DailyNutritionLog.daily_nutrition_goals log = None ->
      dict_get "daily_goals" full = Some (VDict [])) /\
   (DailyNutritionLog.daily_nutrition_content log = None ->
      dict_get "daily_totals" full = Some (VDict [])) /\
   (DailyNutritionLog.meal_details log = [] ->
      dict_get "meals" full = Some (VList [])) /\
   fst (run (get_nutrition_log w date)) = Return (json_dumps (VDict full))) /\
  (exists summary,
     fst (run (get_nutrition_summary w date)) = Return (json_dumps (VDict summary)) /\
     dict_get "totals" summary = Some (VDict (curate_totals log)) /\
     dict_get "goals" summary = Some (VDict (curate_goals log)) /\
     (DailyNutritionLog.daily_nutrition_content log = None ->
        dict_get "totals" summary = Some (VDict [])) /\
     (DailyNutritionLog.daily_nutrition_goals log = None ->
        dict_get "goals" summary = Some (VDict []))) /\
  (forall (d : dict) k v,
     NoDup (keys d) -> dict_get k d = Some v -> v <> VNone ->
     dict_get k (prune_none d) = Some v) /\
  is_none (VDict []) = false /\ is_none (VList []) = false.
Proof.
  intros Hc Hl full. subst full. split; [|split; [|split; [|split]]].
  - split.
    { unfold _curate_daily_log. cbv zeta. simpl.
      destruct (is_none (DailyNutritionLog.meal_date log)); reflexivity. }
    rewrite !daily_log_get. simpl.
    split; [reflexivity|]. split; [reflexivity|]. split; [reflexivity|].
    split; [intros H; unfold curate_goals; now rewrite H|].
    split; [intros H; unfold curate_totals; now rewrite H|].
    split; [intros H; now rewrite H|].
    unfold run, get_nutrition_log.
    rewrite (try_report_return _ _ _ [] _ (bind_call_return w c Hc _ log _ [] Hl)).
    reflexivity.
  - eexists. split.
    { unfold run, get_nutrition_summary.
      rewrite (try_report_return _ _ _ [] _ (bind_call_return w c Hc _ log _ [] Hl)).
      reflexivity. }
    simpl. split; [reflexivity|]. split; [reflexivity|].
    split; intros H; [unfold curate_totals | unfold curate_goals]; now rewrite H.
  - intros d k v Hd Hk Hv. rewrite (dict_get_prune_none k d Hd), Hk.
    unfold kept. apply not_none_iff in Hv. now rewrite Hv.
  - reflexivity.
  - reflexivity.
Qed.

Lemma C10_containers_always_present_witness :
  garmin_client Mock.blank_env = Some Mock.blank_client /\
  Mock.blank_client _ (DailyNutritionLog_get "2024-01-16") = Return Mock.blank_log /\
  fst (run (get_nutrition_log Mock.blank_env "2024-01-16")) =
    Return (json_dumps (VDict
      [ ("date", VStr "2024-01-16");
        ("daily_goals", VDict []);
        ("daily_totals", VDict []);
        ("meals", VList []) ])) /\
  exists summary,
    fst (run (get_nutrition_summary Mock.blank_env "2024-01-16")) =
      Return (json_dumps (VDict summary)) /\
    dict_get "totals" summary = Some (VDict []) /\
    dict_get "goals" summary = Some (VDict []).
Proof.
  split; [reflexivity|]. split; [reflexivity|].
  destruct (C10_containers_always_present Mock.blank_env Mock.blank_client
              "2024-01-16" Mock.blank_log eq_refl eq_refl)
    as [[_ [_ [_ [_ [_ [_ [_ Hf]]]]]]] [[summary [Hs [_ [_ [Ht Hg]]]]] _]].
  split; [exact Hf|].
  exists summary. split; [exact Hs|]. split; [exact (Ht eq_refl) | exact (Hg eq_refl)].
Defined.

(* ================================================================== *)
(** ** Further properties: meal resolution *)
(* ================================================================== *)

Lemma eq_ignore_case_iff a b :
  eq_ignore_case a b = true <-> PyStr.upper a = PyStr.upper b.
Proof. rewrite eq_ignore_case_upper. apply String.eqb_eq. Qed.

Lemma first_match_ext w a b meals :
  upper w a = upper w b -> first_match w a meals = first_match w b meals.
Proof. intros E. unfold first_match. now rewrite E. Qed.

Lemma all_space_ascii s : all_space s = true -> PyStr.is_ascii s = true.
Proof.
  induction s as [|c r IH]; simpl; [reflexivity|]. intros H.
  apply andb_true_iff in H as [Hc Hr]. rewrite (IH Hr), andb_true_r.
  pose proof (ascii_all (fun c => implb (PyStr.is_space c) (PyStr.is_ascii_char c))
                eq_refl c) as A.
  simpl in A. now rewrite Hc in A.
Qed.

Lemma find_split {A} (f : A -> bool) (l : list A) (x : A) :
  find f l = Some x ->
  exists pre post, l = pre ++ x :: post /\ f x = true /\
                   forall p, In p pre -> f p = false.
Proof.
  induction l as [|y r IH]; simpl; [discriminate|].
  destruct (f y) eqn:E.
  - intros [= ->]. exists [], r. repeat split; [exact E | intros p []].
  - intros H. destruct (IH H) as [pre [post [-> [Hx Hp]]]].
    exists (y :: pre), post. repeat split; [exact Hx|].
    intros p [<-|Hin]; [exact E | now apply Hp].
Qed.

Lemma lstrip_all_space s : all_space s = true -> PyStr.lstrip s = EmptyString.
Proof.
  induction s as [|c r IH]; simpl; [reflexivity|]. intros H.
  apply andb_true_iff in H as [-> H]. now apply IH.
Qed.

Lemma rstrip_all_space s : all_space s = true -> PyStr.rstrip s = EmptyString.
Proof.
  induction s as [|c r IH]; simpl; [reflexivity|]. intros H.
  apply andb_true_iff in H as [-> H]. now rewrite (IH H).
Qed.

Lemma lstrip_pad pre s :
  all_space pre = true -> PyStr.lstrip (pre ++ s)%string = PyStr.lstrip s.
Proof.
  induction pre as [|c r IH]; simpl; [reflexivity|]. intros H.
  apply andb_true_iff in H as [-> H]. now apply IH.
Qed.

Lemma rstrip_pad s post :
  all_space post = true -> PyStr.rstrip (s ++ post)%string = PyStr.rstrip s.
Proof.
  intros H. induction s as [|c r IH]; simpl.
  - now apply rstrip_all_space.
  - now rewrite IH.
Qed.

Lemma strip_pad pre s post :
  all_space pre = true -> all_space post = true ->
  PyStr.strip (pre ++ s ++ post)%string = PyStr.strip s.
Proof.
  intros Hpre Hpost. unfold PyStr.strip. rewrite (lstrip_pad _ _ Hpre).
  induction s as [|c r IH]; simpl.
  - now rewrite (lstrip_all_space _ Hpost).
  - destruct (PyStr.is_space c); [exact IH|].
    change (String c (r ++ post)%string) with (String c r ++ post)%string.
    now apply rstrip_pad.
Qed.

(** X1.  The outcome of a resolution depends on the input only through
    the upper-cased trimmed text: two inputs for which [upper(strip(.))] is
    the same resolve to the same id or both fail.  So do two ASCII inputs
    whose trimmed texts agree letter by letter up to case, and an ASCII
    input with ASCII whitespace put around it. *)
Theorem X1_resolution_ignores_case_and_padding (w : world) (c : garth_client)
    (a b : string) (day : option string) (meals : list Meal.t) :
  garmin_client w = Some c ->
  c _ (MealDefinitions_get day) = Return meals ->
  (upper w (strip w a) = upper w (strip w b) ->
     forall id, fst (run (_resolve_meal_id w a day)) = Return id <->
                fst (run (_resolve_meal_id w b day)) = Return id) /\
  (PyStr.is_ascii a = true -> PyStr.is_ascii b = true ->
   eq_ignore_case (PyStr.strip a) (PyStr.strip b) = true ->
     forall id, fst (run (_resolve_meal_id w a day)) = Return id <->
                fst (run (_resolve_meal_id w b day)) = Return id) /\
  (PyStr.is_ascii a = true ->
   forall pre post id, all_space pre = true -> all_space post = true ->
     (fst (run (_resolve_meal_id w (pre ++ a ++ post) day)) = Return id <->
      fst (run (_resolve_meal_id w a day)) = Return id)).
Proof.
  intros Hc Hm. unfold run.
  assert (G : forall x y, upper w (strip w x) = upper w (strip w y) ->
            forall id, fst (_resolve_meal_id w x day []) = Return id <->
                       fst (_resolve_meal_id w y day []) = Return id).
  { intros x y E id. rewrite !(resolve_run w c Hc _ day meals [] Hm).
    rewrite (first_match_ext w _ _ meals E).
    destruct (first_match w (strip w y) meals); simpl; split; congruence. }
  split; [exact (G a b)|]. split.
  - intros Ha Hb Hab. apply G.
    rewrite (strip_on_ascii w a Ha), (strip_on_ascii w b Hb).
    rewrite (upper_on_ascii w _ (is_ascii_strip a Ha)),
      (upper_on_ascii w _ (is_ascii_strip b Hb)).
    now apply eq_ignore_case_iff.
  - intros Ha pre post id Hpre Hpost. apply G. f_equal.
    assert (Hall : PyStr.is_ascii (pre ++ a ++ post)%string = true).
    { rewrite !is_ascii_app, Ha, (all_space_ascii _ Hpre), (all_space_ascii _ Hpost).
      reflexivity. }
    rewrite (strip_on_ascii w _ Hall), (strip_on_ascii w a Ha).
    now apply strip_pad.
Qed.

Lemma X1_resolution_ignores_case_and_padding_witness :
  garmin_client Mock.env = Some Mock.client /\
  Mock.client _ (MealDefinitions_get None) = Return Mock.meals /\
  PyStr.is_ascii " dinner" = true /\ PyStr.is_ascii "DINNER  " = true /\
  eq_ignore_case (PyStr.strip " dinner") (PyStr.strip "DINNER  ") = true /\
  (fst (run (_resolve_meal_id Mock.env " dinner" None)) = Return 645043%Z <->
   fst (run (_resolve_meal_id Mock.env "DINNER  " None)) = Return 645043%Z).
Proof.
  split; [reflexivity|]. split; [reflexivity|]. split; [reflexivity|].
  split; [reflexivity|]. split; [reflexivity|].
  exact (proj1 (proj2 (X1_resolution_ignores_case_and_padding Mock.env Mock.client
                         " dinner" "DINNER  " None Mock.meals eq_refl eq_refl))
               eq_refl eq_refl eq_refl 645043%Z).
Defined.

(** X2.  A resolved id is the id of a definition of that day whose
    upper-cased name is the upper-cased trimmed input, and no definition
    before it in the list matches (with duplicate names the first wins).
    The resolution succeeds as soon as some definition matches, and when it
    fails the exception is a [ValueError] and no definition matches. *)
Theorem X2_resolution_sound_and_complete (w : world) (c : garth_client)
    (meal : string) (day : option string) (meals : list Meal.t) :
  garmin_client w = Some c ->
  c _ (MealDefinitions_get day) = Return meals ->
  let hit m := String.eqb (upper w (Meal.meal_name m)) (upper w (strip w meal)) in
  (forall id, fst (run (_resolve_meal_id w meal day)) = Return id ->
     exists pre m post,
       meals = pre ++ m :: post /\ Meal.meal_id m = id /\ hit m = true /\
       forall p, In p pre -> hit p = false) /\
  ((exists m, In m meals /\ hit m = true) ->
     exists id, fst (run (_resolve_meal_id w meal day)) = Return id) /\
  (forall e, fst (run (_resolve_meal_id w meal day)) = Raise e ->
     exn_cls e = ValueError /\ forall m, In m meals -> hit m = false).
Proof.
  intros Hc Hm hit. unfold run. rewrite (resolve_run w c Hc meal day meals [] Hm).
  unfold first_match. fold hit.
  destruct (find hit meals) as [m|] eqn:E; simpl.
  - split; [|split].
    + intros id [= <-]. destruct (find_split _ _ _ E) as [pre [post [H1 [H2 H3]]]].
      now exists pre, m, post.
    + intros _. now exists (Meal.meal_id m).
    + discriminate.
  - split; [|split].
    + discriminate.
    + intros [m [Hin Hhit]]. pose proof (find_none _ _ E m Hin) as H.
      unfold hit in *. congruence.
    + intros e [= <-]. split; [reflexivity|].
      intros m Hin. exact (find_none _ _ E m Hin).
Qed.

Lemma X2_resolution_sound_and_complete_witness :
  let twice := [Meal.mk 1 "Snacks"; Meal.mk 2 "SNACKS"] in
  let c : garth_client :=
    fun A r => match r in request T return outcome T with
               | MealDefinitions_get _ => Return twice
               | r' => Mock.client _ r'
               end in
  let w := mk_world (Some c) Mock.loads Mock.ascii_python in
  garmin_client w = Some c /\
  c _ (MealDefinitions_get None) = Return twice /\
  fst (run (_resolve_meal_id w "snacks" None)) = Return 1%Z /\
  exists pre m post,
    twice = pre ++ m :: post /\ Meal.meal_id m = 1%Z /\ pre = [].
Proof.
  intros twice c w.
  split; [reflexivity|]. split; [reflexivity|]. split; [reflexivity|].
  destruct (X2_resolution_sound_and_complete w c "snacks" None twice eq_refl eq_refl)
    as [H _].
  destruct (H 1%Z eq_refl) as [pre [m [post [E [Hid [_ Hpre]]]]]].
  exists pre, m, post. split; [exact E|]. split; [exact Hid|].
  destruct pre as [|p pre]; [reflexivity|].
  injection E as E1 _. subst p.
  specialize (Hpre _ (or_introl eq_refl)). discriminate Hpre.
Defined.

(* ================================================================== *)
(** ** Further properties: failures of the collaborator *)
(* ================================================================== *)

Lemma call_unconfigured (w : world) {A} (r : request A) (t : trace) :
  garmin_client w = None -> call w r t = (Raise no_client, t).
Proof. intros H. unfold call, bind, _garth. now rewrite H. Qed.

Lemma resolve_fetch_raises {B} (w : world) (c : garth_client) meal day (e : exn)
    (k : Z -> M B) (t : trace) :
  garmin_client w = Some c ->
  c _ (MealDefinitions_get day) = Raise e ->
  bind (_resolve_meal_id w meal day) k t =
  (Raise e, t ++ [Called (MealDefinitions_get day)]).
Proof.
  intros Hc H. unfold _resolve_meal_id, bind at 1.
  now rewrite (bind_call_raise w c Hc _ e _ t H).
Qed.

(** X3.  When the one operation a read, list, favorite or custom-food
    handler invokes raises, the handler answers with its own prefix followed
    by the exception's text, whatever the exception's class, and that
    operation is the only call it made. *)
Theorem X3_collaborator_error_is_reported (w : world) (c : garth_client) (e : exn) :
  garmin_client w = Some c ->
  let says prefix := Return (message (prefix ++ ": " ++ exn_str e)) in
  (forall date, c _ (DailyNutritionLog_get date) = Raise e ->
     run (get_nutrition_log w date) =
       (says "Error getting nutrition log", [Called (DailyNutritionLog_get date)]) /\
     run (get_nutrition_summary w date) =
       (says "Error getting nutrition summary", [Called (DailyNutritionLog_get date)])) /\
  (forall date, c _ (NutritionSettings_get date) = Raise e ->
     run (get_nutrition_settings w date) =
       (says "Error getting nutrition settings", [Called (NutritionSettings_get date)])) /\
  (forall q s l, c _ (FoodSearch_search q s l) = Raise e ->
     run (search_foods w q s l) =
       (says "Error searching foods", [Called (FoodSearch_search q s l)])) /\
  (forall q s l, c _ (FavoriteFoods_list q s l) = Raise e ->
     run (list_favorite_foods w q s l) =
       (says "Error listing favorites", [Called (FavoriteFoods_list q s l)])) /\
  (forall q s l, c _ (CustomFood_list q s l) = Raise e ->
     run (list_custom_foods w q s l) =
       (says "Error listing custom foods", [Called (CustomFood_list q s l)])) /\
  (forall q s l, c _ (CustomMeal_list q s l) = Raise e ->
     run (list_custom_meals w q s l) =
       (says "Error listing custom meals", [Called (CustomMeal_list q s l)])) /\
  (forall fid sid src qty,
     c _ (FavoriteFoods_add (str fid) (str sid) src qty) = Raise e ->
     run (add_favorite_food w fid sid src qty) =
       (says "Error adding favorite",
        [Called (FavoriteFoods_add (str fid) (str sid) src qty)])) /\
  (forall fid, c _ (FavoriteFoods_remove (str fid)) = Raise e ->
     run (remove_favorite_food w fid) =
       (says "Error removing favorite", [Called (FavoriteFoods_remove (str fid))])) /\
  (forall name unit n cal pro fat carb fib sug,
     c _ (CustomFood_create name unit n cal pro fat carb fib sug) = Raise e ->
     run (create_custom_food w name unit n cal pro fat carb fib sug) =
       (says "Error creating custom food",
        [Called (CustomFood_create name unit n cal pro fat carb fib sug)])) /\
  (forall fid, c _ (CustomFood_delete (str fid)) = Raise e ->
     run (delete_custom_food w fid) =
       (says "Error deleting custom food", [Called (CustomFood_delete (str fid))])).
Proof.
  intros Hc says. subst says.
  repeat match goal with
         | |- _ /\ _ => split
         | |- forall _, _ => intro
         end;
    unfold run, get_nutrition_log, get_nutrition_summary, get_nutrition_settings,
      search_foods, list_favorite_foods, list_custom_foods, list_custom_meals,
      add_favorite_food, remove_favorite_food, create_custom_food,
      delete_custom_food; cbv zeta;
    match goal with
    | H : c _ ?r = Raise e |- _ =>
        now rewrite (try_report_raise _ _ e [] _ (bind_call_raise w c Hc r e _ [] H))
    end.
Qed.

Lemma X3_collaborator_error_is_reported_witness :
  let e := mk_exn OtherException "401 Unauthorized" in
  garmin_client (Mock.failing_env e) = Some (Mock.failing_client e) /\
  Mock.failing_client e _ (CustomFood_delete "42") = Raise e /\
  run (delete_custom_food (Mock.failing_env e) (IdInt 42 eq_refl)) =
    (Return (message "Error deleting custom food: 401 Unauthorized"),
     [Called (CustomFood_delete "42")]).
Proof.
  intros e. split; [reflexivity|]. split; [reflexivity|].
  destruct (X3_collaborator_error_is_reported (Mock.failing_env e)
              (Mock.failing_client e) e eq_refl)
    as [_ [_ [_ [_ [_ [_ [_ [_ [_ H]]]]]]]]].
  exact (H (IdInt 42 eq_refl) eq_refl).
Defined.

(** X4.  In the four handlers that take a meal name: when the fetch of the
    meal definitions raises, the handler reports that error and has made no
    other call; when the meal resolves and the guarded operation raises,
    the handler reports that error after exactly the fetch and the
    operation, which received the resolved id and the identifiers as
    strings. *)
Theorem X4_meal_handler_errors (w : world) (c : garth_client) (e : exn)
    (meal : string) (date : string) :
  garmin_client w = Some c ->
  let says prefix := Return (message (prefix ++ ": " ++ exn_str e)) in
  let fetch := Called (MealDefinitions_get (Some date)) in
  (c _ (MealDefinitions_get (Some date)) = Raise e ->
     run (get_recent_foods w meal (Some date)) =
       (says "Error getting recent foods", [fetch]) /\
     (forall fid sid src qty,
        run (log_food w date meal fid sid src qty) = (says "Error logging food", [fetch])) /\
     (forall name cal pro fat carb,
        run (quick_add_nutrition w date meal name cal pro fat carb) =
          (says "Error quick-adding nutrition", [fetch])) /\
     (forall lid fid sid src qty,
        run (update_food_log w date lid meal fid sid src qty) =
          (says "Error updating food log", [fetch]))) /\
  (forall meals m,
     c _ (MealDefinitions_get (Some date)) = Return meals ->
     first_match w (strip w meal) meals = Some m ->
     let id := Meal.meal_id m in
     (c _ (FoodSearch_recent id (Some date)) = Raise e ->
        run (get_recent_foods w meal (Some date)) =
          (says "Error getting recent foods",
           [fetch; Called (FoodSearch_recent id (Some date))])) /\
     (forall fid sid src qty,
        c _ (FoodLog_add date id (str fid) (str sid) src qty) = Raise e ->
        run (log_food w date meal fid sid src qty) =
          (says "Error logging food",
           [fetch; Called (FoodLog_add date id (str fid) (str sid) src qty)])) /\
     (forall name cal pro fat carb,
        c _ (QuickAdd_add date id name cal pro fat carb) = Raise e ->
        run (quick_add_nutrition w date meal name cal pro fat carb) =
          (says "Error quick-adding nutrition",
           [fetch; Called (QuickAdd_add date id name cal pro fat carb)])) /\
     (forall lid fid sid src qty,
        c _ (FoodLog_update date (str lid) id (str fid) (str sid) src qty) = Raise e ->
        run (update_food_log w date lid meal fid sid src qty) =
          (says "Error updating food log",
           [fetch; Called (FoodLog_update date (str lid) id (str fid) (str sid) src qty)]))).
Proof.
  intros Hc says fetch. subst says fetch. split.
  - intros He.
    repeat match goal with |- _ /\ _ => split end; intros;
      unfold run, get_recent_foods, log_food, quick_add_nutrition, update_food_log;
      cbv zeta;
      now rewrite (try_report_raise _ _ e [] _
                     (resolve_fetch_raises w c meal (Some date) e _ [] Hc He)).
  - intros meals m Hm Hf id. subst id.
    repeat match goal with |- _ /\ _ => split end; intros;
      unfold run, get_recent_foods, log_food, quick_add_nutrition, update_food_log;
      cbv zeta;
      match goal with
      | H : c _ ?r = Raise e |- _ =>
          erewrite try_report_raise; [reflexivity|];
          rewrite (resolve_succeeds w c Hc meal (Some date) meals m _ [] Hm Hf);
          now rewrite (bind_call_raise w c Hc r e _ _ H)
      end.
Qed.

Lemma X4_meal_handler_errors_witness :
  let e := mk_exn OtherException "API down" in
  garmin_client (flaky_env e) = Some (flaky_client e) /\
  flaky_client e _ (MealDefinitions_get (Some "2024-01-15")) = Return Mock.meals /\
  first_match (flaky_env e) (strip (flaky_env e) "lunch") Mock.meals =
    Some (Meal.mk 645042 "Lunch") /\
  flaky_client e _ (FoodLog_add "2024-01-15" 645042 "5367" "54047" "FATSECRET" (VInt 1))
    = Raise e /\
  run (log_food (flaky_env e) "2024-01-15" "lunch" (IdInt 5367 eq_refl) (IdStr "54047")
         "FATSECRET" (VInt 1)) =
    (Return (message "Error logging food: API down"),
     [Called (MealDefinitions_get (Some "2024-01-15"));
      Called (FoodLog_add "2024-01-15" 645042 "5367" "54047" "FATSECRET" (VInt 1))]).
Proof.
  intros e. split; [reflexivity|]. split; [reflexivity|]. split; [reflexivity|].
  split; [reflexivity|].
  destruct (X4_meal_handler_errors (flaky_env e) (flaky_client e) e "lunch"
              "2024-01-15" eq_refl) as [_ H].
  destruct (H Mock.meals (Meal.mk 645042 "Lunch") eq_refl eq_refl) as [_ [Hlog _]].
  exact (Hlog (IdInt 5367 eq_refl) (IdStr "54047") "FATSECRET" (VInt 1) eq_refl).
Defined.

(* ================================================================== *)
(** ** Further properties: the module before [configure] *)
(* ================================================================== *)

(** X5.  While [garmin_client] is [None], no handler reaches the
    collaborator: each one answers with its prefix and the attribute error
    of [_garth], with an empty trace.  The two local checks still come
    first: [remove_food_log] without ids answers "no log_ids provided", and
    [create_custom_meal] parses a textual food list before it fails.  After
    [configure] the same call goes to the client that was given. *)
Theorem X5_unconfigured_module (w : world) :
  garmin_client w = None ->
  let says prefix := (Return (message (prefix ++ ": " ++ exn_str no_client)), @nil event) in
  (forall date, run (get_nutrition_log w date) = says "Error getting nutrition log") /\
  (forall date, run (get_nutrition_summary w date) = says "Error getting nutrition summary") /\
  (forall date, run (get_nutrition_settings w date) = says "Error getting nutrition settings") /\
  (forall q s l, run (search_foods w q s l) = says "Error searching foods") /\
  (forall meal date, run (get_recent_foods w meal date) = says "Error getting recent foods") /\
  (forall q s l, run (list_favorite_foods w q s l) = says "Error listing favorites") /\
  (forall q s l, run (list_custom_foods w q s l) = says "Error listing custom foods") /\
  (forall date meal fid sid src qty,
     run (log_food w date meal fid sid src qty) = says "Error logging food") /\
  (forall date meal name cal pro fat carb,
     run (quick_add_nutrition w date meal name cal pro fat carb) =
       says "Error quick-adding nutrition") /\
  (forall date lid meal fid sid src qty,
     run (update_food_log w date lid meal fid sid src qty) =
       says "Error updating food log") /\
  (forall date ids, parse_log_ids w ids <> [] ->
     run (remove_food_log w date ids) = says "Error removing food log entries") /\
  (forall date ids, parse_log_ids w ids = [] ->
     run (remove_food_log w date ids) =
       (Return (message "Error: no log_ids provided"), [])) /\
  (forall fid sid src qty,
     run (add_favorite_food w fid sid src qty) = says "Error adding favorite") /\
  (forall fid, run (remove_favorite_food w fid) = says "Error removing favorite") /\
  (forall name unit n cal pro fat carb fib sug,
     run (create_custom_food w name unit n cal pro fat carb fib sug) =
       says "Error creating custom food") /\
  (forall fid, run (delete_custom_food w fid) = says "Error deleting custom food") /\
  (forall q s l, run (list_custom_meals w q s l) = says "Error listing custom meals") /\
  (forall name l,
     run (create_custom_meal w name (FoodsList l)) = says "Error creating custom meal") /\
  (forall name s l, json_loads w s = Return (VList l) ->
     run (create_custom_meal w name (FoodsText s)) =
       (Return (message ("Error creating custom meal: " ++ exn_str no_client)),
        [JsonLoads s])) /\
  (forall c date,
     run (get_nutrition_log (configure c w) date) =
       (match c _ (DailyNutritionLog_get date) with
        | Return log => Return (json_dumps (VDict (_curate_daily_log log)))
        | Raise e => Return (message ("Error getting nutrition log: " ++ exn_str e))
        end, [Called (DailyNutritionLog_get date)])).
Proof.
  intros Hn says. subst says.
  repeat match goal with
         | |- _ /\ _ => split
         | |- forall _, _ => intro
         end;
    unfold run, get_nutrition_log, get_nutrition_summary, get_nutrition_settings,
      search_foods, get_recent_foods, list_favorite_foods, list_custom_foods,
      log_food, quick_add_nutrition, update_food_log, remove_food_log,
      add_favorite_food, remove_favorite_food, create_custom_food,
      delete_custom_food, list_custom_meals, create_custom_meal, create_meal_from,
      _resolve_meal_id, try_except; cbv zeta;
    try (unfold bind at 1; rewrite ?(call_unconfigured w _ _ Hn));
    try (unfold bind at 1; rewrite ?(call_unconfigured w _ _ Hn));
    try reflexivity.
  - destruct (parse_log_ids w ids); [congruence|].
    now rewrite (call_unconfigured w _ _ Hn).
  - match goal with H : parse_log_ids _ _ = [] |- _ => now rewrite H end.
  - unfold loads.
    match goal with H : json_loads _ _ = _ |- _ => rewrite H end.
    now rewrite (call_unconfigured w _ _ Hn).
  - unfold call, bind, _garth, configure. simpl.
    destruct (c _ (DailyNutritionLog_get date)); reflexivity.
Qed.

Lemma X5_unconfigured_module_witness :
  garmin_client unconfigured = None /\
  run (log_food unconfigured "2024-01-15" "lunch" (IdInt 1 eq_refl) (IdInt 2 eq_refl) "GARMIN" (VInt 1)) =
    (Return (message "Error logging food: 'NoneType' object has no attribute 'garth'"),
     []) /\
  fst (run (get_nutrition_log (configure Mock.client unconfigured) "2024-01-15")) =
    Return (json_dumps (VDict (_curate_daily_log Mock.daily_log))).
Proof.
  split; [reflexivity|].
  destruct (X5_unconfigured_module unconfigured eq_refl)
    as [_ [_ [_ [_ [_ [_ [_ [H [_ [_ [_ [_ [_ [_ [_ [_ [_ [_ [_ Hcfg]]]]]]]]]]]]]]]]]]].
  split; [exact (H "2024-01-15" "lunch" (IdInt 1 eq_refl) (IdInt 2 eq_refl) "GARMIN" (VInt 1))|].
  now rewrite (Hcfg Mock.client "2024-01-15").
Defined.

(* ================================================================== *)
(** ** Further properties: how often the collaborator is called *)
(* ================================================================== *)

Ltac explore_run w :=
  unfold calls, run, get_nutrition_log, get_nutrition_summary, get_nutrition_settings,
    search_foods, get_recent_foods, list_favorite_foods, list_custom_foods,
    log_food, quick_add_nutrition, update_food_log, remove_food_log,
    add_favorite_food, remove_favorite_food, create_custom_food,
    delete_custom_food, list_custom_meals, create_custom_meal, create_meal_from,
    _resolve_meal_id, try_except, report, curated_dump, call, loads, _garth,
    bind, ret, raise;
  cbv zeta;
  destruct (garmin_client w) as [?c|]; cbn [fst snd app filter is_call length];
  repeat match goal with
         | |- context [match ?f ?A ?r with Return _ => _ | Raise _ => _ end] =>
             destruct (f A r); cbn [fst snd app filter is_call length]
         | |- context [match json_loads ?w0 ?s with Return _ => _ | Raise _ => _ end] =>
             destruct (json_loads w0 s); cbn [fst snd app filter is_call length]
         | |- context [match scan_meals ?w0 ?u ?m with Some _ => _ | None => _ end] =>
             destruct (scan_meals w0 u m); cbn [fst snd app filter is_call length]
         | |- context [match exn_cls ?e with JSONDecodeError => _ | _ => _ end] =>
             destruct (exn_cls e); cbn [fst snd app filter is_call length]
         | |- context [match parse_log_ids ?w0 ?s with [] => _ | _ => _ end] =>
             destruct (parse_log_ids w0 s); cbn [fst snd app filter is_call length]
         | |- context [match ?v with VList _ => _ | _ => _ end] =>
             is_var v; destruct v; cbn [fst snd app filter is_call length]
         end.

(** X6.  Whatever the collaborator answers and whether or not the module
    is configured, a handler never calls the collaborator more than once,
    apart from the fetch of the meal definitions that precedes the guarded
    operation in the four handlers taking a meal name: nothing is retried.
    [remove_food_log] without ids calls nothing. *)
Theorem X6_call_budget (w : world) :
  (forall date, calls (snd (run (get_nutrition_log w date))) <= 1) /\
  (forall date, calls (snd (run (get_nutrition_summary w date))) <= 1) /\
  (forall date, calls (snd (run (get_nutrition_settings w date))) <= 1) /\
  (forall q s l, calls (snd (run (search_foods w q s l))) <= 1) /\
  (forall q s l, calls (snd (run (list_favorite_foods w q s l))) <= 1) /\
  (forall q s l, calls (snd (run (list_custom_foods w q s l))) <= 1) /\
  (forall q s l, calls (snd (run (list_custom_meals w q s l))) <= 1) /\
  (forall date ids, calls (snd (run (remove_food_log w date ids))) <= 1) /\
  (forall date ids, parse_log_ids w ids = [] ->
     snd (run (remove_food_log w date ids)) = []) /\
  (forall fid sid src qty, calls (snd (run (add_favorite_food w fid sid src qty))) <= 1) /\
  (forall fid, calls (snd (run (remove_favorite_food w fid))) <= 1) /\
  (forall name unit n cal pro fat carb fib sug,
     calls (snd (run (create_custom_food w name unit n cal pro fat carb fib sug))) <= 1) /\
  (forall fid, calls (snd (run (delete_custom_food w fid))) <= 1) /\
  (forall name foods_json, calls (snd (run (create_custom_meal w name foods_json))) <= 1) /\
  (forall meal date, calls (snd (run (get_recent_foods w meal date))) <= 2) /\
  (forall date meal fid sid src qty,
     calls (snd (run (log_food w date meal fid sid src qty))) <= 2) /\
  (forall date meal name cal pro fat carb,
     calls (snd (run (quick_add_nutrition w date meal name cal pro fat carb))) <= 2) /\
  (forall date lid meal fid sid src qty,
     calls (snd (run (update_food_log w date lid meal fid sid src qty))) <= 2).
Proof.
  repeat match goal with
         | |- _ /\ _ => split
         | |- forall _, _ => intro
         end.
  all: try (destruct foods_json).
  all: try match goal with H : parse_log_ids _ _ = [] |- _ =>
             unfold run, remove_food_log; cbv zeta; rewrite H; reflexivity end.
  all: explore_run w; lia.
Qed.

(* ================================================================== *)
(** ** Further properties: the write handlers *)
(* ================================================================== *)

(** X7.  When the meal resolves and the collaborator accepts the write,
    [log_food], [quick_add_nutrition] and [update_food_log] answer with the
    curated form of the daily log the collaborator returned, the very
    document [get_nutrition_log] gives for that log; the collaborator saw
    the fetch of the definitions and then one operation, carrying the
    resolved meal id and the identifiers converted to strings.  An integer
    identifier and its decimal text are interchangeable. *)
Theorem X7_write_handlers_return_curated_log (w : world) (c : garth_client)
    (meal date : string) (meals : list Meal.t) (m : Meal.t) :
  garmin_client w = Some c ->
  c _ (MealDefinitions_get (Some date)) = Return meals ->
  first_match w (strip w meal) meals = Some m ->
  let id := Meal.meal_id m in
  let fetch := Called (MealDefinitions_get (Some date)) in
  let document log := Return (json_dumps (VDict (_curate_daily_log log))) in
  (forall fid sid src qty log,
     c _ (FoodLog_add date id (str fid) (str sid) src qty) = Return log ->
     run (log_food w date meal fid sid src qty) =
       (document log, [fetch; Called (FoodLog_add date id (str fid) (str sid) src qty)])) /\
  (forall name cal pro fat carb log,
     c _ (QuickAdd_add date id name cal pro fat carb) = Return log ->
     run (quick_add_nutrition w date meal name cal pro fat carb) =
       (document log, [fetch; Called (QuickAdd_add date id name cal pro fat carb)])) /\
  (forall lid fid sid src qty log,
     c _ (FoodLog_update date (str lid) id (str fid) (str sid) src qty) = Return log ->
     run (update_food_log w date lid meal fid sid src qty) =
       (document log,
        [fetch; Called (FoodLog_update date (str lid) id (str fid) (str sid) src qty)])) /\
  (forall day log, c _ (DailyNutritionLog_get day) = Return log ->
     fst (run (get_nutrition_log w day)) = document log) /\
  (forall n fits sid src qty,
     run (log_food w date meal (IdInt n fits) sid src qty) =
     run (log_food w date meal (IdStr (PyStr.str_of_int n)) sid src qty)).
Proof.
  intros Hc Hm Hf id fetch document. subst id fetch document.
  split; [|split; [|split; [|split]]].
  - intros fid sid src qty log H. unfold run, log_food. cbv zeta.
    erewrite try_report_return; [reflexivity|].
    rewrite (resolve_succeeds w c Hc meal (Some date) meals m _ [] Hm Hf).
    now rewrite (bind_call_return w c Hc _ log _ _ H).
  - intros name cal pro fat carb log H. unfold run, quick_add_nutrition.
    erewrite try_report_return; [reflexivity|].
    rewrite (resolve_succeeds w c Hc meal (Some date) meals m _ [] Hm Hf).
    now rewrite (bind_call_return w c Hc _ log _ _ H).
  - intros lid fid sid src qty log H. unfold run, update_food_log. cbv zeta.
    erewrite try_report_return; [reflexivity|].
    rewrite (resolve_succeeds w c Hc meal (Some date) meals m _ [] Hm Hf).
    now rewrite (bind_call_return w c Hc _ log _ _ H).
  - intros day log H. unfold run, get_nutrition_log.
    now rewrite (try_report_return _ _ _ [] _ (bind_call_return w c Hc _ log _ [] H)).
  - reflexivity.
Qed.

Lemma X7_write_handlers_return_curated_log_witness :
  garmin_client Mock.env = Some Mock.client /\
  Mock.client _ (MealDefinitions_get (Some "2024-01-15")) = Return Mock.meals /\
  first_match Mock.env (strip Mock.env "Snacks ") Mock.meals =
    Some (Meal.mk 645044 "Snacks") /\
  run (quick_add_nutrition Mock.env "2024-01-15" "Snacks " "Smoothie"
         (Mock.fl 350) (Mock.fl 20) (VInt 0) (VInt 0)) =
    (Return (json_dumps (VDict (_curate_daily_log Mock.daily_log))),
     [Called (MealDefinitions_get (Some "2024-01-15"));
      Called (QuickAdd_add "2024-01-15" 645044 "Smoothie"
                (Mock.fl 350) (Mock.fl 20) (VInt 0) (VInt 0))]).
Proof.
  split; [reflexivity|]. split; [reflexivity|]. split; [reflexivity|].
  destruct (X7_write_handlers_return_curated_log Mock.env Mock.client "Snacks "
              "2024-01-15" Mock.meals (Meal.mk 645044 "Snacks") eq_refl eq_refl eq_refl)
    as [_ [H _]].
  exact (H "Smoothie" (Mock.fl 350) (Mock.fl 20) (VInt 0) (VInt 0) Mock.daily_log eq_refl).
Defined.

(** X8.  [add_favorite_food], [remove_favorite_food] and
    [delete_custom_food] make one call with the identifiers as strings and,
    when it returns, answer a status document that echoes the food id as a
    string, also when the id was given as an integer. *)
Theorem X8_status_documents (w : world) (c : garth_client) :
  garmin_client w = Some c ->
  let status fid :=
    Return (json_dumps (VDict [("status", VStr "success"); ("food_id", VStr (str fid))])) in
  (forall fid sid src qty,
     c _ (FavoriteFoods_add (str fid) (str sid) src qty) = Return tt ->
     run (add_favorite_food w fid sid src qty) =
       (status fid, [Called (FavoriteFoods_add (str fid) (str sid) src qty)])) /\
  (forall fid, c _ (FavoriteFoods_remove (str fid)) = Return tt ->
     run (remove_favorite_food w fid) =
       (status fid, [Called (FavoriteFoods_remove (str fid))])) /\
  (forall fid, c _ (CustomFood_delete (str fid)) = Return tt ->
     run (delete_custom_food w fid) =
       (status fid, [Called (CustomFood_delete (str fid))])) /\
  (forall n fits, status (IdInt n fits) = status (IdStr (PyStr.str_of_int n))).
Proof.
  intros Hc status. subst status.
  split; [|split; [|split]]; intros;
    unfold run, add_favorite_food, remove_favorite_food, delete_custom_food; cbv zeta;
    try match goal with
        | H : c _ ?r = Return tt |- _ =>
            now rewrite (try_report_return _ _ _ [] _
                           (bind_call_return w c Hc r tt _ [] H))
        end.
  reflexivity.
Qed.

Lemma X8_status_documents_witness :
  garmin_client Mock.env = Some Mock.client /\
  Mock.client _ (FavoriteFoods_remove "5367") = Return tt /\
  run (remove_favorite_food Mock.env (IdInt 5367 eq_refl)) =
    (Return (json_dumps (VDict [("status", VStr "success"); ("food_id", VStr "5367")])),
     [Called (FavoriteFoods_remove "5367")]).
Proof.
  split; [reflexivity|]. split; [reflexivity|].
  destruct (X8_status_documents Mock.env Mock.client eq_refl) as [_ [H _]].
  exact (H (IdInt 5367 eq_refl) eq_refl).
Defined.

(* ================================================================== *)
(** ** Further properties: the ids of a batch removal *)
(* ================================================================== *)

Lemma mem_char_app c a b :
  PyStr.mem_char c (a ++ b)%string = PyStr.mem_char c a || PyStr.mem_char c b.
Proof.
  induction a as [|d r IH]; simpl; [reflexivity|]. now rewrite IH, orb_assoc.
Qed.

(** What [strip] returns is a part of its argument, so it holds no
    character the argument does not hold. *)
Lemma mem_char_strip w c s :
  PyStr.mem_char c s = false -> PyStr.mem_char c (strip w s) = false.
Proof.
  intros H. destruct (strip_inside (python w) s) as [pre [post E]].
  rewrite E, !mem_char_app in H. fold (strip w s) in H.
  apply orb_false_iff in H as [_ H]. now apply orb_false_iff in H as [H _].
Qed.

Lemma parse_log_ids_wf w s id :
  In id (parse_log_ids w s) ->
  id <> EmptyString /\ PyStr.mem_char ","%char id = false /\ strip w id = id.
Proof.
  unfold parse_log_ids. intros H.
  apply in_map_iff in H as [p [<- H]]. apply filter_In in H as [Hin Hne].
  split; [|split].
  - intros E. rewrite E in Hne. discriminate.
  - apply mem_char_strip. exact (split_no_sep _ _ _ Hin).
  - apply (strip_idem (python w)).
Qed.

Lemma remove_food_log_trace (w : world) date log_ids :
  snd (run (remove_food_log w date log_ids)) = [] \/
  (parse_log_ids w log_ids <> [] /\
   snd (run (remove_food_log w date log_ids)) =
     [Called (FoodLog_remove date (parse_log_ids w log_ids))]).
Proof.
  unfold run, remove_food_log. cbv zeta.
  destruct (parse_log_ids w log_ids) as [|i r] eqn:E; [now left|].
  unfold try_except.
  destruct (garmin_client w) as [c|] eqn:Hc.
  - right. split; [discriminate|].
    destruct (c unit (FoodLog_remove date (i :: r))) as [[]|e] eqn:Er.
    + now rewrite (bind_call_return w c Hc _ tt _ [] Er).
    + now rewrite (bind_call_raise w c Hc _ e _ [] Er).
  - left. unfold bind at 1. now rewrite (call_unconfigured w _ _ Hc).
Qed.

(** X9.  Whatever the world, the only thing [remove_food_log] ever asks of
    the collaborator is one removal on the given date, and the list it
    sends is never empty and holds only ids that are not empty, contain no
    comma and are already trimmed (stripping them again changes nothing). *)
Theorem X9_removal_request_is_well_formed (w : world) (date log_ids : string)
    (ev : event) :
  In ev (snd (run (remove_food_log w date log_ids))) ->
  let ids := parse_log_ids w log_ids in
  ev = Called (FoodLog_remove date ids) /\
  ids <> [] /\
  forall id, In id ids ->
    id <> EmptyString /\ PyStr.mem_char ","%char id = false /\ strip w id = id.
Proof.
  intros Hin ids. subst ids.
  destruct (remove_food_log_trace w date log_ids) as [E|[Hne E]];
    rewrite E in Hin; [destruct Hin|].
  destruct Hin as [<-|[]].
  split; [reflexivity|]. split; [exact Hne|].
  intros id. apply parse_log_ids_wf.
Qed.

Lemma X9_removal_request_is_well_formed_witness :
  let ev := Called (FoodLog_remove "2024-01-15" ["abc123"; "def456"]) in
  In ev (snd (run (remove_food_log Mock.env "2024-01-15" ",abc123 ,, def456"))) /\
  parse_log_ids Mock.env ",abc123 ,, def456" = ["abc123"; "def456"] /\
  parse_log_ids Mock.env ",abc123 ,, def456" <> [].
Proof.
  intros ev.
  assert (Hin : In ev (snd (run (remove_food_log Mock.env "2024-01-15"
                                   ",abc123 ,, def456")))) by (left; reflexivity).
  split; [exact Hin|]. split; [reflexivity|].
  exact (proj1 (proj2 (X9_removal_request_is_well_formed Mock.env "2024-01-15"
                         ",abc123 ,, def456" ev Hin))).
Defined.

Lemma split_piece sep p :
  PyStr.mem_char sep p = false -> PyStr.split sep p = [p].
Proof.
  induction p as [|c r IH]; simpl; [reflexivity|]. intros H.
  apply orb_false_iff in H as [Hc Hr]. rewrite Ascii.eqb_sym, Hc, (IH Hr). reflexivity.
Qed.

Lemma split_app_sep sep p rest :
  PyStr.mem_char sep p = false ->
  PyStr.split sep (p ++ String sep rest)%string = p :: PyStr.split sep rest.
Proof.
  induction p as [|c r IH]; simpl; intros H.
  - now rewrite Ascii.eqb_refl.
  - apply orb_false_iff in H as [Hc Hr]. rewrite Ascii.eqb_sym, Hc, (IH Hr). reflexivity.
Qed.

(** Cutting what [join] glued gives the pieces back. *)
Lemma split_join sep l :
  l <> [] -> (forall p, In p l -> PyStr.mem_char sep p = false) ->
  PyStr.split sep (PyStr.join (String sep EmptyString) l) = l.
Proof.
  induction l as [|p ps IH]; [congruence|]. intros _ H.
  destruct ps as [|q qs].
  - simpl. apply split_piece, H. now left.
  - rewrite join_cons by discriminate.
    change (String sep "" ++ ?x)%string with (String sep x).
    rewrite split_app_sep by (apply H; now left).
    f_equal. apply IH; [discriminate|]. intros x Hx. apply H. now right.
Qed.

(** X10.  Joining the parsed ids with commas and parsing the result gives
    the same ids: [parse_log_ids] normalises its argument, and a normalised
    argument is read back unchanged. *)
Theorem X10_parse_log_ids_round_trip (w : world) (log_ids : string) :
  parse_log_ids w (PyStr.join "," (parse_log_ids w log_ids)) = parse_log_ids w log_ids.
Proof.
  remember (parse_log_ids w log_ids) as ids eqn:E.
  assert (W : forall id, In id ids ->
            id <> EmptyString /\ PyStr.mem_char ","%char id = false /\
            strip w id = id).
  { intros id Hin. rewrite E in Hin. exact (parse_log_ids_wf _ _ _ Hin). }
  clear E. destruct ids as [|i r].
  { assert (S0 : strip w "" = "").
    { destruct (strip_inside (python w) "") as [pre [post E0]].
      change (py_strip (python w) "") with (strip w "") in E0.
      destruct pre; [|discriminate E0]. simpl in E0.
      destruct (strip w ""); [reflexivity | discriminate E0]. }
    unfold parse_log_ids. cbn [PyStr.join PyStr.split filter].
    now rewrite S0. }
  unfold parse_log_ids at 1.
  rewrite split_join; [|discriminate|intros p Hp; apply (W p Hp)].
  induction (i :: r) as [|x xs IH]; [reflexivity|].
  destruct (W x (or_introl eq_refl)) as [H1 [_ H3]].
  cbn [filter map]. rewrite H3.
  destruct (String.eqb_spec x "") as [->|_]; [congruence|].
  cbn [negb map]. rewrite H3. f_equal.
  apply IH. intros id Hin. apply W. now right.
Qed.

(* ================================================================== *)
(** ** Further properties: the shape of curated mappings *)
(* ================================================================== *)

Lemma keys_set_new k v (d : dict) :
  ~ In k (keys d) -> keys (dict_set k v d) = keys d ++ [k].
Proof.
  induction d as [|[k' v'] r IH]; simpl; intros H; [reflexivity|].
  destruct (String.eqb_spec k k') as [->|Hne].
  - exfalso. apply H. now left.
  - simpl. f_equal. apply IH. intros Hin. apply H. now right.
Qed.

Lemma keys_set_old k v (d : dict) :
  In k (keys d) -> keys (dict_set k v d) = keys d.
Proof.
  induction d as [|[k' v'] r IH]; simpl; intros H; [destruct H|].
  destruct (String.eqb_spec k k') as [->|Hne]; [reflexivity|].
  simpl. f_equal. apply IH. destruct H as [E|H]; [congruence | exact H].
Qed.

Lemma NoDup_keys_set k v (d : dict) :
  NoDup (keys d) -> NoDup (keys (dict_set k v d)).
Proof.
  intros H. destruct (in_dec string_dec k (keys d)) as [Hin|Hnin].
  - now rewrite keys_set_old.
  - rewrite keys_set_new by exact Hnin.
    apply NoDup_app; [exact H | repeat constructor; intros [] |].
    intros x Hx [<-|[]]. contradiction.
Qed.

Lemma incl_keys_set k v (d : dict) :
  incl (keys (dict_set k v d)) (keys d ++ [k]).
Proof.
  destruct (in_dec string_dec k (keys d)) as [Hin|Hnin].
  - rewrite keys_set_old by exact Hin. apply incl_appl, incl_refl.
  - rewrite keys_set_new by exact Hnin. apply incl_refl.
Qed.

Lemma NoDup_keys_update (d o : dict) :
  NoDup (keys d) -> NoDup (keys (dict_update d o)).
Proof.
  unfold dict_update. revert d.
  induction o as [|[k v] r IH]; simpl; intros d H; [exact H|].
  apply IH. now apply NoDup_keys_set.
Qed.

Lemma keys_update_disjoint (d o : dict) :
  NoDup (keys o) -> (forall k, In k (keys o) -> ~ In k (keys d)) ->
  keys (dict_update d o) = keys d ++ keys o.
Proof.
  unfold dict_update. revert d.
  induction o as [|[k v] r IH]; simpl; intros d Ho Hd; [now rewrite app_nil_r|].
  inversion Ho as [|? ? Hnin Hr]; subst.
  rewrite IH; [|exact Hr|].
  - rewrite keys_set_new by (apply Hd; now left).
    now rewrite <- app_assoc.
  - intros k' Hk'. rewrite keys_set_new by (apply Hd; now left).
    intros Hin. apply in_app_or in Hin as [Hin|[<-|[]]].
    + apply (Hd k'); [now right | exact Hin].
    + contradiction.
Qed.

Lemma food_meta_keys_incl fm : incl (keys (_curate_food_meta fm)) food_meta_keys.
Proof.
  destruct fm as [fm|]; [apply keys_prune_incl | apply incl_nil_l].
Qed.

Lemma nutrition_content_keys_incl nc :
  incl (keys (_curate_nutrition_content nc)) nutrition_content_keys.
Proof.
  destruct nc as [nc|]; [apply keys_prune_incl | apply incl_nil_l].
Qed.

Lemma not_food_meta_key k fm :
  existsb (String.eqb k) food_meta_keys = false -> ~ In k (keys (_curate_food_meta fm)).
Proof.
  intros H Hin. apply food_meta_keys_incl in Hin.
  assert (existsb (String.eqb k) food_meta_keys = true) as E.
  { apply existsb_exists. exists k. split; [exact Hin | apply String.eqb_refl]. }
  congruence.
Qed.

Lemma search_result_keys_eq sr :
  keys (_curate_search_result sr) =
  keys (_curate_food_meta (SearchResult.food_meta_data sr))
  ++ (if truthy_list (SearchResult.nutrition_contents sr) then ["servings"] else [])
  ++ (if is_none (SearchResult.is_favorite sr) then [] else ["is_favorite"]).
Proof.
  unfold _curate_search_result. cbv zeta.
  set (fm := _curate_food_meta (SearchResult.food_meta_data sr)).
  assert (H1 : ~ In "servings" (keys fm)) by now apply not_food_meta_key.
  assert (H2 : ~ In "is_favorite" (keys fm)) by now apply not_food_meta_key.
  destruct (truthy_list (SearchResult.nutrition_contents sr));
    destruct (is_none (SearchResult.is_favorite sr)); cbn [negb];
    rewrite ?app_nil_r.
  - now apply keys_set_new.
  - rewrite keys_set_new.
    + rewrite keys_set_new by exact H1. now rewrite <- app_assoc.
    + rewrite keys_set_new by exact H1.
      intros Hin. apply in_app_or in Hin as [Hin|[E|[]]]; [contradiction | discriminate].
  - reflexivity.
  - now apply keys_set_new.
Qed.

Lemma logged_food_keys_eq lf :
  keys (_curate_logged_food lf) =
  (if truthy (LoggedFood.log_id lf) then ["log_id"] else [])
  ++ keys (_curate_food_meta (LoggedFood.food_meta_data lf))
  ++ (if is_none (LoggedFood.serving_qty lf) then [] else ["serving_qty"])
  ++ (if truthy_obj (LoggedFood.selected_nutrition_content lf) then ["nutrition"] else []).
Proof.
  rewrite logged_food_unfold. cbv zeta.
  set (fm := _curate_food_meta (LoggedFood.food_meta_data lf)).
  assert (Hl : ~ In "log_id" (keys fm)) by now apply not_food_meta_key.
  assert (Hq : ~ In "serving_qty" (keys fm)) by now apply not_food_meta_key.
  assert (Hn : ~ In "nutrition" (keys fm)) by now apply not_food_meta_key.
  assert (Hhead : keys (logged_food_head lf) =
                  (if truthy (LoggedFood.log_id lf) then ["log_id"] else []) ++ keys fm).
  { unfold logged_food_head. fold fm.
    rewrite keys_update_disjoint; [|apply NoDup_food_meta|].
    - now destruct (truthy (LoggedFood.log_id lf)).
    - intros k Hk. destruct (truthy (LoggedFood.log_id lf)); simpl; [|tauto].
      intros [<-|[]]. contradiction. }
  assert (Nq : ~ In "serving_qty" (keys (logged_food_head lf))).
  { rewrite Hhead. intros Hin. apply in_app_or in Hin as [Hin|Hin]; [|contradiction].
    destruct (truthy (LoggedFood.log_id lf)); simpl in Hin; [|tauto].
    destruct Hin as [E|[]]. discriminate. }
  assert (Nn : ~ In "nutrition" (keys (logged_food_head lf))).
  { rewrite Hhead. intros Hin. apply in_app_or in Hin as [Hin|Hin]; [|contradiction].
    destruct (truthy (LoggedFood.log_id lf)); simpl in Hin; [|tauto].
    destruct Hin as [E|[]]. discriminate. }
  destruct (is_none (LoggedFood.serving_qty lf));
    destruct (truthy_obj (LoggedFood.selected_nutrition_content lf)); cbn [negb].
  - rewrite keys_set_new by exact Nn. rewrite Hhead. now rewrite <- !app_assoc.
  - rewrite Hhead. now rewrite !app_nil_r.
  - rewrite keys_set_new.
    + rewrite keys_set_new by exact Nq. rewrite Hhead. now rewrite <- !app_assoc.
    + rewrite keys_set_new by exact Nq.
      intros Hin. apply in_app_or in Hin as [Hin|[E|[]]]; [contradiction | discriminate].
  - rewrite keys_set_new by exact Nq. rewrite Hhead. now rewrite <- !app_assoc, app_nil_r.
Qed.

Lemma meal_detail_keys_eq md :
  keys (curate_meal_detail md) =
  ["meal_name"; "meal_id"]
  ++ (if truthy_obj (MealDetail.meal_nutrition_content md) then ["totals"] else [])
  ++ (if truthy_list (MealDetail.logged_foods md) then ["foods"] else []).
Proof.
  unfold curate_meal_detail. cbv zeta.
  destruct (truthy_obj (MealDetail.meal_nutrition_content md));
    destruct (truthy_list (MealDetail.logged_foods md)); reflexivity.
Qed.

(** The keys that survive the [is not None] comprehension, in order. *)
Lemma keys_prune_order (d : dict) :
  NoDup (keys d) ->
  keys (prune_none d) = present_keys (keys d) (prune_none d).
Proof.
  unfold present_keys.
  induction d as [|[k v] r IH]; simpl; intros H; [reflexivity|].
  inversion H as [|? ? Hnin Hr]; subst.
  assert (Hk : ~ In k (keys (prune_none r))).
  { intros Hin. apply Hnin. now apply keys_prune_incl. }
  destruct (is_none v); simpl.
  - unfold dict_has at 1. rewrite (dict_get_notin _ _ Hk). now apply IH.
  - unfold dict_has at 1. simpl. rewrite String.eqb_refl. f_equal.
    rewrite (IH Hr) at 1. apply filter_ext_in.
    intros k' Hin. unfold dict_has. simpl.
    destruct (String.eqb_spec k' k) as [->|_]; [contradiction | reflexivity].
Qed.

Lemma search_result_get k sr :
  dict_get k (_curate_search_result sr) =
  if String.eqb k "is_favorite" then kept (SearchResult.is_favorite sr)
  else if String.eqb k "servings" then
    match SearchResult.nutrition_contents sr with
    | Some (n :: ns) =>
        Some (VList (map (fun nc => VDict (_curate_nutrition_content (Some nc))) (n :: ns)))
    | _ => None
    end
  else dict_get k (_curate_food_meta (SearchResult.food_meta_data sr)).
Proof.
  unfold _curate_search_result, kept. cbv zeta.
  assert (E1 : dict_get "servings" (_curate_food_meta (SearchResult.food_meta_data sr)) = None)
    by now apply food_meta_other.
  assert (E2 : dict_get "is_favorite" (_curate_food_meta (SearchResult.food_meta_data sr)) = None)
    by now apply food_meta_other.
  destruct (is_none (SearchResult.is_favorite sr)); cbn [negb];
    destruct (SearchResult.nutrition_contents sr) as [[|n ns]|]; cbn [truthy_list elements];
    rewrite ?dict_get_set;
    destruct (String.eqb_spec k "is_favorite") as [->|Hf]; cbn [String.eqb Ascii.eqb Bool.eqb];
    try (rewrite E2; reflexivity); try reflexivity;
    destruct (String.eqb_spec k "servings") as [->|Hs]; try (rewrite E1; reflexivity);
    reflexivity.
Qed.

(** X11.  [_curate_search_result] keeps [is_favorite] exactly when it is
    not null, so a [False] flag is reported; it copies the pruned food-meta
    entries unchanged; it never writes a null; and with no food meta at all
    the result still carries the servings and the flag. *)
Theorem X11_search_result_fields (sr : SearchResult.t) :
  let out := _curate_search_result sr in
  no_null out /\
  dict_get "is_favorite" out = kept (SearchResult.is_favorite sr) /\
  (SearchResult.is_favorite sr = VBool false ->
     dict_get "is_favorite" out = Some (VBool false)) /\
  (forall k, In k food_meta_keys ->
     dict_get k out = dict_get k (_curate_food_meta (SearchResult.food_meta_data sr))) /\
  (SearchResult.food_meta_data sr = None ->
     forall k, dict_has k out = true -> k = "servings" \/ k = "is_favorite").
Proof.
  cbv zeta. split; [|split; [|split; [|split]]].
  - intros k. rewrite search_result_get.
    destruct (String.eqb k "is_favorite").
    + unfold kept. destruct (SearchResult.is_favorite sr); discriminate.
    + destruct (String.eqb k "servings").
      * destruct (SearchResult.nutrition_contents sr) as [[|]|]; discriminate.
      * destruct (SearchResult.food_meta_data sr) as [fm|]; [apply no_null_prune | discriminate].
  - rewrite search_result_get. reflexivity.
  - intros H. rewrite search_result_get, H. reflexivity.
  - intros k Hk. rewrite search_result_get.
    simpl in Hk. decompose [or] Hk; subst; try contradiction; reflexivity.
  - intros H k. unfold dict_has. rewrite search_result_get, H.
    destruct (String.eqb_spec k "is_favorite") as [->|_]; [now right|].
    destruct (String.eqb_spec k "servings") as [->|_]; [now left|].
    discriminate.
Qed.

Lemma X11_search_result_fields_witness :
  SearchResult.is_favorite Mock.apple = VBool false /\
  dict_get "is_favorite" (_curate_search_result Mock.apple) = Some (VBool false).
Proof.
  split; [reflexivity|].
  exact (proj1 (proj2 (proj2 (X11_search_result_fields Mock.apple))) eq_refl).
Defined.

(** X12.  Every mapping a curator builds is a proper mapping (its keys are
    pairwise distinct) and holds no key outside that curator's fixed list:
    no attribute of the source object is passed through unasked. *)
Theorem X12_curated_keys_are_allowed :
  (forall nc, let out := _curate_nutrition_content nc in
     NoDup (keys out) /\ incl (keys out) nutrition_content_keys) /\
  (forall fm, let out := _curate_food_meta fm in
     NoDup (keys out) /\ incl (keys out) food_meta_keys) /\
  (forall sr, let out := _curate_search_result sr in
     NoDup (keys out) /\ incl (keys out) search_result_keys) /\
  (forall lf, let out := _curate_logged_food lf in
     NoDup (keys out) /\ incl (keys out) logged_food_keys) /\
  (forall md, let out := curate_meal_detail md in
     NoDup (keys out) /\ incl (keys out) meal_entry_keys) /\
  (forall log, let out := _curate_daily_log log in
     NoDup (keys out) /\ incl (keys out) daily_log_keys).
Proof.
  cbv zeta. repeat match goal with |- _ /\ _ => split | |- forall _, _ => intro end.
  - apply NoDup_nutrition_content.
  - apply nutrition_content_keys_incl.
  - apply NoDup_food_meta.
  - apply food_meta_keys_incl.
  - unfold _curate_search_result. cbv zeta.
    destruct (negb _); destruct (truthy_list _);
      repeat apply NoDup_keys_set; apply NoDup_food_meta.
  - rewrite search_result_keys_eq. unfold search_result_keys.
    apply incl_app; [apply incl_appl, food_meta_keys_incl|].
    apply incl_appr.
    destruct (truthy_list _); destruct (is_none _); simpl;
      intros x Hx; simpl in *; tauto.
  - rewrite logged_food_unfold. cbv zeta.
    destruct (truthy_obj _); destruct (negb _);
      repeat apply NoDup_keys_set; unfold logged_food_head; apply NoDup_keys_update;
      destruct (truthy _); repeat constructor; intros [].
  - rewrite logged_food_keys_eq. unfold logged_food_keys.
    intros x Hx. apply in_app_or in Hx as [Hx|Hx].
    { destruct (truthy _); simpl in Hx; [|tauto]. destruct Hx as [<-|[]]. now left. }
    apply in_app_or in Hx as [Hx|Hx].
    { right. apply in_or_app. left. now apply food_meta_keys_incl in Hx. }
    right. apply in_or_app. right.
    destruct (is_none _); destruct (truthy_obj _); simpl in *; tauto.
  - rewrite meal_detail_keys_eq.
    destruct (truthy_obj _); destruct (truthy_list _); apply distinct_NoDup; reflexivity.
  - rewrite meal_detail_keys_eq. unfold meal_entry_keys.
    destruct (truthy_obj _); destruct (truthy_list _); intros x Hx; simpl in *; tauto.
  - unfold _curate_daily_log. cbv zeta. apply NoDup_keys_prune.
    apply distinct_NoDup. reflexivity.
  - unfold _curate_daily_log. cbv zeta. apply keys_prune_incl.
Qed.

(** X13.  The keys of a curated mapping come in a fixed order, that of the
    curator's list: a nutrition content, a food meta and a daily log list
    their surviving keys in allow-list order; a search result lists the
    food meta, then [servings], then [is_favorite]; a logged food lists
    [log_id], the food meta, [serving_qty], then [nutrition]; a meal entry
    lists [meal_name], [meal_id], [totals], then [foods]. *)
Theorem X13_curated_key_order :
  (forall nc, let out := _curate_nutrition_content (Some nc) in
     keys out = present_keys nutrition_content_keys out) /\
  (forall fm, let out := _curate_food_meta (Some fm) in
     keys out = present_keys food_meta_keys out) /\
  (forall log, let out := _curate_daily_log log in
     keys out = present_keys daily_log_keys out) /\
  (forall sr,
     keys (_curate_search_result sr) =
     keys (_curate_food_meta (SearchResult.food_meta_data sr))
     ++ (if truthy_list (SearchResult.nutrition_contents sr) then ["servings"] else [])
     ++ (if is_none (SearchResult.is_favorite sr) then [] else ["is_favorite"])) /\
  (forall lf,
     keys (_curate_logged_food lf) =
     (if truthy (LoggedFood.log_id lf) then ["log_id"] else [])
     ++ keys (_curate_food_meta (LoggedFood.food_meta_data lf))
     ++ (if is_none (LoggedFood.serving_qty lf) then [] else ["serving_qty"])
     ++ (if truthy_obj (LoggedFood.selected_nutrition_content lf)
         then ["nutrition"] else [])) /\
  (forall md,
     keys (curate_meal_detail md) =
     ["meal_name"; "meal_id"]
     ++ (if truthy_obj (MealDetail.meal_nutrition_content md) then ["totals"] else [])
     ++ (if truthy_list (MealDetail.logged_foods md) then ["foods"] else [])).
Proof.
  cbv zeta. repeat match goal with |- _ /\ _ => split | |- forall _, _ => intro end.
  - unfold _curate_nutrition_content. cbv zeta.
    apply keys_prune_order. apply distinct_NoDup. reflexivity.
  - unfold _curate_food_meta. cbv zeta.
    apply keys_prune_order. apply distinct_NoDup. reflexivity.
  - unfold _curate_daily_log. cbv zeta.
    apply keys_prune_order. apply distinct_NoDup. reflexivity.
  - apply search_result_keys_eq.
  - apply logged_food_keys_eq.
  - apply meal_detail_keys_eq.
Qed.

(* ================================================================== *)
(** ** Further properties: settings, summary, recent foods, custom meals *)
(* ================================================================== *)

(** X14.  [get_nutrition_settings] prunes nulls at the top level only.  The
    two weights are reported under [starting_weight_grams] and
    [target_weight_goal_grams]; every top-level key appears exactly when its
    source is not null; [macro_goals] appears exactly when the settings have
    macro goals, and then always with its four keys, a null goal included:
    the nested mapping is not pruned. *)
Theorem X14_settings_prune_top_level_only (w : world) (c : garth_client)
    (date : option string) (s : NutritionSettings.t) :
  garmin_client w = Some c ->
  c _ (NutritionSettings_get date) = Return s ->
  exists d,
    run (get_nutrition_settings w date) =
      (Return (json_dumps (VDict d)), [Called (NutritionSettings_get date)]) /\
    no_null d /\
    incl (keys d) settings_keys /\
    dict_get "calorie_goal" d = kept (NutritionSettings.calorie_goal s) /\
    dict_get "weight_change_type" d = kept (NutritionSettings.weight_change_type s) /\
    dict_get "auto_calorie_adjustment" d =
      kept (NutritionSettings.auto_calorie_adjustment s) /\
    dict_get "region_code" d = kept (NutritionSettings.region_code s) /\
    dict_get "language_code" d = kept (NutritionSettings.language_code s) /\
    dict_get "starting_weight_grams" d = kept (NutritionSettings.starting_weight s) /\
    dict_get "target_weight_goal_grams" d = kept (NutritionSettings.target_weight_goal s) /\
    dict_get "target_date" d = kept (NutritionSettings.target_date s) /\
    dict_get "macro_goals" d =
      option_map (fun mg => VDict [ ("calories", MacroGoals.calories mg);
                                    ("protein", MacroGoals.protein mg);
                                    ("fat", MacroGoals.fat mg);
                                    ("carbs", MacroGoals.carbs mg) ])
                 (NutritionSettings.macro_goals s).
Proof.
  intros Hc Hs. eexists. split.
  { unfold run, get_nutrition_settings.
    rewrite (try_report_return _ _ _ [] _ (bind_call_return w c Hc _ s _ [] Hs)).
    reflexivity. }
  split; [apply no_null_prune|].
  destruct (NutritionSettings.macro_goals s) as [mg|]; cbn [dict_set String.eqb
    Ascii.eqb Bool.eqb option_map].
  - split.
    { eapply incl_tran; [apply keys_prune_incl|]. apply incl_refl. }
    repeat split; (rewrite dict_get_prune_none by (apply distinct_NoDup; reflexivity));
      reflexivity.
  - split.
    { eapply incl_tran; [apply keys_prune_incl|].
      intros x Hx. simpl in *. tauto. }
    repeat split; (rewrite dict_get_prune_none by (apply distinct_NoDup; reflexivity));
      reflexivity.
Qed.

Lemma X14_settings_prune_top_level_only_witness :
  garmin_client partial_settings_env = Some partial_settings_client /\
  partial_settings_client _ (NutritionSettings_get None) = Return partial_settings /\
  fst (run (get_nutrition_settings partial_settings_env None)) =
    Return (json_dumps (VDict
      [ ("calorie_goal", VInt 2200);
        ("region_code", VStr "DE");
        ("macro_goals", VDict [ ("calories", Mock.fl 2200); ("protein", VNone);
                                ("fat", Mock.fl 73); ("carbs", Mock.fl 275) ]) ])).
Proof.
  split; [reflexivity|]. split; [reflexivity|].
  destruct (X14_settings_prune_top_level_only partial_settings_env
              partial_settings_client None partial_settings eq_refl eq_refl)
    as [d [H _]].
  rewrite H. injection H as <-. reflexivity.
Defined.

(** X15.  On the same log the summary and the full log agree on the totals
    and on the goals.  They differ on a missing date: the summary is not
    pruned and reports [date] as null, the full log leaves the key out. *)
Theorem X15_summary_agrees_with_log (w : world) (c : garth_client) (date : string)
    (log : DailyNutritionLog.t) :
  garmin_client w = Some c ->
  c _ (DailyNutritionLog_get date) = Return log ->
  exists summary full,
    fst (run (get_nutrition_summary w date)) = Return (json_dumps (VDict summary)) /\
    fst (run (get_nutrition_log w date)) = Return (json_dumps (VDict full)) /\
    dict_get "totals" summary = dict_get "daily_totals" full /\
    dict_get "goals" summary = dict_get "daily_goals" full /\
    (DailyNutritionLog.meal_date log <> VNone ->
       dict_get "date" summary = dict_get "date" full) /\
    (DailyNutritionLog.meal_date log = VNone ->
       dict_get "date" summary = Some VNone /\ dict_get "date" full = None).
Proof.
  intros Hc Hl. eexists _, _. split.
  { unfold run, get_nutrition_summary.
    rewrite (try_report_return _ _ _ [] _ (bind_call_return w c Hc _ log _ [] Hl)).
    reflexivity. }
  split.
  { unfold run, get_nutrition_log.
    rewrite (try_report_return _ _ _ [] _ (bind_call_return w c Hc _ log _ [] Hl)).
    reflexivity. }
  rewrite !daily_log_get. cbn [dict_get String.eqb Ascii.eqb Bool.eqb].
  split; [reflexivity|]. split; [reflexivity|]. split.
  - intros H. unfold kept. apply not_none_iff in H. now rewrite H.
  - intros ->. split; reflexivity.
Qed.

Lemma X15_summary_agrees_with_log_witness :
  garmin_client undated_env = Some undated_client /\
  undated_client _ (DailyNutritionLog_get "2024-01-17") = Return undated_log /\
  fst (run (get_nutrition_summary undated_env "2024-01-17")) =
    Return (json_dumps (VDict
      [("date", VNone); ("totals", VDict []); ("goals", VDict [])])) /\
  fst (run (get_nutrition_log undated_env "2024-01-17")) =
    Return (json_dumps (VDict
      [("daily_goals", VDict []); ("daily_totals", VDict []); ("meals", VList [])])).
Proof.
  split; [reflexivity|]. split; [reflexivity|].
  destruct (X15_summary_agrees_with_log undated_env undated_client "2024-01-17"
              undated_log eq_refl eq_refl) as [summary [full [Hs [Hf _]]]].
  split.
  - rewrite Hs. injection Hs as <-. reflexivity.
  - rewrite Hf. injection Hf as <-. reflexivity.
Defined.

(** X16.  When the create operation returns, [create_custom_meal] answers
    with the id and name of the created meal as they are (not pruned), with
    [food_count] equal to the number of foods of the created meal (not of
    the list that was sent), and with [totals] exactly when the created
    meal has a content summary. *)
Theorem X16_created_meal_document (w : world) (c : garth_client) (name : string)
    (foods : list value) (r : CustomMealDetail.t) :
  garmin_client w = Some c ->
  c _ (CustomMeal_create name foods) = Return r ->
  exists d,
    run (create_custom_meal w name (FoodsList foods)) =
      (Return (json_dumps (VDict d)), [Called (CustomMeal_create name foods)]) /\
    keys d = ["custom_meal_id"; "name"; "food_count"]
             ++ (if truthy_obj (CustomMealDetail.content_summary r) then ["totals"] else []) /\
    dict_get "custom_meal_id" d = Some (CustomMealDetail.custom_meal_id r) /\
    dict_get "name" d = Some (CustomMealDetail.name r) /\
    dict_get "food_count" d =
      Some (VInt (Z.of_nat (length (CustomMealDetail.foods r)))) /\
    dict_get "totals" d =
      option_map (fun nc => VDict (_curate_nutrition_content (Some nc)))
                 (CustomMealDetail.content_summary r).
Proof.
  intros Hc Hr. eexists. split.
  { unfold run, create_custom_meal, try_except, create_meal_from.
    rewrite (bind_call_return w c Hc _ r _ [] Hr). reflexivity. }
  destruct (CustomMealDetail.content_summary r); repeat split.
Qed.

Lemma X16_created_meal_document_witness :
  garmin_client Mock.env = Some Mock.client /\
  Mock.client _ (CustomMeal_create "Test Meal" []) = Return Mock.custom_meal_created /\
  exists d,
    fst (run (create_custom_meal Mock.env "Test Meal" (FoodsList []))) =
      Return (json_dumps (VDict d)) /\
    dict_get "food_count" d = Some (VInt 1) /\
    dict_get "custom_meal_id" d = Some (VInt 12345).
Proof.
  split; [reflexivity|]. split; [reflexivity|].
  destruct (X16_created_meal_document Mock.env Mock.client "Test Meal" []
              Mock.custom_meal_created eq_refl eq_refl)
    as [d [H [_ [Hid [_ [Hn _]]]]]].
  exists d. split; [now rewrite H|]. split; [exact Hn | exact Hid].
Defined.

(** X17.  On success [get_recent_foods] fetches the definitions and the
    recent foods for the same day, and echoes [meal.upper()]: the argument
    upper-cased but not trimmed, although the lookup used the trimmed
    name. *)
Theorem X17_recent_foods_echo (w : world) (c : garth_client) (meal : string)
    (day : option string) (meals : list Meal.t) (m : Meal.t) (rf : RecentFoods.t) :
  garmin_client w = Some c ->
  c _ (MealDefinitions_get day) = Return meals ->
  first_match w (strip w meal) meals = Some m ->
  c _ (FoodSearch_recent (Meal.meal_id m) day) = Return rf ->
  exists d,
    run (get_recent_foods w meal day) =
      (Return (json_dumps (VDict d)),
       [Called (MealDefinitions_get day); Called (FoodSearch_recent (Meal.meal_id m) day)]) /\
    keys d = ["meal"; "frequent_foods"; "recent_foods"] /\
    dict_get "meal" d = Some (VStr (upper w meal)) /\
    (PyStr.is_ascii meal = true ->
       dict_get "meal" d = Some (VStr (PyStr.upper meal))).
Proof.
  intros Hc Hm Hf Hr. eexists. split.
  { unfold run, get_recent_foods.
    erewrite try_report_return; [reflexivity|].
    rewrite (resolve_succeeds w c Hc meal day meals m _ [] Hm Hf).
    now rewrite (bind_call_return w c Hc _ rf _ _ Hr). }
  split; [reflexivity|]. split; [reflexivity|].
  intros Ha. cbn [dict_get String.eqb Ascii.eqb Bool.eqb].
  now rewrite (upper_on_ascii w meal Ha).
Qed.

Lemma X17_recent_foods_echo_witness :
  garmin_client Mock.env = Some Mock.client /\
  Mock.client _ (MealDefinitions_get None) = Return Mock.meals /\
  first_match Mock.env (strip Mock.env " breakfast ") Mock.meals =
    Some (Meal.mk 645041 "Breakfast") /\
  Mock.client _ (FoodSearch_recent 645041 None) = Return Mock.recent_foods /\
  exists d,
    fst (run (get_recent_foods Mock.env " breakfast " None)) =
      Return (json_dumps (VDict d)) /\
    dict_get "meal" d = Some (VStr " BREAKFAST ").
Proof.
  split; [reflexivity|]. split; [reflexivity|]. split; [reflexivity|].
  split; [reflexivity|].
  destruct (X17_recent_foods_echo Mock.env Mock.client " breakfast " None Mock.meals
              (Meal.mk 645041 "Breakfast") Mock.recent_foods
              eq_refl eq_refl eq_refl eq_refl) as [d [H [_ [Hm _]]]].
  exists d. split; [now rewrite H | exact Hm].
Defined.

(** X18.  When [json.loads] fails with anything but a [JSONDecodeError]
    (a recursion error on deep nesting, say), [create_custom_meal] falls
    through to the generic wrapper and reports that exception's text; the
    create operation is not invoked. *)
Theorem X18_other_parse_failure (w : world) (name s : string) (e : exn) :
  json_loads w s = Raise e ->
  exn_cls e <> JSONDecodeError ->
  run (create_custom_meal w name (FoodsText s)) =
    (Return (message ("Error creating custom meal: " ++ exn_str e)), [JsonLoads s]).
Proof.
  intros H Hcls. unfold run, create_custom_meal, try_except.
  rewrite bind_loads, H. destruct (exn_cls e); try reflexivity. congruence.
Qed.

Lemma X18_other_parse_failure_witness :
  json_loads deep_env "[[[[]]]]" = Raise recursion_error /\
  exn_cls recursion_error <> JSONDecodeError /\
  run (create_custom_meal deep_env "Deep" (FoodsText "[[[[]]]]")) =
    (Return (message "Error creating custom meal: maximum recursion depth exceeded"),
     [JsonLoads "[[[[]]]]"]).
Proof.
  split; [reflexivity|]. split; [discriminate|].
  apply (X18_other_parse_failure deep_env "Deep" "[[[[]]]]" recursion_error eq_refl).
  discriminate.
Defined.

(** X19.  The listing handlers hand [query], [start] and [limit] to the
    collaborator as given: no default is substituted and no bound is
    applied, a [limit] above 50 or below 0 included.  [search_foods] echoes
    the query in its answer. *)
Theorem X19_pagination_is_forwarded (w : world) (c : garth_client)
    (q : string) (s l : Z) :
  garmin_client w = Some c ->
  snd (run (search_foods w q s l)) = [Called (FoodSearch_search q s l)] /\
  snd (run (list_favorite_foods w q s l)) = [Called (FavoriteFoods_list q s l)] /\
  snd (run (list_custom_foods w q s l)) = [Called (CustomFood_list q s l)] /\
  snd (run (list_custom_meals w q s l)) = [Called (CustomMeal_list q s l)] /\
  (forall rs, c _ (FoodSearch_search q s l) = Return rs ->
     exists d, fst (run (search_foods w q s l)) = Return (json_dumps (VDict d)) /\
               dict_get "query" d = Some (VStr q)).
Proof.
  intros Hc.
  assert (T : forall A (r : request A) (k : A -> M text) prefix,
            snd (try_except (bind (call w r) k) (report prefix) []) = [Called r] \/
            exists a, c A r = Return a /\
              try_except (bind (call w r) k) (report prefix) [] =
              try_except (k a) (report prefix) [Called r]).
  { intros A r k prefix. destruct (c A r) as [a|e] eqn:E.
    - right. exists a. split; [reflexivity|]. unfold try_except.
      now rewrite (bind_call_return w c Hc r a k [] E).
    - left. now rewrite (try_report_raise _ _ e [] _ (bind_call_raise w c Hc r e k [] E)). }
  repeat split.
  - unfold run, search_foods.
    destruct (T _ (FoodSearch_search q s l)
                (fun results => curated_dump
                   [("query", VStr q);
                    ("results", curate_all (SearchResults.results results));
                    ("has_more", SearchResults.more_data_available results)])
                "Error searching foods") as [H|[a [_ H]]]; [exact H | now rewrite H].
  - unfold run, list_favorite_foods.
    destruct (T _ (FavoriteFoods_list q s l)
                (fun favs => curated_dump
                   [("favorites", curate_all (FavoriteFoodList.items favs));
                    ("has_more", FavoriteFoodList.has_more favs)])
                "Error listing favorites") as [H|[a [_ H]]]; [exact H | now rewrite H].
  - unfold run, list_custom_foods.
    destruct (T _ (CustomFood_list q s l)
                (fun foods => curated_dump
                   [("custom_foods", curate_all (CustomFoodList.items foods));
                    ("has_more", CustomFoodList.more_data_available foods)])
                "Error listing custom foods") as [H|[a [_ H]]]; [exact H | now rewrite H].
  - unfold run, list_custom_meals.
    destruct (T _ (CustomMeal_list q s l)
                (fun meals => curated_dump
                   [("custom_meals", curate_all (CustomMealList.items meals));
                    ("has_more", CustomMealList.has_more meals)])
                "Error listing custom meals") as [H|[a [_ H]]]; [exact H | now rewrite H].
  - intros rs H. eexists. split.
    { unfold run, search_foods.
      now rewrite (try_report_return _ _ _ [] _ (bind_call_return w c Hc _ rs _ [] H)). }
    reflexivity.
Qed.

Lemma X19_pagination_is_forwarded_witness :
  garmin_client Mock.env = Some Mock.client /\
  snd (run (search_foods Mock.env "apple" (-5) 5000)) =
    [Called (FoodSearch_search "apple" (-5) 5000)].
Proof.
  split; [reflexivity|].
  exact (proj1 (X19_pagination_is_forwarded Mock.env Mock.client "apple" (-5) 5000 eq_refl)).
Defined.

(** X20.  When the collaborator returns the created food,
    [create_custom_food] answers with that food curated like a search
    result, after one call carrying the arguments as given (an omitted
    macro is passed on as null); the answer is the very entry
    [list_custom_foods] shows for that food. *)
Theorem X20_created_food_document (w : world) (c : garth_client)
    (name unit : string) (n cal pro fat carb fib sug : value)
    (created : SearchResult.t) :
  garmin_client w = Some c ->
  c _ (CustomFood_create name unit n cal pro fat carb fib sug) = Return created ->
  run (create_custom_food w name unit n cal pro fat carb fib sug) =
    (Return (json_dumps (VDict (_curate_search_result created))),
     [Called (CustomFood_create name unit n cal pro fat carb fib sug)]) /\
  (forall q s l listing,
     c _ (CustomFood_list q s l) = Return listing ->
     In created (CustomFoodList.items listing) ->
     exists d entries,
       fst (run (list_custom_foods w q s l)) = Return (json_dumps (VDict d)) /\
       dict_get "custom_foods" d = Some (VList entries) /\
       In (VDict (_curate_search_result created)) entries).
Proof.
  intros Hc H. split.
  - unfold run, create_custom_food.
    now rewrite (try_report_return _ _ _ [] _ (bind_call_return w c Hc _ created _ [] H)).
  - intros q s l listing Hl Hin. eexists _, _. split.
    { unfold run, list_custom_foods.
      now rewrite (try_report_return _ _ _ [] _ (bind_call_return w c Hc _ listing _ [] Hl)). }
    split; [reflexivity|].
    apply (in_map (fun r => VDict (_curate_search_result r))). exact Hin.
Qed.

Lemma X20_created_food_document_witness :
  garmin_client Mock.env = Some Mock.client /\
  Mock.client _ (CustomFood_create "Test Food" "G" (Mock.fl 100) (Mock.fl 250)
                   VNone VNone VNone VNone VNone) = Return Mock.custom_food_created /\
  fst (run (create_custom_food Mock.env "Test Food" "G" (Mock.fl 100) (Mock.fl 250)
              VNone VNone VNone VNone VNone)) =
    Return (json_dumps (VDict
      [ ("food_id", VStr "custom2"); ("food_name", VStr "Test Food");
        ("source", VStr "GARMIN");
        ("servings", VList [VDict [ ("serving_id", VStr "cs2"); ("serving_unit", VStr "G");
                                    ("number_of_units", Mock.fl 100);
                                    ("calories", Mock.fl 250) ]]) ])).
Proof.
  split; [reflexivity|]. split; [reflexivity|].
  destruct (X20_created_food_document Mock.env Mock.client "Test Food" "G"
              (Mock.fl 100) (Mock.fl 250) VNone VNone VNone VNone VNone
              Mock.custom_food_created eq_refl eq_refl) as [H _].
  rewrite H. reflexivity.
Defined.
